(** * PeopleOps dashboard

    A shallow embedding of the access model and of the page handlers of the
    dashboard: the tables and row-level policies of the SQL migrations, the
    role resolver [useRole], and the handlers of the Leaves, Attendance,
    Profile and Dashboard pages, followed by the properties proved of them.

    Conventions.
    - A table is the list of its rows, in insertion order.
    - [auth.uid()] is an [option uuid]; [None] is SQL's NULL, so a comparison
      with it never holds.
    - A timestamp is the number of milliseconds since the epoch, the value
      [Date.prototype.getTime] returns; the server clock ([NOW()]) and the
      browser clock ([new Date()]) are separate inputs.
    - A handler is a function from the store (and the page state) to the store
      (and the page state) it leaves behind; a failed request leaves the
      store as it was. *)

From Stdlib Require Import ZArith List String Ascii Bool Lia Permutation Sorted.
From Stdlib Require Import Uint63 PrimFloat FloatOps SpecFloat.
Import ListNotations.
Local Open Scope string_scope.
Local Open Scope bool_scope.

(** ** Scalar types of the schema *)

Definition uuid := string.
Definition timestamptz := Z.
Definition date := string.

(** [CREATE TYPE public.app_role AS ENUM ('admin', 'user')] *)
Inductive app_role : Set := admin | user.

(** [CREATE TYPE public.leave_type AS ENUM ('sick', 'vacation', 'personal', 'other')] *)
Inductive leave_type : Set := sick | vacation | personal | other.

(** [CREATE TYPE public.leave_status AS ENUM ('pending', 'approved', 'rejected')] *)
Inductive leave_status : Set := pending | approved | rejected.

Definition app_role_eqb (a b : app_role) : bool :=
  match a, b with
  | admin, admin | user, user => true
  | _, _ => false
  end.

Definition leave_status_eqb (a b : leave_status) : bool :=
  match a, b with
  | pending, pending | approved, approved | rejected, rejected => true
  | _, _ => false
  end.

Definition app_role_label (r : app_role) : string :=
  match r with admin => "admin" | user => "user" end.

Definition leave_status_label (s : leave_status) : string :=
  match s with
  | pending => "pending" | approved => "approved" | rejected => "rejected"
  end.

(** Input syntax of the [leave_type] enum: any other text is refused. *)
Definition leave_type_in (s : string) : option leave_type :=
  if s =? "sick" then Some sick
  else if s =? "vacation" then Some vacation
  else if s =? "personal" then Some personal
  else if s =? "other" then Some other
  else None.

(** The text an [<input type="date">] submits, within the range of a [DATE]
    column: a year of four digits or more (without a leading zero when more
    than four) from 1 to 5874897, a month of the calendar and a day of that
    month, as [Y-MM-DD]. The store reads such a text as that date and gives
    it back in the same spelling. *)
Definition digit (c : ascii) : option nat :=
  let n := nat_of_ascii c in
  if (48 <=? n)%nat && (n <=? 57)%nat then Some (n - 48)%nat else None.

Definition two_digits (a b : ascii) : option nat :=
  match digit a, digit b with
  | Some x, Some y => Some (10 * x + y)%nat
  | _, _ => None
  end.

Fixpoint digits_value (cs : list ascii) (acc : Z) : option Z :=
  match cs with
  | [] => Some acc
  | c :: cs' =>
      match digit c with
      | Some d => digits_value cs' (10 * acc + Z.of_nat d)%Z
      | None => None
      end
  end.

Definition leap_year (y : Z) : bool :=
  ((y mod 4 =? 0) && negb (y mod 100 =? 0) || (y mod 400 =? 0))%Z.

Definition days_in_month (y : Z) (m : nat) : nat :=
  match m with
  | 1 | 3 | 5 | 7 | 8 | 10 | 12 => 31
  | 4 | 6 | 9 | 11 => 30
  | 2 => if leap_year y then 29 else 28
  | _ => 0
  end%nat.

Definition year_digits (ys : list ascii) : bool :=
  match ys with
  | [_; _; _; _] => true
  | y1 :: _ :: _ :: _ :: _ :: _ => negb (Ascii.eqb y1 "0")
  | _ => false
  end.

Definition is_iso_date (s : string) : bool :=
  match rev (list_ascii_of_string s) with
  | d2 :: d1 :: h2 :: m2 :: m1 :: h1 :: ry =>
      let ys := rev ry in
      match digits_value ys 0, two_digits m1 m2, two_digits d1 d2 with
      | Some y, Some m, Some d =>
          Ascii.eqb h1 "-" && Ascii.eqb h2 "-"
          && year_digits ys
          && (1 <=? y)%Z && (y <=? 5874897)%Z
          && (1 <=? d)%nat && (d <=? days_in_month y m)%nat
      | _, _, _ => false
      end
  | _ => false
  end.


(** ** Tables *)

Module Profiles.
Record row : Set := {
  id : uuid;
  name : string;
  email : string;
  department : option string;
  hire_date : option date;
  created_at : timestamptz;
  updated_at : timestamptz
}.
End Profiles.

Module UserRoles.
Record row : Set := {
  id : uuid;
  user_id : uuid;
  role : app_role;
  created_at : timestamptz
}.
End UserRoles.

Module AdminData.
Record row : Set := {
  id : uuid;
  user_id : uuid;
  position : option string;
  salary : option Z;
  notes : option string;
  created_at : timestamptz;
  updated_at : timestamptz
}.
End AdminData.

Module Leaves.
Record row : Set := {
  id : uuid;
  user_id : uuid;
  type : leave_type;
  start_date : date;
  end_date : date;
  reason : string;
  status : leave_status;
  review_notes : option string;
  reviewed_by : option uuid;
  reviewed_at : option timestamptz;
  created_at : timestamptz;
  updated_at : timestamptz
}.
End Leaves.

Module Attendance.
Record row : Set := {
  id : uuid;
  user_id : uuid;
  clock_in : timestamptz;
  clock_out : option timestamptz;
  notes : option string;
  marked_by : uuid;
  created_at : timestamptz;
  updated_at : timestamptz
}.
End Attendance.

Module ActivityLogs.
Record row : Set := {
  id : uuid;
  user_id : uuid;
  action : string;
  description : option string;
  created_at : timestamptz
}.
End ActivityLogs.

(** The store: one list of rows per table. *)
Module Db.
Record t : Set := {
  profiles : list Profiles.row;
  user_roles : list UserRoles.row;
  admin_data : list AdminData.row;
  leaves : list Leaves.row;
  attendance : list Attendance.row;
  activity_logs : list ActivityLogs.row
}.

Definition empty : t :=
  {| profiles := []; user_roles := []; admin_data := []; leaves := [];
     attendance := []; activity_logs := [] |}.

Definition with_profiles (db : t) (rows : list Profiles.row) : t :=
  {| profiles := rows; user_roles := user_roles db; admin_data := admin_data db;
     leaves := leaves db; attendance := attendance db; activity_logs := activity_logs db |}.

Definition with_user_roles (db : t) (rows : list UserRoles.row) : t :=
  {| profiles := profiles db; user_roles := rows; admin_data := admin_data db;
     leaves := leaves db; attendance := attendance db; activity_logs := activity_logs db |}.

Definition with_admin_data (db : t) (rows : list AdminData.row) : t :=
  {| profiles := profiles db; user_roles := user_roles db; admin_data := rows;
     leaves := leaves db; attendance := attendance db; activity_logs := activity_logs db |}.

Definition with_leaves (db : t) (rows : list Leaves.row) : t :=
  {| profiles := profiles db; user_roles := user_roles db; admin_data := admin_data db;
     leaves := rows; attendance := attendance db; activity_logs := activity_logs db |}.

Definition with_attendance (db : t) (rows : list Attendance.row) : t :=
  {| profiles := profiles db; user_roles := user_roles db; admin_data := admin_data db;
     leaves := leaves db; attendance := rows; activity_logs := activity_logs db |}.

Definition with_activity_logs (db : t) (rows : list ActivityLogs.row) : t :=
  {| profiles := profiles db; user_roles := user_roles db; admin_data := admin_data db;
     leaves := leaves db; attendance := attendance db; activity_logs := rows |}.
End Db.

Definition database : Set := Db.t.

(** ** The role predicates of the store *)

(** [auth.uid() = x]: never true for an unauthenticated caller. *)
Definition is_uid (uid : option uuid) (x : uuid) : bool :=
  match uid with
  | Some u => u =? x
  | None => false
  end.

(** [public.has_role(_user_id, _role)]:
    [SELECT EXISTS (SELECT 1 FROM user_roles WHERE user_id = _user_id AND role = _role)]. *)
Definition has_role (db : database) (_user_id : option uuid) (_role : app_role) : bool :=
  existsb
    (fun r => is_uid _user_id (UserRoles.user_id r) && app_role_eqb (UserRoles.role r) _role)
    (Db.user_roles db).

(** [public.get_user_role(_user_id)]:
    [SELECT role FROM user_roles WHERE user_id = _user_id LIMIT 1]. *)
Definition get_user_role (db : database) (_user_id : option uuid) : option app_role :=
  match filter (fun r => is_uid _user_id (UserRoles.user_id r)) (Db.user_roles db) with
  | [] => None
  | r :: _ => Some (UserRoles.role r)
  end.

(** ** Row-level policies, as the migrations leave them *)

Module Policy.

(** "Users can view own leaves or admins view all" *)
Definition leaves_select (db : database) (uid : option uuid) (l : Leaves.row) : bool :=
  is_uid uid (Leaves.user_id l) || has_role db uid admin.

(** "Users can insert own leaves" *)
Definition leaves_insert (uid : option uuid) (l : Leaves.row) : bool :=
  is_uid uid (Leaves.user_id l).

(** "Admins can update leaves": the same expression is USING and WITH CHECK. *)
Definition leaves_update (db : database) (uid : option uuid) (l : Leaves.row) : bool :=
  has_role db uid admin.

(** "Admins can delete leaves" *)
Definition leaves_delete (db : database) (uid : option uuid) (l : Leaves.row) : bool :=
  has_role db uid admin.

(** "Profiles viewable by owner or admin"; the sub-select on [leaves] is
    itself read under the caller's policy on [leaves]. *)
Definition profiles_select (db : database) (uid : option uuid) (p : Profiles.row) : bool :=
  is_uid uid (Profiles.id p)
  || has_role db uid admin
  || existsb
       (fun l => (Leaves.user_id l =? Profiles.id p)
                 && (is_uid uid (Leaves.user_id l) || has_role db uid admin))
       (filter (leaves_select db uid) (Db.leaves db)).

(** "Users can update own profile": USING and WITH CHECK. *)
Definition profiles_update (uid : option uuid) (p : Profiles.row) : bool :=
  is_uid uid (Profiles.id p).

(** "Users can insert own profile" *)
Definition profiles_insert (uid : option uuid) (p : Profiles.row) : bool :=
  is_uid uid (Profiles.id p).

(** "Users can view own role or admins can view all", or-ed with the
    FOR ALL policy "Only admins can manage roles". *)
Definition user_roles_select (db : database) (uid : option uuid) (r : UserRoles.row) : bool :=
  (is_uid uid (UserRoles.user_id r) || has_role db uid admin) || has_role db uid admin.

(** "Only admins can manage roles" (FOR ALL, so also for writes). *)
Definition user_roles_write (db : database) (uid : option uuid) (r : UserRoles.row) : bool :=
  has_role db uid admin.

(** "Only admins can view admin data" *)
Definition admin_data_select (db : database) (uid : option uuid) (r : AdminData.row) : bool :=
  has_role db uid admin.

(** "Only admins can insert / update / delete admin data" *)
Definition admin_data_write (db : database) (uid : option uuid) (r : AdminData.row) : bool :=
  has_role db uid admin.

(** "Users can view own attendance" *)
Definition attendance_select (db : database) (uid : option uuid) (a : Attendance.row) : bool :=
  is_uid uid (Attendance.user_id a) || has_role db uid admin.

(** "Only admins can insert attendance" *)
Definition attendance_insert (db : database) (uid : option uuid) (a : Attendance.row) : bool :=
  has_role db uid admin.

(** "Only admins can update attendance": USING and WITH CHECK. *)
Definition attendance_update (db : database) (uid : option uuid) (a : Attendance.row) : bool :=
  has_role db uid admin.

(** "Users can view own activity logs" *)
Definition activity_logs_select (db : database) (uid : option uuid) (r : ActivityLogs.row) : bool :=
  is_uid uid (ActivityLogs.user_id r) || has_role db uid admin.

(** "Users can insert own activity logs" *)
Definition activity_logs_insert (uid : option uuid) (r : ActivityLogs.row) : bool :=
  is_uid uid (ActivityLogs.user_id r).

End Policy.

(** ** The data API *)

Record PostgrestError : Set := { code : string; message : string }.

(** What a request resolves to: [{ data, error }]. *)
Record response (A : Type) : Type := { data : option A; error : option PostgrestError }.
Arguments data {A} _.
Arguments error {A} _.

(** What [await] gives: the resolved value, or an exception. *)
Inductive awaited (A : Type) : Type :=
| Resolved (r : A)
| Thrown (msg : string).
Arguments Resolved {A} r.
Arguments Thrown {A} msg.

Definition ok {A : Type} (x : A) : response A := {| data := Some x; error := None |}.
Definition failed {A : Type} (c m : string) : response A :=
  {| data := None; error := Some {| code := c; message := m |} |}.

(** [.maybeSingle()]: no row is [null] without an error, one row is that
    row, more rows are an error. *)
Definition maybeSingle {A : Type} (rows : list A) : response A :=
  match rows with
  | [] => {| data := None; error := None |}
  | [x] => ok x
  | _ :: _ :: _ => failed "PGRST116" "JSON object requested, multiple (or no) rows returned"
  end.

(** [.single()]: exactly one row, or an error. *)
Definition single {A : Type} (rows : list A) : response A :=
  match rows with
  | [x] => ok x
  | _ => failed "PGRST116" "JSON object requested, multiple (or no) rows returned"
  end.

(** A write answers with the store it leaves and its error, if any. *)
Definition write_result : Set := (database * option PostgrestError)%type.

Definition refused (db : database) (c m : string) : write_result :=
  (db, Some {| code := c; message := m |}).

(** The input conversion of [DATE] on a text that is not in the form's
    spelling is PostgreSQL's and not in the repository: it is taken as
    given. It answers with the error the text is refused with (22007 for a
    malformed text, 22008 for a date out of range), or with the date the
    text is read as, in the spelling the store gives back. *)
Class DateInput : Type := { other_date_in : string -> PostgrestError + date }.

(** A text written to a [DATE] column, or cast with [::DATE]. *)
Definition date_in {DI : DateInput} (s : string) : PostgrestError + date :=
  if is_iso_date s then inr s else other_date_in s.

(** The refusal of a row by a WITH CHECK expression names the table. *)
Definition double_quote : string := String (ascii_of_nat 34) EmptyString.

Definition rls_message (table : string) : string :=
  "new row violates row-level security policy for table "
  ++ double_quote ++ table ++ double_quote.

Definition rls_violation (db : database) (table : string) : write_result :=
  refused db "42501" (rls_message table).

(** An embedded resource [target(...)] or [target!hint(...)] of a select is
    read through a relationship between the two tables: the one the hint
    names or, without a hint, the only one there is. With several and no hint
    the request is refused (PGRST201). *)
Definition resolve_embed (hint : option string) (relationships : list string)
  : option string :=
  match hint with
  | Some h => if existsb (String.eqb h) relationships then Some h else None
  | None =>
      match relationships with
      | [r] => Some r
      | _ => None
      end
  end.

(** The foreign keys to [profiles]: [leaves] has two, on [user_id] and on
    [reviewed_by]; [attendance] has one, on [user_id]. *)
Definition leaves_to_profiles : list string :=
  ["leaves_user_id_fkey"; "leaves_reviewed_by_fkey"].


(** [UPDATE t SET ... WHERE cond] under a policy: the rows the USING
    expression and the filter both accept are rewritten; the statement fails
    as a whole when a rewritten row does not pass WITH CHECK or a constraint. *)
Definition update_rows {A : Type} (using_expr with_check constraints : A -> bool)
    (cond : A -> bool) (set : A -> A) (rows : list A) : option (list A) :=
  let hit r := using_expr r && cond r in
  if forallb (fun r => if hit r then with_check (set r) && constraints (set r) else true) rows
  then Some (map (fun r => if hit r then set r else r) rows)
  else None.

(** [ORDER BY key DESC], as a stable insertion sort. *)
Fixpoint insert_desc {A : Type} (key : A -> Z) (x : A) (l : list A) : list A :=
  match l with
  | [] => [x]
  | y :: l' => if (key y <? key x)%Z then x :: l else y :: insert_desc key x l'
  end.

Definition order_desc {A : Type} (key : A -> Z) (l : list A) : list A :=
  fold_right (insert_desc key) [] l.

(** A string is falsy in JavaScript exactly when it is empty. *)
Definition truthy_string (s : string) : bool := negb (s =? "").

(** ** hooks/useRole.tsx *)

Module UseRole.

(** [export type UserRole = "admin" | "user" | null] *)
Definition UserRole : Set := option app_role.

(** The row shape of [.select("role")]. *)
Record role_row : Set := { data_role : app_role }.

(** The hook's state, and what it wrote with [console.error]. *)
Record state : Set := {
  role : UserRole;
  loading : bool;
  console : list string
}.

Definition initial : state := {| role := None; loading := true; console := [] |}.

(** [data?.role || "user"] *)
Definition role_or_user (d : option role_row) : app_role :=
  match d with
  | Some r => if truthy_string (app_role_label (data_role r)) then data_role r else user
  | None => user
  end.

(** [user?.id], when it is truthy: the id of a signed-in user, unless empty. *)
Definition user_id_of (cur_user : option uuid) : option uuid :=
  match cur_user with
  | Some id => if truthy_string id then Some id else None
  | None => None
  end.

(** [fetchRole], over whatever the request to [user_roles] comes back with. *)
Definition fetchRole (cur_user : option uuid)
    (request : uuid -> awaited (response role_row)) (st : state) : state :=
  match user_id_of cur_user with
  | None => {| role := None; loading := false; console := console st |}
  | Some id =>
      match request id with
      | Resolved r =>
          match error r with
          | Some e =>
              {| role := Some user; loading := false;
                 console := console st ++ ["Error fetching role:"] |}
          | None =>
              {| role := Some (role_or_user (data r)); loading := false;
                 console := console st |}
          end
      | Thrown msg =>
          {| role := Some user; loading := false;
             console := console st ++ ["Error fetching role:"] |}
      end
  end.

(** [const isAdmin = role === "admin"] *)
Definition isAdmin (st : state) : bool :=
  match role st with
  | Some admin => true
  | _ => false
  end.

(** The request itself:
    [from("user_roles").select("role").eq("user_id", id).maybeSingle()],
    answered by the store under the caller's policy. *)
Definition select_role (db : database) (uid : option uuid) (id : uuid) : response role_row :=
  maybeSingle
    (map (fun r => {| data_role := UserRoles.role r |})
       (filter (fun r => UserRoles.user_id r =? id)
          (filter (Policy.user_roles_select db uid) (Db.user_roles db)))).

(** The hook against a reachable store. *)
Definition useRole (db : database) (cur_user : option uuid) (st : state) : state :=
  fetchRole cur_user (fun id => Resolved (select_role db cur_user id)) st.

End UseRole.

(** ** pages/Dashboard.tsx *)

Module Dashboard.

Record stats : Set := {
  totalEmployees : Z;
  pendingLeaves : Z;
  activeEmployees : Z
}.

(** The answer to a [select("id", { count: "exact", head: true })]. *)
Record count_response : Set := {
  count : option Z;
  count_error : option PostgrestError
}.

Record state : Set := {
  stats_of : stats;
  loading : bool;
  console : list string
}.

Definition initial : state :=
  {| stats_of := {| totalEmployees := 0; pendingLeaves := 0; activeEmployees := 0 |};
     loading := true;
     console := [] |}.

(** [count || 0] *)
Definition or_zero (c : option Z) : Z :=
  match c with
  | Some n => if (n =? 0)%Z then 0%Z else n
  | None => 0%Z
  end.

(** [fetchStats], over the outcome of the [Promise.all] of its two requests. *)
Definition fetchStats (res : awaited (count_response * count_response)) (st : state) : state :=
  match res with
  | Resolved (employeesRes, leavesRes) =>
      {| stats_of :=
           {| totalEmployees := or_zero (count employeesRes);
              pendingLeaves := or_zero (count leavesRes);
              activeEmployees := or_zero (count employeesRes) |};
         loading := false;
         console := console st |}
  | Thrown msg =>
      {| stats_of := stats_of st;
         loading := false;
         console := console st ++ ["Error fetching stats:"] |}
  end.

(** [statCards]: title and value of each card. *)
Definition statCards (st : state) : list (string * Z) :=
  [ ("Total Employees", totalEmployees (stats_of st));
    ("Pending Leaves", pendingLeaves (stats_of st));
    ("Active Employees", activeEmployees (stats_of st)) ].

(** What a card shows: a skeleton while loading, then its value. *)
Definition card_value (st : state) (title : string) : option Z :=
  if loading st then None
  else
    match find (fun c => fst c =? title) (statCards st) with
    | Some c => Some (snd c)
    | None => None
    end.

(** The two requests, answered by the store under the caller's policies. *)
Definition count_profiles (db : database) (uid : option uuid) : count_response :=
  {| count := Some (Z.of_nat (List.length (filter (Policy.profiles_select db uid) (Db.profiles db))));
     count_error := None |}.

Definition count_pending_leaves (db : database) (uid : option uuid) : count_response :=
  {| count :=
       Some (Z.of_nat (List.length
         (filter (fun l => leave_status_eqb (Leaves.status l) pending)
            (filter (Policy.leaves_select db uid) (Db.leaves db)))));
     count_error := None |}.

End Dashboard.

(** Membership of a key in a column, for primary and foreign keys. *)
Definition has_key {A : Type} (key : A -> uuid) (k : uuid) (rows : list A) : bool :=
  existsb (fun r => key r =? k) rows.

(** A nullable foreign key: NULL references nothing and is always allowed. *)
Definition references_profile (db : database) (k : option uuid) : bool :=
  match k with
  | Some id => has_key Profiles.id id (Db.profiles db)
  | None => true
  end.

(** ** The Leaves page (second component of pages/Employees.tsx) *)

Module LeavesPage.

(** The embedded [profiles(name)]. *)
Record profile_name : Set := { name : string }.

(** [interface Leave]: the columns [fetchLeaves] selects. *)
Record Leave : Set := {
  id : string;
  type : leave_type;
  start_date : string;
  end_date : string;
  reason : string;
  status : leave_status;
  review_notes : option string;
  created_at : timestamptz;
  profiles : option profile_name
}.

Record state : Set := {
  leaves : list Leave;
  loading : bool;
  dialogOpen : bool;
  leaveType : string;
  toasts : list string
}.

Definition initial : state :=
  {| leaves := []; loading := true; dialogOpen := false; leaveType := ""; toasts := [] |}.

Definition toast (msg : string) (st : state) : state :=
  {| leaves := leaves st; loading := loading st; dialogOpen := dialogOpen st;
     leaveType := leaveType st; toasts := toasts st ++ [msg] |}.

(** The profile a row embeds, read under the caller's policy on [profiles]. *)
Definition embed_profile (db : database) (uid : option uuid) (owner : uuid) : option profile_name :=
  match find (fun p => Profiles.id p =? owner)
             (filter (Policy.profiles_select db uid) (Db.profiles db)) with
  | Some p => Some {| name := Profiles.name p |}
  | None => None
  end.

Definition select_columns (db : database) (uid : option uuid) (l : Leaves.row) : Leave :=
  {| id := Leaves.id l;
     type := Leaves.type l;
     start_date := Leaves.start_date l;
     end_date := Leaves.end_date l;
     reason := Leaves.reason l;
     status := Leaves.status l;
     review_notes := Leaves.review_notes l;
     created_at := Leaves.created_at l;
     profiles := embed_profile db uid (Leaves.user_id l) |}.

(** The rows of [leaves] the query of [fetchLeaves] matches: those the policy
    lets the caller see, narrowed to the caller's own unless [isAdmin]. *)
Definition matched_leaves (db : database) (cur_user : option uuid) (isAdmin : bool)
  : option (list Leaves.row) :=
  let visible := filter (Policy.leaves_select db cur_user) (Db.leaves db) in
  if isAdmin then Some visible
  else
    match cur_user with
    | Some me => Some (filter (fun l => Leaves.user_id l =? me) visible)
    | None => None
    end.

(** The query of [fetchLeaves], newest first. Its embed [profiles(name)]
    carries no hint. *)
Definition select_leaves (db : database) (cur_user : option uuid) (isAdmin : bool)
  : response (list Leave) :=
  match resolve_embed None leaves_to_profiles with
  | None =>
      failed "PGRST201"
        "Could not embed because more than one relationship was found for 'leaves' and 'profiles'"
  | Some _ =>
      match matched_leaves db cur_user isAdmin with
      | Some rows =>
          ok (map (select_columns db cur_user) (order_desc Leaves.created_at rows))
      | None => failed "22P02" "invalid input syntax for type uuid"
      end
  end.

Definition fetchLeaves (db : database) (cur_user : option uuid) (isAdmin : bool)
    (st : state) : state :=
  let r := select_leaves db cur_user isAdmin in
  match error r with
  | Some e =>
      {| leaves := leaves st; loading := false; dialogOpen := dialogOpen st;
         leaveType := leaveType st; toasts := toasts st ++ ["Failed to load leaves"] |}
  | None =>
      {| leaves := match data r with Some rows => rows | None => [] end;
         loading := false; dialogOpen := dialogOpen st;
         leaveType := leaveType st; toasts := toasts st |}
  end.

(** [leaveData], as [handleSubmitLeave] builds it. *)
Record leaveData : Set := {
  ld_user_id : option uuid;
  ld_type : string;
  ld_start_date : string;
  ld_end_date : string;
  ld_reason : string
}.

(** The row an insert of [leaveData] makes, from the values its texts are
    read as: the columns the payload leaves out take their defaults ([status]
    'pending', the review columns NULL, the timestamps [NOW()], [id] a
    generated identifier). *)
Definition new_leave (owner : uuid) (ty : leave_type) (start_date end_date : date)
    (reason : string) (new_id : uuid) (now : timestamptz) : Leaves.row :=
  {| Leaves.id := new_id;
     Leaves.user_id := owner;
     Leaves.type := ty;
     Leaves.start_date := start_date;
     Leaves.end_date := end_date;
     Leaves.reason := reason;
     Leaves.status := pending;
     Leaves.review_notes := None;
     Leaves.reviewed_by := None;
     Leaves.reviewed_at := None;
     Leaves.created_at := now;
     Leaves.updated_at := now |}.

(** [from("leaves").insert([leaveData])]: the input syntax of the columns,
    then the INSERT policy (which a NULL [user_id] does not pass), then the
    foreign key and the primary key. *)
Definition insert_leave {DI : DateInput} (db : database) (uid : option uuid)
    (d : leaveData) (new_id : uuid) (now : timestamptz) : write_result :=
  match leave_type_in (ld_type d) with
  | None => refused db "22P02" "invalid input value for enum leave_type"
  | Some ty =>
      match date_in (ld_start_date d), date_in (ld_end_date d) with
      | inl err, _ | inr _, inl err => (db, Some err)
      | inr s, inr e =>
          match ld_user_id d with
          | None => rls_violation db "leaves"
          | Some owner =>
              let row := new_leave owner ty s e (ld_reason d) new_id now in
              if negb (Policy.leaves_insert uid row) then rls_violation db "leaves"
              else if negb (has_key Profiles.id owner (Db.profiles db))
              then refused db "23503" "violates foreign key constraint leaves_user_id_fkey"
              else if has_key Leaves.id new_id (Db.leaves db)
              then refused db "23505" "duplicate key value violates unique constraint leaves_pkey"
              else (Db.with_leaves db (Db.leaves db ++ [row]), None)
          end
      end
  end.

(** [from("activity_logs").insert([...])] *)
Definition insert_activity_log (db : database) (uid : option uuid) (owner : option uuid)
    (act : string) (descr : string) (new_id : uuid) (now : timestamptz) : write_result :=
  match owner with
  | None => rls_violation db "activity_logs"
  | Some o =>
      let row :=
        {| ActivityLogs.id := new_id;
           ActivityLogs.user_id := o;
           ActivityLogs.action := act;
           ActivityLogs.description := Some descr;
           ActivityLogs.created_at := now |} in
      if negb (Policy.activity_logs_insert uid row) then rls_violation db "activity_logs"
      else if negb (has_key Profiles.id o (Db.profiles db))
      then refused db "23503" "violates foreign key constraint activity_logs_user_id_fkey"
      else if has_key ActivityLogs.id new_id (Db.activity_logs db)
      then refused db "23505" "duplicate key value violates unique constraint activity_logs_pkey"
      else (Db.with_activity_logs db (Db.activity_logs db ++ [row]), None)
  end.

(** The text fields of the request form. *)
Record form : Set := {
  form_start_date : string;
  form_end_date : string;
  form_reason : string
}.

(** [handleSubmitLeave]: [ids] are the identifiers the store generates for the
    leave row and for the activity-log row. *)
Definition handleSubmitLeave {DI : DateInput} (db : database) (cur_user : option uuid)
    (isAdmin : bool) (f : form) (ids : uuid * uuid) (now : timestamptz) (st : state) : database * state :=
  let leave_data :=
    {| ld_user_id := cur_user;
       ld_type := leaveType st;
       ld_start_date := form_start_date f;
       ld_end_date := form_end_date f;
       ld_reason := form_reason f |} in
  match insert_leave db cur_user leave_data (fst ids) now with
  | (db1, Some e) => (db1, toast "Failed to submit leave request" st)
  | (db1, None) =>
      let db2 :=
        fst (insert_activity_log db1 cur_user cur_user "leave_request"
               ("Leave request submitted for " ++ ld_start_date leave_data
                ++ " to " ++ ld_end_date leave_data)
               (snd ids) now) in
      let st1 := toast "Leave request submitted successfully" st in
      let st2 :=
        {| leaves := leaves st1; loading := loading st1; dialogOpen := false;
           leaveType := ""; toasts := toasts st1 |} in
      (db2, fetchLeaves db2 cur_user isAdmin st2)
  end.

(** The payload of an update of [leaves]: a column it does not name is left
    alone (a key whose value is [undefined] is not sent). *)
Record leave_update : Set := {
  set_status : option leave_status;
  set_reviewed_by : option uuid;
  set_reviewed_at : option timestamptz
}.

(** One row rewritten by the payload; the trigger [update_leaves_updated_at]
    stamps [updated_at]. *)
Definition apply_update (u : leave_update) (now : timestamptz) (l : Leaves.row) : Leaves.row :=
  {| Leaves.id := Leaves.id l;
     Leaves.user_id := Leaves.user_id l;
     Leaves.type := Leaves.type l;
     Leaves.start_date := Leaves.start_date l;
     Leaves.end_date := Leaves.end_date l;
     Leaves.reason := Leaves.reason l;
     Leaves.status := match set_status u with Some s => s | None => Leaves.status l end;
     Leaves.review_notes := Leaves.review_notes l;
     Leaves.reviewed_by :=
       match set_reviewed_by u with Some r => Some r | None => Leaves.reviewed_by l end;
     Leaves.reviewed_at :=
       match set_reviewed_at u with Some t => Some t | None => Leaves.reviewed_at l end;
     Leaves.created_at := Leaves.created_at l;
     Leaves.updated_at := now |}.

(** [from("leaves").update(u).eq("id", leaveId)] *)
Definition update_leave (db : database) (uid : option uuid) (u : leave_update)
    (leaveId : uuid) (now : timestamptz) : write_result :=
  match update_rows (Policy.leaves_update db uid) (Policy.leaves_update db uid)
          (fun l => references_profile db (Leaves.reviewed_by l))
          (fun l => Leaves.id l =? leaveId) (apply_update u now) (Db.leaves db) with
  | Some rows => (Db.with_leaves db rows, None)
  | None => refused db "23503" "violates foreign key constraint leaves_reviewed_by_fkey"
  end.

(** The payload [handleApprove] and [handleReject] send: the new status,
    [user?.id] and the browser's time, in one object. *)
Definition review_payload (decision : leave_status) (cur_user : option uuid)
    (client_now : timestamptz) : leave_update :=
  {| set_status := Some decision;
     set_reviewed_by := cur_user;
     set_reviewed_at := Some client_now |}.

(** The shared body of [handleApprove] and [handleReject]: [client_now] is
    the browser's [new Date()], [server_now] the store's [NOW()]. *)
Definition review (decision : leave_status) (done_msg failed_msg : string)
    (db : database) (cur_user : option uuid) (isAdmin : bool) (leaveId : uuid)
    (client_now server_now : timestamptz) (st : state) : database * state :=
  match update_leave db cur_user (review_payload decision cur_user client_now)
          leaveId server_now with
  | (db1, Some e) => (db1, toast failed_msg st)
  | (db1, None) => (db1, fetchLeaves db1 cur_user isAdmin (toast done_msg st))
  end.

Definition handleApprove := review approved "Leave approved" "Failed to approve leave".
Definition handleReject := review rejected "Leave rejected" "Failed to reject leave".

(** [isAdmin && leave.status === "pending"]: whether the row shows the
    Approve and Reject buttons. *)
Definition actions_rendered (isAdmin : bool) (leave : Leave) : bool :=
  isAdmin && leave_status_eqb (status leave) pending.

End LeavesPage.

(** ** Reads of the confidential table *)

(** [from("admin_data").select(...)], optionally narrowed by
    [.eq("user_id", owner)]: the rows the policy lets the caller see. *)
Definition select_admin_data (db : database) (uid : option uuid) (owner : option uuid)
  : response (list AdminData.row) :=
  let visible := filter (Policy.admin_data_select db uid) (Db.admin_data db) in
  ok (match owner with
      | Some o => filter (fun r => AdminData.user_id r =? o) visible
      | None => visible
      end).

(** ** JavaScript numbers *)

(** The double nearest to an integer; exact below 2^53 in absolute value,
    which covers every time value of a [Date]. *)
Definition float_of_Z (n : Z) : float :=
  if (n <? 0)%Z then PrimFloat.opp (PrimFloat.of_uint63 (Uint63.of_Z (- n)))
  else PrimFloat.of_uint63 (Uint63.of_Z n).

(** [Math.round]: the nearest integer, a tie going up; an argument between
    -0.5 and -0 gives -0, and a value that is not finite is returned as is. *)
Definition Math_round (x : float) : float :=
  match Prim2SF x with
  | S754_finite s m e =>
      if (0 <=? e)%Z then x
      else
        let n := if s then Z.neg m else Z.pos m in
        let k := (- e)%Z in
        let r := ((2 * n + 2 ^ k) / 2 ^ (k + 1))%Z in
        if (r =? 0)%Z && s then PrimFloat.opp PrimFloat.zero else float_of_Z r
  | _ => x
  end.

(** A number is falsy exactly when it is zero or NaN. *)
Definition truthy_number (x : float) : bool :=
  negb (PrimFloat.is_zero x || PrimFloat.is_nan x).

(** ** The Attendance page *)

Module AttendancePage.

(** The embedded [profiles!attendance_user_id_fkey (name, email)]. *)
Record profile_info : Set := { name : string; email : string }.

(** [interface AttendanceRecord] *)
Record AttendanceRecord : Set := {
  id : string;
  user_id : string;
  clock_in : timestamptz;
  clock_out : option timestamptz;
  notes : option string;
  profiles : option profile_info
}.

Record state : Set := {
  attendanceRecords : list AttendanceRecord;
  loading : bool;
  selectedEmployee : string;
  notes_input : string;
  toasts : list string
}.

Definition initial : state :=
  {| attendanceRecords := []; loading := true; selectedEmployee := "";
     notes_input := ""; toasts := [] |}.

Definition toast (msg : string) (st : state) : state :=
  {| attendanceRecords := attendanceRecords st; loading := loading st;
     selectedEmployee := selectedEmployee st; notes_input := notes_input st;
     toasts := toasts st ++ [msg] |}.

Definition embed_profile (db : database) (uid : option uuid) (owner : uuid) : option profile_info :=
  match find (fun p => Profiles.id p =? owner)
             (filter (Policy.profiles_select db uid) (Db.profiles db)) with
  | Some p => Some {| name := Profiles.name p; email := Profiles.email p |}
  | None => None
  end.

Definition select_columns (db : database) (uid : option uuid) (a : Attendance.row)
  : AttendanceRecord :=
  {| id := Attendance.id a;
     user_id := Attendance.user_id a;
     clock_in := Attendance.clock_in a;
     clock_out := Attendance.clock_out a;
     notes := Attendance.notes a;
     profiles := embed_profile db uid (Attendance.user_id a) |}.

(** [from("attendance").select(...)], optionally narrowed by
    [.eq("user_id", owner)]: the rows the policy lets the caller see. *)
Definition select_attendance (db : database) (uid : option uuid) (owner : option uuid)
  : response (list Attendance.row) :=
  let visible := filter (Policy.attendance_select db uid) (Db.attendance db) in
  ok (match owner with
      | Some o => filter (fun a => Attendance.user_id a =? o) visible
      | None => visible
      end).

(** [fetchAttendanceRecords]: nothing is asked without a signed-in user;
    a caller who is not [isAdmin] asks for their own rows only. *)
Definition fetchAttendanceRecords (db : database) (cur_user : option uuid) (isAdmin : bool)
    (st : state) : state :=
  match cur_user with
  | None =>
      {| attendanceRecords := attendanceRecords st; loading := false;
         selectedEmployee := selectedEmployee st; notes_input := notes_input st;
         toasts := toasts st |}
  | Some me =>
      let r := select_attendance db cur_user (if isAdmin then None else Some me) in
      match error r with
      | Some e =>
          {| attendanceRecords := attendanceRecords st; loading := false;
             selectedEmployee := selectedEmployee st; notes_input := notes_input st;
             toasts := toasts st ++ [message e] |}
      | None =>
          {| attendanceRecords :=
               match data r with
               | Some rows =>
                   map (select_columns db cur_user) (order_desc Attendance.clock_in rows)
               | None => []
               end;
             loading := false;
             selectedEmployee := selectedEmployee st; notes_input := notes_input st;
             toasts := toasts st |}
      end
  end.

(** [from("attendance").insert({ user_id, marked_by, notes })]: [clock_in]
    and the timestamps default to [NOW()], [clock_out] to NULL. *)
Definition insert_attendance (db : database) (uid : option uuid)
    (employee marker : uuid) (note : option string)
    (new_id : uuid) (now : timestamptz) : write_result :=
  let row :=
    {| Attendance.id := new_id;
       Attendance.user_id := employee;
       Attendance.clock_in := now;
       Attendance.clock_out := None;
       Attendance.notes := note;
       Attendance.marked_by := marker;
       Attendance.created_at := now;
       Attendance.updated_at := now |} in
  if negb (Policy.attendance_insert db uid row) then rls_violation db "attendance"
  else if negb (has_key Profiles.id employee (Db.profiles db)
                && has_key Profiles.id marker (Db.profiles db))
  then refused db "23503" "violates foreign key constraint on attendance"
  else if has_key Attendance.id new_id (Db.attendance db)
  then refused db "23505" "duplicate key value violates unique constraint attendance_pkey"
  else (Db.with_attendance db (Db.attendance db ++ [row]), None).

Definition handleClockIn (db : database) (cur_user : option uuid) (isAdmin : bool)
    (new_id : uuid) (now : timestamptz) (st : state) : database * state :=
  if negb isAdmin then (db, toast "Only admins can mark attendance" st)
  else if negb (truthy_string (selectedEmployee st))
  then (db, toast "Please select an employee" st)
  else
    match cur_user with
    | None => (db, st)
    | Some me =>
        let note := if truthy_string (notes_input st) then Some (notes_input st) else None in
        match insert_attendance db cur_user (selectedEmployee st) me note new_id now with
        | (db1, Some e) => (db1, toast (message e) st)
        | (db1, None) =>
            let st1 := toast "Clock in recorded successfully" st in
            let st2 :=
              {| attendanceRecords := attendanceRecords st1; loading := loading st1;
                 selectedEmployee := ""; notes_input := ""; toasts := toasts st1 |} in
            (db1, fetchAttendanceRecords db1 cur_user isAdmin st2)
        end
    end.

(** One row given a clock-out; the trigger [update_attendance_updated_at]
    stamps [updated_at]. *)
Definition set_clock_out (t now : timestamptz) (a : Attendance.row) : Attendance.row :=
  {| Attendance.id := Attendance.id a;
     Attendance.user_id := Attendance.user_id a;
     Attendance.clock_in := Attendance.clock_in a;
     Attendance.clock_out := Some t;
     Attendance.notes := Attendance.notes a;
     Attendance.marked_by := Attendance.marked_by a;
     Attendance.created_at := Attendance.created_at a;
     Attendance.updated_at := now |}.

(** [from("attendance").update({ clock_out }).eq("id", recordId)] *)
Definition update_clock_out (db : database) (uid : option uuid) (t : timestamptz)
    (recordId : uuid) (now : timestamptz) : write_result :=
  match update_rows (Policy.attendance_update db uid) (Policy.attendance_update db uid)
          (fun _ => true)
          (fun a => Attendance.id a =? recordId) (set_clock_out t now) (Db.attendance db) with
  | Some rows => (Db.with_attendance db rows, None)
  | None => rls_violation db "attendance"
  end.

(** [handleClockOut]: [client_now] is the browser's [new Date()],
    [server_now] the store's [NOW()]. *)
Definition handleClockOut (db : database) (cur_user : option uuid) (isAdmin : bool)
    (recordId : uuid) (client_now server_now : timestamptz) (st : state)
  : database * state :=
  if negb isAdmin then (db, toast "Only admins can mark attendance" st)
  else
    match update_clock_out db cur_user client_now recordId server_now with
    | (db1, Some e) => (db1, toast (message e) st)
    | (db1, None) =>
        (db1, fetchAttendanceRecords db1 cur_user isAdmin
                (toast "Clock out recorded successfully" st))
    end.

(** [1000 * 60 * 60] *)
Definition hour_ms : float := float_of_Z (1000 * 60 * 60).

(** [duration] of a table row:
    [Math.round((clockOut.getTime() - clockIn.getTime()) / (1000 * 60 * 60) * 10) / 10],
    or [null] without a clock-out. *)
Definition duration (record : AttendanceRecord) : option float :=
  match clock_out record with
  | Some out =>
      Some (PrimFloat.div
              (Math_round
                 (PrimFloat.mul
                    (PrimFloat.div
                       (PrimFloat.sub (float_of_Z out) (float_of_Z (clock_in record)))
                       hour_ms)
                    (float_of_Z 10)))
              (float_of_Z 10))
  | None => None
  end.

(** The Duration cell: the number followed by " hours", or a dash. *)
Inductive duration_cell : Set :=
| Hours (d : float)
| Dash.

(** [duration ? `${duration} hours` : "-"] *)
Definition duration_text (d : option float) : duration_cell :=
  match d with
  | Some x => if truthy_number x then Hours x else Dash
  | None => Dash
  end.

(** [isAdmin && !record.clock_out]: whether the row shows the Clock Out button. *)
Definition clock_out_rendered (isAdmin : bool) (record : AttendanceRecord) : bool :=
  isAdmin && match clock_out record with Some _ => false | None => true end.

End AttendancePage.

(** ** pages/Profile.tsx *)

Module ProfilePage.

(** [interface Profile] *)
Record Profile : Set := {
  name : string;
  email : string;
  department : option string;
  hire_date : option string
}.

Record state : Set := {
  profile : option Profile;
  loading : bool;
  toasts : list string
}.

Definition initial : state := {| profile := None; loading := true; toasts := [] |}.

Definition select_columns (p : Profiles.row) : Profile :=
  {| name := Profiles.name p;
     email := Profiles.email p;
     department := Profiles.department p;
     hire_date := Profiles.hire_date p |}.

(** [from("profiles").select("name, email, department, hire_date").eq("id", user?.id).single()] *)
Definition select_profile (db : database) (cur_user : option uuid) : response Profile :=
  match cur_user with
  | Some me =>
      single (map select_columns
                (filter (fun p => Profiles.id p =? me)
                   (filter (Policy.profiles_select db cur_user) (Db.profiles db))))
  | None => failed "22P02" "invalid input syntax for type uuid"
  end.

Definition fetchProfile (db : database) (cur_user : option uuid) (st : state) : state :=
  let r := select_profile db cur_user in
  match error r with
  | Some e =>
      {| profile := profile st; loading := false;
         toasts := toasts st ++ ["Failed to load profile"] |}
  | None => {| profile := data r; loading := false; toasts := toasts st |}
  end.

(** [updates], as [handleSubmit] builds it from the form: these two keys and
    no other. *)
Record updates : Set := {
  upd_name : string;
  upd_department : string
}.

(** One row rewritten by the payload; the trigger
    [update_profiles_updated_at] stamps [updated_at]. *)
Definition apply_updates (u : updates) (now : timestamptz) (p : Profiles.row) : Profiles.row :=
  {| Profiles.id := Profiles.id p;
     Profiles.name := upd_name u;
     Profiles.email := Profiles.email p;
     Profiles.department := Some (upd_department u);
     Profiles.hire_date := Profiles.hire_date p;
     Profiles.created_at := Profiles.created_at p;
     Profiles.updated_at := now |}.

(** [from("profiles").update(updates).eq("id", user?.id)] *)
Definition update_profile (db : database) (cur_user : option uuid) (u : updates)
    (now : timestamptz) : write_result :=
  match cur_user with
  | None => refused db "22P02" "invalid input syntax for type uuid"
  | Some me =>
      match update_rows (Policy.profiles_update cur_user) (Policy.profiles_update cur_user)
              (fun _ => true)
              (fun p => Profiles.id p =? me) (apply_updates u now) (Db.profiles db) with
      | Some rows => (Db.with_profiles db rows, None)
      | None => rls_violation db "profiles"
      end
  end.

(** [{ ...prev, ...updates }] *)
Definition merge_updates (prev : Profile) (u : updates) : Profile :=
  {| name := upd_name u;
     email := email prev;
     department := Some (upd_department u);
     hire_date := hire_date prev |}.

(** [handleSubmit], on the values of the form fields [name] and [department]. *)
Definition handleSubmit (db : database) (cur_user : option uuid)
    (form_name form_department : string) (now : timestamptz) (st : state)
  : database * state :=
  let u := {| upd_name := form_name; upd_department := form_department |} in
  match update_profile db cur_user u now with
  | (db1, Some e) =>
      (db1, {| profile := profile st; loading := loading st;
               toasts := toasts st ++ ["Failed to update profile"] |})
  | (db1, None) =>
      (db1, {| profile :=
                 match profile st with
                 | Some prev => Some (merge_updates prev u)
                 | None => None
                 end;
               loading := loading st;
               toasts := toasts st ++ ["Profile updated successfully"] |})
  end.

End ProfilePage.

(** ** Writes to [user_roles] *)

Module Roles.

(** The key of the constraint [UNIQUE(user_id, role)]. *)
Definition same_assignment (a b : UserRoles.row) : bool :=
  (UserRoles.user_id a =? UserRoles.user_id b)
  && app_role_eqb (UserRoles.role a) (UserRoles.role b).

(** [from("user_roles").insert({ user_id, role })] by an API caller: the
    FOR ALL policy, then the foreign key, the primary key and the
    [UNIQUE(user_id, role)] constraint. *)
Definition insert_user_role (db : database) (uid : option uuid)
    (target : uuid) (r : app_role) (new_id : uuid) (now : timestamptz) : write_result :=
  let row :=
    {| UserRoles.id := new_id;
       UserRoles.user_id := target;
       UserRoles.role := r;
       UserRoles.created_at := now |} in
  if negb (Policy.user_roles_write db uid row) then rls_violation db "user_roles"
  else if negb (has_key Profiles.id target (Db.profiles db))
  then refused db "23503" "violates foreign key constraint user_roles_user_id_fkey"
  else if has_key UserRoles.id new_id (Db.user_roles db)
  then refused db "23505" "duplicate key value violates unique constraint user_roles_pkey"
  else if existsb (same_assignment row) (Db.user_roles db)
  then refused db "23505"
         "duplicate key value violates unique constraint user_roles_user_id_role_key"
  else (Db.with_user_roles db (Db.user_roles db ++ [row]), None).

(** The row of [auth.users] the signup trigger fires on, with the keys of
    [raw_user_meta_data] it reads. *)
Record new_user : Set := {
  nu_id : uuid;
  nu_email : string;
  meta_name : option string;
  meta_department : option string;
  meta_hire_date : option string;
  meta_position : option string
}.

(** The hire date of the new profile: the metadata text cast with [::DATE],
    [CURRENT_DATE] without one; a text the cast refuses aborts the signup. *)
Definition hire_date_in {DI : DateInput} (NEW : new_user) (today : date) : option date :=
  match meta_hire_date NEW with
  | Some d =>
      match date_in d with
      | inr hire => Some hire
      | inl _ => None
      end
  | None => Some today
  end.

(** [public.handle_new_user()], a SECURITY DEFINER trigger: it writes past
    the policies but not past the constraints, and a constraint it breaks
    aborts the signup ([None]). [ids] are the generated identifiers of the
    role row and of the confidential row; [today] is [CURRENT_DATE]. *)
Definition handle_new_user {DI : DateInput} (db : database) (NEW : new_user)
    (ids : uuid * uuid) (today : date) (now : timestamptz) : option database :=
  match hire_date_in NEW today with
  | None => None
  | Some hire =>
  let p :=
    {| Profiles.id := nu_id NEW;
       Profiles.name := match meta_name NEW with Some n => n | None => "New User" end;
       Profiles.email := nu_email NEW;
       Profiles.department := meta_department NEW;
       Profiles.hire_date := Some hire;
       Profiles.created_at := now;
       Profiles.updated_at := now |} in
  let r :=
    {| UserRoles.id := fst ids;
       UserRoles.user_id := nu_id NEW;
       UserRoles.role := user;
       UserRoles.created_at := now |} in
  if has_key Profiles.id (nu_id NEW) (Db.profiles db) then None
  else if has_key Profiles.email (nu_email NEW) (Db.profiles db) then None
  else if has_key UserRoles.id (fst ids) (Db.user_roles db) then None
  else if existsb (same_assignment r) (Db.user_roles db) then None
  else
    let db1 := Db.with_profiles db (Db.profiles db ++ [p]) in
    let db2 := Db.with_user_roles db1 (Db.user_roles db1 ++ [r]) in
    match meta_position NEW with
    | None => Some db2
    | Some pos =>
        let a :=
          {| AdminData.id := snd ids;
             AdminData.user_id := nu_id NEW;
             AdminData.position := Some pos;
             AdminData.salary := None;
             AdminData.notes := None;
             AdminData.created_at := now;
             AdminData.updated_at := now |} in
        if has_key AdminData.id (snd ids) (Db.admin_data db2) then None
        else if has_key AdminData.user_id (nu_id NEW) (Db.admin_data db2) then None
        else Some (Db.with_admin_data db2 (Db.admin_data db2 ++ [a]))
    end
  end.

(** [UNIQUE(user_id, role)], as a property of a table. *)
Fixpoint unique_assignments (rows : list UserRoles.row) : bool :=
  match rows with
  | [] => true
  | r :: rest => negb (existsb (same_assignment r) rest) && unique_assignments rest
  end.

(** The rows that assign a role to one identity. *)
Definition assignments_of (db : database) (who : uuid) : list UserRoles.row :=
  filter (fun r => UserRoles.user_id r =? who) (Db.user_roles db).

End Roles.

(** ** Runs of the Leaves page *)

Module LeavesWorkflow.

(** What a user of the page can do, with the inputs each handler reads. *)
Inductive action : Set :=
| SelectType (value : string)
| Submit (cur_user : option uuid) (isAdmin : bool) (f : LeavesPage.form)
         (ids : uuid * uuid) (now : timestamptz)
| Approve (cur_user : option uuid) (isAdmin : bool) (leaveId : uuid)
          (client_now server_now : timestamptz)
| Reject (cur_user : option uuid) (isAdmin : bool) (leaveId : uuid)
         (client_now server_now : timestamptz)
| Refetch (cur_user : option uuid) (isAdmin : bool).

Definition step {DI : DateInput} (s : database * LeavesPage.state) (a : action)
  : database * LeavesPage.state :=
  let (db, st) := s in
  match a with
  | SelectType value =>
      (db, {| LeavesPage.leaves := LeavesPage.leaves st;
              LeavesPage.loading := LeavesPage.loading st;
              LeavesPage.dialogOpen := LeavesPage.dialogOpen st;
              LeavesPage.leaveType := value;
              LeavesPage.toasts := LeavesPage.toasts st |})
  | Submit cur_user isAdmin f ids now =>
      LeavesPage.handleSubmitLeave db cur_user isAdmin f ids now st
  | Approve cur_user isAdmin leaveId client_now server_now =>
      LeavesPage.handleApprove db cur_user isAdmin leaveId client_now server_now st
  | Reject cur_user isAdmin leaveId client_now server_now =>
      LeavesPage.handleReject db cur_user isAdmin leaveId client_now server_now st
  | Refetch cur_user isAdmin => (db, LeavesPage.fetchLeaves db cur_user isAdmin st)
  end.

Definition run {DI : DateInput} (s : database * LeavesPage.state) (l : list action)
  : database * LeavesPage.state :=
  fold_left step l s.

(** The status of a leave and its review stamp agree: pending and
    unreviewed, or decided with both the reviewer and the review time. *)
Definition reviewed_consistently (l : Leaves.row) : Prop :=
  match Leaves.status l with
  | pending => Leaves.reviewed_by l = None /\ Leaves.reviewed_at l = None
  | approved | rejected => Leaves.reviewed_by l <> None /\ Leaves.reviewed_at l <> None
  end.

End LeavesWorkflow.

(** The rows of a successful read; none when it failed. *)
Definition rows_of {A : Type} (r : response (list A)) : list A :=
  match data r with
  | Some rows => rows
  | None => []
  end.

(** ** A small populated store, for the examples below *)

Module Sample.

(** A store that takes a date in the form's spelling only. *)
Definition iso_only : DateInput :=
  {| other_date_in :=
       fun _ => inl {| code := "22007"; message := "invalid input syntax for type date" |} |}.

Definition alice : uuid := "a11ce000-0000-4000-8000-000000000001".
Definition bob : uuid := "b0b00000-0000-4000-8000-000000000002".
Definition carol : uuid := "ca401000-0000-4000-8000-000000000003".
Definition dana : uuid := "da4a0000-0000-4000-8000-000000000004".

Definition profile_of (who : uuid) (n e : string) : Profiles.row :=
  {| Profiles.id := who; Profiles.name := n; Profiles.email := e;
     Profiles.department := Some "Operations"; Profiles.hire_date := Some "2024-03-01";
     Profiles.created_at := 1709280000000%Z; Profiles.updated_at := 1709280000000%Z |}.

Definition role_of (rid who : uuid) (r : app_role) : UserRoles.row :=
  {| UserRoles.id := rid; UserRoles.user_id := who; UserRoles.role := r;
     UserRoles.created_at := 1709280000000%Z |}.

(** Carol's leave request of 6 January 2025, 10:00 UTC, still pending. *)
Definition carols_leave : Leaves.row :=
  {| Leaves.id := "1ea7e000-0000-4000-8000-000000000001";
     Leaves.user_id := carol;
     Leaves.type := vacation;
     Leaves.start_date := "2025-02-03";
     Leaves.end_date := "2025-02-07";
     Leaves.reason := "family visit";
     Leaves.status := pending;
     Leaves.review_notes := None;
     Leaves.reviewed_by := None;
     Leaves.reviewed_at := None;
     Leaves.created_at := 1736157600000%Z;
     Leaves.updated_at := 1736157600000%Z |}.

(** Carol's attendance of 16 January 2025: clocked in by Alice at 09:00:00
    UTC, not clocked out yet. *)
Definition carols_day : Attendance.row :=
  {| Attendance.id := "a77e0000-0000-4000-8000-000000000001";
     Attendance.user_id := carol;
     Attendance.clock_in := 1737018000000%Z;
     Attendance.clock_out := None;
     Attendance.notes := None;
     Attendance.marked_by := alice;
     Attendance.created_at := 1737018000000%Z;
     Attendance.updated_at := 1737018000000%Z |}.

Definition carols_pay : AdminData.row :=
  {| AdminData.id := "ad000000-0000-4000-8000-000000000001";
     AdminData.user_id := carol;
     AdminData.position := Some "Analyst";
     AdminData.salary := Some 5200000%Z;
     AdminData.notes := None;
     AdminData.created_at := 1709280000000%Z;
     AdminData.updated_at := 1709280000000%Z |}.

(** Alice and Dana are admins, Bob and Carol are regular users. *)
Definition db : database :=
  {| Db.profiles :=
       [ profile_of alice "Alice" "alice@example.com";
         profile_of bob "Bob" "bob@example.com";
         profile_of carol "Carol" "carol@example.com";
         profile_of dana "Dana" "dana@example.com" ];
     Db.user_roles :=
       [ role_of "401e0000-0000-4000-8000-000000000001" alice admin;
         role_of "401e0000-0000-4000-8000-000000000002" bob user;
         role_of "401e0000-0000-4000-8000-000000000003" carol user;
         role_of "401e0000-0000-4000-8000-000000000004" dana admin ];
     Db.admin_data := [ carols_pay ];
     Db.leaves := [ carols_leave ];
     Db.attendance := [ carols_day ];
     Db.activity_logs := [] |}.

(** The request of the round-trip scenario. *)
Definition flu_form : LeavesPage.form :=
  {| LeavesPage.form_start_date := "2025-01-10";
     LeavesPage.form_end_date := "2025-01-12";
     LeavesPage.form_reason := "flu" |}.

Definition sick_selected : LeavesPage.state :=
  {| LeavesPage.leaves := []; LeavesPage.loading := false; LeavesPage.dialogOpen := true;
     LeavesPage.leaveType := "sick"; LeavesPage.toasts := [] |}.

Definition fresh_ids : uuid * uuid :=
  ("1ea7e000-0000-4000-8000-000000000002", "10900000-0000-4000-8000-000000000001").

(** Two admins decide one leave. Alice has the Leaves page open; Dana's
    [handleReject] runs for Carol's leave on 7 January at 10:00; at 11:00
    Alice's [handleApprove] runs for the same leave. *)
Definition alices_leaves_page : LeavesPage.state :=
  LeavesPage.fetchLeaves db (Some alice) true LeavesPage.initial.

Definition db_rejected : database :=
  fst (LeavesPage.handleReject db (Some dana) true (Leaves.id carols_leave)
         1736244000000%Z 1736244000250%Z LeavesPage.initial).

Definition db_reapproved : database :=
  fst (LeavesPage.handleApprove db_rejected (Some alice) true (Leaves.id carols_leave)
         1736247600000%Z 1736247600250%Z alices_leaves_page).

(** Two admins at work on one attendance record. Alice opens the Attendance
    page while Carol's record is open; Dana clocks Carol out at 09:01:00;
    then Alice presses Clock Out on the page she still has open, from a
    browser whose clock reads 08:00:00. *)
Definition alices_attendance_page : AttendancePage.state :=
  AttendancePage.fetchAttendanceRecords db (Some alice) true AttendancePage.initial.

Definition day_closed : database * AttendancePage.state :=
  AttendancePage.handleClockOut db (Some dana) true (Attendance.id carols_day)
    1737018060000%Z 1737018060250%Z AttendancePage.initial.

Definition db_reclosed : database :=
  fst (AttendancePage.handleClockOut (fst day_closed) (Some alice) true
         (Attendance.id carols_day) 1737014400000%Z 1737018300000%Z
         alices_attendance_page).

End Sample.

(** ** Relations the properties are stated with *)

(** A row before and after a review: untouched, or the addressed row with
    its status, reviewer and review time rewritten in one go by an admin. *)
Definition reviewed_row (db : database) (cur_user : option uuid) (leaveId : uuid)
    (decision : leave_status) (client_now server_now : timestamptz)
    (l l' : Leaves.row) : Prop :=
  l' = l
  \/ exists reviewer,
       cur_user = Some reviewer
       /\ has_role db cur_user admin = true
       /\ Leaves.id l = leaveId
       /\ l' = LeavesPage.apply_update (LeavesPage.review_payload decision cur_user client_now)
              server_now l.

(** The length of a shift in tenths of an hour, as the specification words
    it: the milliseconds from clock-in to clock-out expressed in hours and
    rounded to one decimal place, a half going up. *)
Definition hours_rounded_to_tenths (clock_in clock_out : timestamptz) : Z :=
  ((clock_out - clock_in + 180000) / 360000)%Z.

(** A record that was clocked out [ms] milliseconds after a clock-in at 0. *)
Definition shift_of (ms : Z) : AttendancePage.AttendanceRecord :=
  {| AttendancePage.id := "a77e0000-0000-4000-8000-00000000000f";
     AttendancePage.user_id := "ca401000-0000-4000-8000-000000000003";
     AttendancePage.clock_in := 0%Z;
     AttendancePage.clock_out := Some ms;
     AttendancePage.notes := None;
     AttendancePage.profiles := None |}.

(** Whether the computed [duration] of a shift of [m] minutes is the double
    of its length rounded to tenths of an hour. *)
Definition duration_agrees (m : nat) : bool :=
  let ms := (Z.of_nat m * 60000)%Z in
  match AttendancePage.duration (shift_of ms) with
  | Some x =>
      PrimFloat.eqb x
        (PrimFloat.div (float_of_Z (hours_rounded_to_tenths 0%Z ms)) (float_of_Z 10))
  | None => false
  end.

(** ** The Employees page (first component of pages/Employees.tsx) *)

(** [s.includes(t)]: [t] occurs in [s] as a run of consecutive characters. *)
Fixpoint includes (s t : string) : bool :=
  String.prefix t s
  || match s with
     | EmptyString => false
     | String _ s' => includes s' t
     end.

Module EmployeesPage.

(** An element of the embedded [user_roles(role)]. *)
Record role_cell : Set := { role : string }.

(** An element of the embedded [admin_data(position)]. *)
Record position_cell : Set := { position : option string }.

(** [interface Employee] *)
Record Employee : Set := {
  id : string;
  name : string;
  email : string;
  department : option string;
  hire_date : option string;
  user_roles : list role_cell;
  admin_data : option (list position_cell)
}.

Record state : Set := {
  employees : list Employee;
  filteredEmployees : list Employee;
  searchTerm : string;
  loading : bool;
  deleteDialogOpen : bool;
  employeeToDelete : option string;
  toasts : list string
}.

Section Search.

(** [String.prototype.toLowerCase], which the page takes from the
    JavaScript runtime. *)
Variable toLowerCase : string -> string.

(** The predicate of the search filter:
    [emp.name.toLowerCase().includes(searchTerm.toLowerCase()) ||
     emp.email.toLowerCase().includes(searchTerm.toLowerCase()) ||
     emp.department?.toLowerCase().includes(searchTerm.toLowerCase())];
    a null department gives [undefined], which the filter takes as false. *)
Definition matches (term : string) (emp : Employee) : bool :=
  includes (toLowerCase (name emp)) (toLowerCase term)
  || includes (toLowerCase (email emp)) (toLowerCase term)
  || match department emp with
     | Some d => includes (toLowerCase d) (toLowerCase term)
     | None => false
     end.

(** The effect on [searchTerm] and [employees]: it recomputes
    [filteredEmployees]. *)
Definition search_effect (st : state) : state :=
  {| employees := employees st;
     filteredEmployees := filter (matches (searchTerm st)) (employees st);
     searchTerm := searchTerm st;
     loading := loading st;
     deleteDialogOpen := deleteDialogOpen st;
     employeeToDelete := employeeToDelete st;
     toasts := toasts st |}.

(** Typing in the search box: [setSearchTerm(e.target.value)], then the
    effect. *)
Definition onSearchChange (value : string) (st : state) : state :=
  search_effect
    {| employees := employees st;
       filteredEmployees := filteredEmployees st;
       searchTerm := value;
       loading := loading st;
       deleteDialogOpen := deleteDialogOpen st;
       employeeToDelete := employeeToDelete st;
       toasts := toasts st |}.

End Search.

(** The migrations enable row security on [profiles] and define policies
    FOR SELECT, FOR UPDATE and FOR INSERT on it, none FOR DELETE: the
    default denies. *)
Definition profiles_delete (db : database) (uid : option uuid) (p : Profiles.row) : bool :=
  false.

(** [from("profiles").delete().eq("id", employeeId)]: the rows the SELECT
    policy shows, the DELETE policy allows and the filter matches are
    removed, with the rows of the tables that reference them ON DELETE
    CASCADE; a remaining reference through [leaves.reviewed_by] or
    [attendance.marked_by] refuses the statement. *)
Definition delete_profile (db : database) (uid : option uuid) (employeeId : uuid)
  : write_result :=
  let doomed p :=
    Policy.profiles_select db uid p && profiles_delete db uid p
    && (Profiles.id p =? employeeId) in
  let gone k := has_key Profiles.id k (filter doomed (Db.profiles db)) in
  let leaves' := filter (fun l => negb (gone (Leaves.user_id l))) (Db.leaves db) in
  let attendance' :=
    filter (fun a => negb (gone (Attendance.user_id a))) (Db.attendance db) in
  if existsb (fun l => match Leaves.reviewed_by l with
                       | Some r => gone r
                       | None => false
                       end) leaves'
     || existsb (fun a => gone (Attendance.marked_by a)) attendance'
  then refused db "23503" "update or delete on table profiles violates foreign key constraint"
  else
    ({| Db.profiles := filter (fun p => negb (doomed p)) (Db.profiles db);
        Db.user_roles :=
          filter (fun r => negb (gone (UserRoles.user_id r))) (Db.user_roles db);
        Db.admin_data :=
          filter (fun r => negb (gone (AdminData.user_id r))) (Db.admin_data db);
        Db.leaves := leaves';
        Db.attendance := attendance';
        Db.activity_logs :=
          filter (fun r => negb (gone (ActivityLogs.user_id r))) (Db.activity_logs db) |},
     None).

(** [handleDeleteClick] *)
Definition handleDeleteClick (employeeId : string) (st : state) : state :=
  {| employees := employees st;
     filteredEmployees := filteredEmployees st;
     searchTerm := searchTerm st;
     loading := loading st;
     deleteDialogOpen := true;
     employeeToDelete := Some employeeId;
     toasts := toasts st |}.

(** The [finally] of [handleDeleteConfirm], with the toast of the branch
    taken. *)
Definition close_dialog (msg : string) (st : state) : state :=
  {| employees := employees st;
     filteredEmployees := filteredEmployees st;
     searchTerm := searchTerm st;
     loading := loading st;
     deleteDialogOpen := false;
     employeeToDelete := None;
     toasts := toasts st ++ [msg] |}.

(** [handleDeleteConfirm]. The list is re-read by [fetchEmployees], which
    the handler starts and does not wait for; it is taken as given. *)
Definition handleDeleteConfirm (fetchEmployees : database -> state -> state)
    (db : database) (cur_user : option uuid) (st : state) : database * state :=
  match employeeToDelete st with
  | None => (db, st)
  | Some employeeId =>
      if negb (truthy_string employeeId) then (db, st)
      else
        match delete_profile db cur_user employeeId with
        | (db1, Some e) => (db1, close_dialog "Failed to delete employee" st)
        | (db1, None) =>
            (db1, fetchEmployees db1 (close_dialog "Employee deleted successfully" st))
        end
  end.

End EmployeesPage.

(** Lower-casing of the letters A to Z, the part of [toLowerCase] that is
    the same in every locale; used to run the search on examples. *)
Definition ascii_lower (c : ascii) : ascii :=
  let n := nat_of_ascii c in
  if (65 <=? n)%nat && (n <=? 90)%nat then ascii_of_nat (n + 32) else c.

Fixpoint lower_letters (s : string) : string :=
  match s with
  | EmptyString => EmptyString
  | String c s' => String (ascii_lower c) (lower_letters s')
  end.

(** ** The statistics of the Dashboard, read from the store *)

(** [fetchStats] on mount, with its two requests answered by the store. *)
Definition load_stats (db : database) (uid : option uuid) : Dashboard.state :=
  Dashboard.fetchStats
    (Resolved (Dashboard.count_profiles db uid, Dashboard.count_pending_leaves db uid))
    Dashboard.initial.

(** ** Runs over the Leaves, Attendance and Profile pages *)

Module Pages.

Record state : Set := {
  db : database;
  leaves_page : LeavesPage.state;
  attendance_page : AttendancePage.state;
  profile_page : ProfilePage.state
}.

Inductive action : Set :=
| OnLeaves (a : LeavesWorkflow.action)
| SelectEmployee (value : string)
| TypeNotes (value : string)
| ClockIn (cur_user : option uuid) (isAdmin : bool) (new_id : uuid) (now : timestamptz)
| ClockOut (cur_user : option uuid) (isAdmin : bool) (recordId : uuid)
           (client_now server_now : timestamptz)
| RefetchAttendance (cur_user : option uuid) (isAdmin : bool)
| LoadProfile (cur_user : option uuid)
| SaveProfile (cur_user : option uuid) (form_name form_department : string)
              (now : timestamptz).

Definition step {DI : DateInput} (s : state) (a : action) : state :=
  match a with
  | OnLeaves la =>
      let r := LeavesWorkflow.step (db s, leaves_page s) la in
      {| db := fst r; leaves_page := snd r;
         attendance_page := attendance_page s; profile_page := profile_page s |}
  | SelectEmployee value =>
      {| db := db s; leaves_page := leaves_page s;
         attendance_page :=
           {| AttendancePage.attendanceRecords :=
                AttendancePage.attendanceRecords (attendance_page s);
              AttendancePage.loading := AttendancePage.loading (attendance_page s);
              AttendancePage.selectedEmployee := value;
              AttendancePage.notes_input := AttendancePage.notes_input (attendance_page s);
              AttendancePage.toasts := AttendancePage.toasts (attendance_page s) |};
         profile_page := profile_page s |}
  | TypeNotes value =>
      {| db := db s; leaves_page := leaves_page s;
         attendance_page :=
           {| AttendancePage.attendanceRecords :=
                AttendancePage.attendanceRecords (attendance_page s);
              AttendancePage.loading := AttendancePage.loading (attendance_page s);
              AttendancePage.selectedEmployee :=
                AttendancePage.selectedEmployee (attendance_page s);
              AttendancePage.notes_input := value;
              AttendancePage.toasts := AttendancePage.toasts (attendance_page s) |};
         profile_page := profile_page s |}
  | ClockIn cur_user isAdmin new_id now =>
      let r := AttendancePage.handleClockIn (db s) cur_user isAdmin new_id now
                 (attendance_page s) in
      {| db := fst r; leaves_page := leaves_page s;
         attendance_page := snd r; profile_page := profile_page s |}
  | ClockOut cur_user isAdmin recordId client_now server_now =>
      let r := AttendancePage.handleClockOut (db s) cur_user isAdmin recordId
                 client_now server_now (attendance_page s) in
      {| db := fst r; leaves_page := leaves_page s;
         attendance_page := snd r; profile_page := profile_page s |}
  | RefetchAttendance cur_user isAdmin =>
      {| db := db s; leaves_page := leaves_page s;
         attendance_page :=
           AttendancePage.fetchAttendanceRecords (db s) cur_user isAdmin (attendance_page s);
         profile_page := profile_page s |}
  | LoadProfile cur_user =>
      {| db := db s; leaves_page := leaves_page s;
         attendance_page := attendance_page s;
         profile_page := ProfilePage.fetchProfile (db s) cur_user (profile_page s) |}
  | SaveProfile cur_user form_name form_department now =>
      let r := ProfilePage.handleSubmit (db s) cur_user form_name form_department now
                 (profile_page s) in
      {| db := fst r; leaves_page := leaves_page s;
         attendance_page := attendance_page s; profile_page := snd r |}
  end.

Definition run {DI : DateInput} (s : state) (l : list action) : state :=
  fold_left step l s.

End Pages.

(** More of the sample store. *)
Module Scenes.

(** Dana's Attendance page with Bob selected and a note typed. *)
Definition bob_selected : AttendancePage.state :=
  {| AttendancePage.attendanceRecords := [];
     AttendancePage.loading := false;
     AttendancePage.selectedEmployee := Sample.bob;
     AttendancePage.notes_input := "late shift";
     AttendancePage.toasts := [] |}.

(** The Employees page as an admin has it, before any search. *)
Definition directory : EmployeesPage.state :=
  {| EmployeesPage.employees :=
       [ {| EmployeesPage.id := Sample.alice; EmployeesPage.name := "Alice";
            EmployeesPage.email := "alice@example.com";
            EmployeesPage.department := Some "Operations";
            EmployeesPage.hire_date := Some "2024-03-01";
            EmployeesPage.user_roles := [ {| EmployeesPage.role := "admin" |} ];
            EmployeesPage.admin_data := None |};
         {| EmployeesPage.id := Sample.bob; EmployeesPage.name := "Bob";
            EmployeesPage.email := "bob@example.com";
            EmployeesPage.department := None;
            EmployeesPage.hire_date := Some "2024-03-01";
            EmployeesPage.user_roles := [ {| EmployeesPage.role := "user" |} ];
            EmployeesPage.admin_data := None |} ];
     EmployeesPage.filteredEmployees := [];
     EmployeesPage.searchTerm := "";
     EmployeesPage.loading := false;
     EmployeesPage.deleteDialogOpen := false;
     EmployeesPage.employeeToDelete := None;
     EmployeesPage.toasts := [] |}.

(** Alice's entry of that list. *)
Definition alice_listed : EmployeesPage.Employee :=
  {| EmployeesPage.id := Sample.alice; EmployeesPage.name := "Alice";
     EmployeesPage.email := "alice@example.com";
     EmployeesPage.department := Some "Operations";
     EmployeesPage.hire_date := Some "2024-03-01";
     EmployeesPage.user_roles := [ {| EmployeesPage.role := "admin" |} ];
     EmployeesPage.admin_data := None |}.

(** A signup with a position in its metadata. *)
Definition erin : Roles.new_user :=
  {| Roles.nu_id := "e4140000-0000-4000-8000-000000000005";
     Roles.nu_email := "erin@example.com";
     Roles.meta_name := None;
     Roles.meta_department := Some "Finance";
     Roles.meta_hire_date := None;
     Roles.meta_position := Some "Controller" |}.

Definition erin_ids : uuid * uuid :=
  ("401e0000-0000-4000-8000-000000000006", "ad000000-0000-4000-8000-000000000002").

End Scenes.

(** * Properties *)

(** Case analysis on the test of the first conditional of the goal. *)
Ltac case_if :=
  match goal with
  | |- context [if ?c then _ else _] => destruct c eqn:?
  end.

(** The properties hold whatever PostgreSQL's date input does with a text
    that is not in the form's spelling. *)
Section Properties.

Context {DI : DateInput}.

(** ** Date texts *)

(** The form's spelling takes years of more than four digits and leap
    days; it leaves the year 0000, days a month does not have and other
    spellings to the store's date input. *)
Example date_texts_of_the_form :
  map is_iso_date
    ["2025-01-10"; "10000-01-01"; "2024-02-29"; "5874897-12-31";
     "0000-01-01"; "2025-02-29"; "2025-13-01"; "5874898-01-01"; "02025-01-10";
     "2025-1-10"; "10 Jan 2025"; ""]
  = [true; true; true; true; false; false; false; false; false; false; false; false].
Proof. vm_compute. reflexivity. Qed.

(** A text in the form's spelling is stored as it is written. *)
Lemma date_in_of_the_form (s : string) : is_iso_date s = true -> date_in s = inr s.
Proof. intros H. unfold date_in. now rewrite H. Qed.

(** ** Equality tests and the role predicate *)

Lemma app_role_eqb_eq (a b : app_role) : app_role_eqb a b = true <-> a = b.
Proof. destruct a, b; simpl; split; congruence. Qed.

Lemma leave_status_eqb_eq (a b : leave_status) : leave_status_eqb a b = true <-> a = b.
Proof. destruct a, b; simpl; split; congruence. Qed.

Lemma is_uid_true (uid : option uuid) (x : uuid) : is_uid uid x = true <-> uid = Some x.
Proof.
  destruct uid as [u|]; simpl.
  - rewrite String.eqb_eq. split; congruence.
  - split; discriminate.
Qed.

Lemma is_uid_self (x : uuid) : is_uid (Some x) x = true.
Proof. now apply is_uid_true. Qed.

Lemma has_role_true (db : database) (uid : option uuid) (r : app_role) :
  has_role db uid r = true <->
  exists row, In row (Db.user_roles db)
              /\ uid = Some (UserRoles.user_id row) /\ UserRoles.role row = r.
Proof.
  unfold has_role. rewrite existsb_exists.
  split; intros [row [Hin H]]; exists row; split; auto.
  - apply andb_true_iff in H. destruct H as [H1 H2].
    now rewrite is_uid_true in H1; rewrite app_role_eqb_eq in H2.
  - destruct H as [H1 H2]. apply andb_true_iff.
    now rewrite is_uid_true, app_role_eqb_eq.
Qed.

(** The role predicate reads [user_roles] and nothing else. *)
Lemma has_role_ext (db1 db2 : database) (uid : option uuid) (r : app_role) :
  Db.user_roles db1 = Db.user_roles db2 -> has_role db1 uid r = has_role db2 uid r.
Proof. unfold has_role. now intros ->. Qed.

Lemma has_role_anonymous (db : database) (r : app_role) : has_role db None r = false.
Proof.
  unfold has_role. induction (Db.user_roles db) as [|x l IH]; simpl; auto.
Qed.

Lemma truthy_role_label (r : app_role) : truthy_string (app_role_label r) = true.
Proof. now destruct r. Qed.

Lemma role_or_user_admin (d : option UseRole.role_row) :
  UseRole.role_or_user d = admin <-> exists r, d = Some r /\ UseRole.data_role r = admin.
Proof.
  unfold UseRole.role_or_user. destruct d as [r|].
  - rewrite truthy_role_label. split.
    + intros H. now exists r.
    + intros [r' [Heq H]]. now injection Heq as ->.
  - split; [discriminate | intros [r [H _]]; discriminate].
Qed.

(** ** Role resolution *)

(** What [maybeSingle] can answer with a row. *)
Lemma maybeSingle_data {A : Type} (rows : list A) (x : A) :
  data (maybeSingle rows) = Some x -> rows = [x].
Proof.
  destruct rows as [|a [|b rest]]; simpl; try discriminate.
  now intros [= ->].
Qed.

Lemma select_role_data (db : database) (uid : option uuid) (id : uuid) (r : UseRole.role_row) :
  data (UseRole.select_role db uid id) = Some r ->
  exists row, In row (Db.user_roles db)
              /\ UserRoles.user_id row = id /\ UserRoles.role row = UseRole.data_role r.
Proof.
  unfold UseRole.select_role. intros H. apply maybeSingle_data in H.
  assert (Hin : In r [r]) by now left.
  rewrite <- H in Hin. apply in_map_iff in Hin.
  destruct Hin as [row [Hr Hin]]. exists row.
  apply filter_In in Hin. destruct Hin as [Hin Hid].
  apply filter_In in Hin. destruct Hin as [Hin _].
  apply String.eqb_eq in Hid. subst r. simpl. auto.
Qed.

(** C1. Role resolution is fail-safe. For a signed-in identity, [fetchRole]
    settles on "admin" exactly when the request resolved without an error to
    a record whose role is admin; an answer with no record, an answer with an
    error and a request that threw all settle on "user". Against the store
    itself: an identity without a [user_roles] row resolves to "user", and
    one that resolves to "admin" has an admin row in [user_roles]. *)
Theorem fetchRole_fail_safe :
  forall (id : uuid) (request : uuid -> awaited (response UseRole.role_row))
         (st : UseRole.state),
    id <> "" ->
    let st' := UseRole.fetchRole (Some id) request st in
    (UseRole.role st' = Some admin <->
       exists r, request id = Resolved {| data := Some r; error := None |}
                 /\ UseRole.data_role r = admin)
    /\ (request id = Resolved {| data := None; error := None |} ->
        UseRole.role st' = Some user)
    /\ (forall d e, request id = Resolved {| data := d; error := Some e |} ->
        UseRole.role st' = Some user)
    /\ (forall msg, request id = Thrown msg -> UseRole.role st' = Some user)
    /\ (forall db, Roles.assignments_of db id = [] ->
        UseRole.role (UseRole.useRole db (Some id) st) = Some user)
    /\ (forall db, UseRole.role (UseRole.useRole db (Some id) st) = Some admin ->
        has_role db (Some id) admin = true).
Proof.
  intros id request st Hid st'. subst st'. unfold UseRole.useRole, UseRole.fetchRole.
  assert (Hu : UseRole.user_id_of (Some id) = Some id).
  { unfold UseRole.user_id_of, truthy_string.
    apply String.eqb_neq in Hid. now rewrite Hid. }
  rewrite Hu. repeat split.
  - destruct (request id) as [[d [e|]]|msg]; simpl; try discriminate.
    intros [= H]. apply role_or_user_admin in H. destruct H as [r [-> H]].
    now exists r.
  - intros [r [-> H]]. simpl. rewrite truthy_role_label. now rewrite H.
  - now intros ->.
  - now intros d e ->.
  - now intros msg ->.
  - intros db Hnone. unfold UseRole.select_role.
    assert (Hnil : filter (fun r => UserRoles.user_id r =? id)
                     (filter (Policy.user_roles_select db (Some id)) (Db.user_roles db)) = []).
    { unfold Roles.assignments_of in Hnone.
      destruct (filter _ (filter _ _)) as [|x l] eqn:E; auto.
      assert (Hin : In x (x :: l)) by now left.
      rewrite <- E in Hin. apply filter_In in Hin. destruct Hin as [Hin Hx].
      apply filter_In in Hin. destruct Hin as [Hin _].
      assert (Hx' : In x (filter (fun r => UserRoles.user_id r =? id) (Db.user_roles db)))
        by (apply filter_In; auto).
      rewrite Hnone in Hx'. destruct Hx'. }
    now rewrite Hnil.
  - intros db. destruct (error (UseRole.select_role db (Some id) id)) eqn:E; simpl;
      try discriminate.
    intros [= H]. apply role_or_user_admin in H. destruct H as [r [Hd Hr]].
    apply select_role_data in Hd. destruct Hd as [row [Hin [Hrid Hrole]]].
    apply has_role_true. exists row. repeat split; auto; congruence.
Qed.

Lemma fetchRole_fail_safe_witness :
  Sample.carol <> ""
  /\ UseRole.role (UseRole.useRole Sample.db (Some Sample.carol) UseRole.initial) = Some user
  /\ UseRole.role
       (UseRole.fetchRole (Some Sample.carol)
          (fun _ => Thrown "TypeError: Failed to fetch") UseRole.initial) = Some user.
Proof.
  assert (Hid : Sample.carol <> "") by discriminate.
  split; [exact Hid|].
  destruct (fetchRole_fail_safe Sample.carol (fun _ => Thrown "TypeError: Failed to fetch")
              UseRole.initial Hid) as [_ [_ [_ [H _]]]].
  split; [reflexivity | now apply (H "TypeError: Failed to fetch")].
Defined.

(** ** Dashboard statistics *)

(** C10. Whatever the statistics fetch comes to, the "Active Employees" card
    shows what the "Total Employees" card shows: after a fetch that resolved
    both counts are the [profiles] count of that answer ([count || 0]), and
    after one that threw both are still the initial zero. *)
Theorem active_employees_is_total_employees :
  forall (res : awaited (Dashboard.count_response * Dashboard.count_response)),
    let st := Dashboard.fetchStats res Dashboard.initial in
    Dashboard.card_value st "Active Employees" = Dashboard.card_value st "Total Employees"
    /\ Dashboard.activeEmployees (Dashboard.stats_of st)
       = Dashboard.totalEmployees (Dashboard.stats_of st)
    /\ (forall employeesRes leavesRes, res = Resolved (employeesRes, leavesRes) ->
        Dashboard.activeEmployees (Dashboard.stats_of st)
        = Dashboard.or_zero (Dashboard.count employeesRes))
    /\ (forall msg, res = Thrown msg ->
        Dashboard.activeEmployees (Dashboard.stats_of st) = 0%Z
        /\ Dashboard.totalEmployees (Dashboard.stats_of st) = 0%Z).
Proof.
  intros res st. subst st.
  destruct res as [[employeesRes leavesRes]|msg].
  - split; [reflexivity|]. split; [reflexivity|]. split.
    + intros e l H. injection H as <- <-. reflexivity.
    + discriminate.
  - split; [reflexivity|]. split; [reflexivity|]. split.
    + discriminate.
    + intros _ _. split; reflexivity.
Qed.

(** ** Reads under the policies *)

Lemma filter_none {A : Type} (f : A -> bool) (l : list A) :
  (forall x, In x l -> f x = false) -> filter f l = [].
Proof.
  induction l as [|a l IH]; simpl; intros H; auto.
  rewrite (H a) by now left. apply IH. intros x Hx. apply H. now right.
Qed.

Lemma insert_desc_perm {A : Type} (key : A -> Z) (x : A) (l : list A) :
  Permutation (insert_desc key x l) (x :: l).
Proof.
  induction l as [|y l IH]; simpl; auto.
  destruct (key y <? key x)%Z; auto.
  rewrite IH. apply perm_swap.
Qed.

Lemma order_desc_perm {A : Type} (key : A -> Z) (l : list A) :
  Permutation (order_desc key l) l.
Proof.
  unfold order_desc. induction l as [|x l IH]; simpl; auto.
  rewrite insert_desc_perm. now constructor.
Qed.

Lemma order_desc_In {A : Type} (key : A -> Z) (l : list A) (x : A) :
  In x (order_desc key l) <-> In x l.
Proof.
  split; apply Permutation_in; [|symmetry]; apply order_desc_perm.
Qed.

(** What the policy on [attendance] lets a caller without the admin role see. *)
Lemma attendance_visible_own (db : database) (me : uuid) (a : Attendance.row) :
  has_role db (Some me) admin = false ->
  In a (filter (Policy.attendance_select db (Some me)) (Db.attendance db)) ->
  In a (Db.attendance db) /\ Attendance.user_id a = me.
Proof.
  intros Hno Hin. apply filter_In in Hin. destruct Hin as [Hin Hp].
  split; auto. unfold Policy.attendance_select in Hp. rewrite Hno, orb_false_r in Hp.
  apply is_uid_true in Hp. congruence.
Qed.

Lemma select_attendance_rows (db : database) (uid owner : option uuid) (a : Attendance.row) :
  In a (rows_of (AttendancePage.select_attendance db uid owner)) ->
  In a (filter (Policy.attendance_select db uid) (Db.attendance db)).
Proof.
  unfold AttendancePage.select_attendance, rows_of. simpl.
  destruct owner as [o|]; auto. intros H. now apply filter_In in H.
Qed.

(** C2. For an identity without the admin role, a read of [admin_data]
    succeeds with no row, whatever owner it asks for; a read of the
    [attendance] of another identity succeeds with no row; every row a read
    of [attendance] does return is a whole row of the table and the caller's
    own; and the table of the Attendance page lists the caller's own records
    only, even if the page believes the caller to be an admin. *)
Theorem non_admin_reads_exclude_others :
  forall (db : database) (me : uuid),
    has_role db (Some me) admin = false ->
    (forall owner, select_admin_data db (Some me) owner = ok [])
    /\ (forall other, other <> me ->
        AttendancePage.select_attendance db (Some me) (Some other) = ok [])
    /\ (forall owner a,
        In a (rows_of (AttendancePage.select_attendance db (Some me) owner)) ->
        In a (Db.attendance db) /\ Attendance.user_id a = me)
    /\ (forall isAdmin st r,
        In r (AttendancePage.attendanceRecords
                (AttendancePage.fetchAttendanceRecords db (Some me) isAdmin st)) ->
        AttendancePage.user_id r = me).
Proof.
  intros db me Hno. repeat split.
  - intros owner. unfold select_admin_data.
    assert (Hnil : filter (Policy.admin_data_select db (Some me)) (Db.admin_data db) = []).
    { apply filter_none. intros x _. exact Hno. }
    rewrite Hnil. now destruct owner.
  - intros other Hne. unfold AttendancePage.select_attendance. f_equal. f_equal.
    apply filter_none. intros a Hin.
    apply (attendance_visible_own db me a Hno) in Hin. destruct Hin as [_ Hown].
    apply String.eqb_neq. congruence.
  - apply select_attendance_rows in H. now apply (attendance_visible_own db me a Hno) in H.
  - apply select_attendance_rows in H. now apply (attendance_visible_own db me a Hno) in H.
  - intros isAdmin st r Hin.
    unfold AttendancePage.fetchAttendanceRecords in Hin. simpl in Hin.
    apply in_map_iff in Hin. destruct Hin as [a [<- Hin]].
    apply order_desc_In in Hin. simpl.
    assert (Hvis : In a (filter (Policy.attendance_select db (Some me)) (Db.attendance db))).
    { destruct isAdmin; auto. now apply filter_In in Hin. }
    now apply (attendance_visible_own db me a Hno) in Hvis.
Qed.

Lemma non_admin_reads_exclude_others_witness :
  has_role Sample.db (Some Sample.bob) admin = false
  /\ select_admin_data Sample.db (Some Sample.bob) (Some Sample.carol) = ok []
  /\ AttendancePage.select_attendance Sample.db (Some Sample.bob) (Some Sample.carol) = ok [].
Proof.
  split; [reflexivity|].
  destruct (non_admin_reads_exclude_others Sample.db Sample.bob eq_refl) as [H1 [H2 _]].
  split; [apply H1 | apply H2; discriminate].
Defined.

(** ** Updates under a policy *)

Section UpdateRows.

Context {A : Type}.
Variables (using_expr with_check constraints cond : A -> bool) (set : A -> A).

(** Row by row, an update leaves the row alone or rewrites a row that the
    USING expression and the filter accept into one that passes WITH CHECK
    and the constraints. *)
Lemma update_rows_Forall2 (rows rows' : list A) :
  update_rows using_expr with_check constraints cond set rows = Some rows' ->
  Forall2
    (fun r r' =>
       r' = r
       \/ (using_expr r = true /\ cond r = true /\ with_check (set r) = true
           /\ constraints (set r) = true /\ r' = set r))
    rows rows'.
Proof.
  unfold update_rows. destruct (forallb _ rows) eqn:E; [|discriminate].
  intros [= <-]. induction rows as [|r rows IH]; simpl; constructor.
  - simpl in E. apply andb_true_iff in E. destruct E as [E _].
    destruct (using_expr r && cond r) eqn:Hh; auto.
    right. apply andb_true_iff in Hh, E. tauto.
  - apply IH. simpl in E. apply andb_true_iff in E. tauto.
Qed.

(** A caller the USING expression rejects updates nothing, without an error. *)
Lemma update_rows_invisible (rows : list A) :
  (forall r, In r rows -> using_expr r = false) ->
  update_rows using_expr with_check constraints cond set rows = Some rows.
Proof.
  intros H. unfold update_rows.
  assert (E : forallb (fun r => if using_expr r && cond r
                                then with_check (set r) && constraints (set r)
                                else true) rows = true).
  { apply forallb_forall. intros r Hr. now rewrite (H r Hr). }
  rewrite E. f_equal. induction rows as [|r rows IH]; simpl; auto.
  rewrite (H r) by now left. simpl. f_equal. apply IH.
  - intros x Hx. apply H. now right.
  - apply forallb_forall. intros x Hx. rewrite (H x); auto. now right.
Qed.

(** When every rewritten row passes, the update goes through. *)
Lemma update_rows_accepted (rows : list A) :
  (forall r, In r rows -> using_expr r = true -> cond r = true ->
             with_check (set r) = true /\ constraints (set r) = true) ->
  update_rows using_expr with_check constraints cond set rows
  = Some (map (fun r => if using_expr r && cond r then set r else r) rows).
Proof.
  intros H. unfold update_rows.
  assert (E : forallb (fun r => if using_expr r && cond r
                                then with_check (set r) && constraints (set r)
                                else true) rows = true).
  { apply forallb_forall. intros r Hr.
    destruct (using_expr r && cond r) eqn:Hh; auto.
    apply andb_true_iff in Hh. destruct Hh as [Hu Hc].
    destruct (H r Hr Hu Hc) as [-> ->]. reflexivity. }
  now rewrite E.
Qed.

End UpdateRows.

Lemma with_leaves_same (db : database) : Db.with_leaves db (Db.leaves db) = db.
Proof. now destruct db. Qed.

Lemma with_attendance_same (db : database) : Db.with_attendance db (Db.attendance db) = db.
Proof. now destruct db. Qed.

Lemma with_profiles_same (db : database) : Db.with_profiles db (Db.profiles db) = db.
Proof. now destruct db. Qed.

Lemma Forall2_same {A : Type} (R : A -> A -> Prop) (l : list A) :
  (forall x, R x x) -> Forall2 R l l.
Proof. intros H. induction l; constructor; auto. Qed.

(** ** Leave reviews *)

Lemma review_store (decision : leave_status) (m1 m2 : string) (db : database)
    (cur_user : option uuid) (isAdmin : bool) (leaveId : uuid)
    (client_now server_now : timestamptz) (st : LeavesPage.state) :
  fst (LeavesPage.review decision m1 m2 db cur_user isAdmin leaveId client_now server_now st)
  = fst (LeavesPage.update_leave db cur_user
           (LeavesPage.review_payload decision cur_user client_now) leaveId server_now).
Proof.
  unfold LeavesPage.review.
  now destruct (LeavesPage.update_leave _ _ _ _ _) as [db1 [e|]].
Qed.

Lemma review_rows (decision : leave_status) (m1 m2 : string) (db : database)
    (cur_user : option uuid) (isAdmin : bool) (leaveId : uuid)
    (client_now server_now : timestamptz) (st : LeavesPage.state) :
  exists rows,
    fst (LeavesPage.review decision m1 m2 db cur_user isAdmin leaveId client_now server_now st)
    = Db.with_leaves db rows
    /\ Forall2 (reviewed_row db cur_user leaveId decision client_now server_now)
         (Db.leaves db) rows.
Proof.
  rewrite review_store. unfold LeavesPage.update_leave.
  destruct (update_rows _ _ _ _ _ _) as [rows|] eqn:E.
  - exists rows. split; auto.
    apply update_rows_Forall2 in E.
    eapply Forall2_impl; [|exact E]. simpl.
    intros l l' [->|[Hu [Hc [_ [_ ->]]]]]; [now left|right].
    unfold Policy.leaves_update in Hu.
    destruct cur_user as [reviewer|]; [|now rewrite has_role_anonymous in Hu].
    exists reviewer. apply String.eqb_eq in Hc. auto.
  - exists (Db.leaves db). simpl. split; [now rewrite with_leaves_same|].
    apply Forall2_same. now left.
Qed.

Lemma review_not_admin (decision : leave_status) (m1 m2 : string) (db : database)
    (cur_user : option uuid) (isAdmin : bool) (leaveId : uuid)
    (client_now server_now : timestamptz) (st : LeavesPage.state) :
  has_role db cur_user admin = false ->
  fst (LeavesPage.review decision m1 m2 db cur_user isAdmin leaveId client_now server_now st)
  = db.
Proof.
  intros Hno. rewrite review_store. unfold LeavesPage.update_leave.
  rewrite update_rows_invisible by (intros r _; exact Hno).
  simpl. apply with_leaves_same.
Qed.

Lemma review_by_admin (decision : leave_status) (m1 m2 : string) (db : database)
    (cur_user : option uuid) (isAdmin : bool) (leaveId : uuid)
    (client_now server_now : timestamptz) (st : LeavesPage.state) :
  has_role db cur_user admin = true ->
  references_profile db cur_user = true ->
  Db.leaves
    (fst (LeavesPage.review decision m1 m2 db cur_user isAdmin leaveId
            client_now server_now st))
  = map (fun l => if Leaves.id l =? leaveId
                  then LeavesPage.apply_update
                         (LeavesPage.review_payload decision cur_user client_now) server_now l
                  else l)
      (Db.leaves db).
Proof.
  intros Hadm Hfk. rewrite review_store. unfold LeavesPage.update_leave.
  rewrite update_rows_accepted.
  - simpl. apply map_ext. intros l. unfold Policy.leaves_update. now rewrite Hadm.
  - intros l _ _ _. split; [exact Hadm|].
    destruct cur_user as [a|]; [exact Hfk|now rewrite has_role_anonymous in Hadm].
Qed.

Lemma apply_update_id (u : LeavesPage.leave_update) (now : timestamptz) (l : Leaves.row) :
  Leaves.id (LeavesPage.apply_update u now l) = Leaves.id l.
Proof. reflexivity. Qed.

(** What a review does to the statuses, for either decision. *)
Lemma review_statuses (decision : leave_status) (m1 m2 : string) (db : database)
    (cur_user : option uuid) (isAdmin : bool) (leaveId : uuid)
    (client_now server_now : timestamptz) (st : LeavesPage.state) :
  Forall2
    (fun l l' =>
       Leaves.id l' = Leaves.id l
       /\ (Leaves.status l' = Leaves.status l
           \/ (has_role db cur_user admin = true /\ Leaves.id l = leaveId
               /\ Leaves.status l' = decision)))
    (Db.leaves db)
    (Db.leaves
       (fst (LeavesPage.review decision m1 m2 db cur_user isAdmin leaveId
               client_now server_now st))).
Proof.
  destruct (review_rows decision m1 m2 db cur_user isAdmin leaveId client_now server_now st)
    as [rows [-> H]].
  simpl. eapply Forall2_impl; [|exact H]. simpl.
  intros l l' [->|[reviewer [_ [Hadm [Hid ->]]]]]; split; auto.
Qed.

Lemma review_by_admin_status (decision : leave_status) (m1 m2 : string) (db : database)
    (cur_user : option uuid) (isAdmin : bool) (leaveId : uuid)
    (client_now server_now : timestamptz) (st : LeavesPage.state) (l' : Leaves.row) :
  has_role db cur_user admin = true ->
  references_profile db cur_user = true ->
  In l' (Db.leaves
           (fst (LeavesPage.review decision m1 m2 db cur_user isAdmin leaveId
                   client_now server_now st))) ->
  Leaves.id l' = leaveId ->
  Leaves.status l' = decision.
Proof.
  intros Hadm Hfk Hin Hid. rewrite review_by_admin in Hin by assumption.
  apply in_map_iff in Hin. destruct Hin as [l [Hl _]].
  destruct (Leaves.id l =? leaveId) eqn:E.
  - now subst l'.
  - subst l'. apply String.eqb_neq in E. contradiction.
Qed.

(** C3, as the code has it. An approve or reject names its leave by id
    alone. Issued by a caller without the admin role it leaves the store as
    it was; issued by an admin (who has a profile) it leaves every leave of
    that id approved, respectively rejected, whatever its status was before.
    So a status only ever changes to approved or rejected, on the addressed
    leave, by an admin, and never back to pending. That the leave was pending
    is checked by the page alone: the Approve and Reject buttons are rendered
    only when the page holds [isAdmin] and the fetched status is pending. *)
Theorem review_sets_decision_by_admin_only :
  forall (db : database) (cur_user : option uuid) (isAdmin : bool) (leaveId : uuid)
         (client_now server_now : timestamptz) (st : LeavesPage.state),
    let approved_db :=
      fst (LeavesPage.handleApprove db cur_user isAdmin leaveId client_now server_now st) in
    let rejected_db :=
      fst (LeavesPage.handleReject db cur_user isAdmin leaveId client_now server_now st) in
    Forall2
      (fun l l' =>
         Leaves.id l' = Leaves.id l
         /\ (Leaves.status l' = Leaves.status l
             \/ (has_role db cur_user admin = true /\ Leaves.id l = leaveId
                 /\ Leaves.status l' = approved)))
      (Db.leaves db) (Db.leaves approved_db)
    /\ Forall2
         (fun l l' =>
            Leaves.id l' = Leaves.id l
            /\ (Leaves.status l' = Leaves.status l
                \/ (has_role db cur_user admin = true /\ Leaves.id l = leaveId
                    /\ Leaves.status l' = rejected)))
         (Db.leaves db) (Db.leaves rejected_db)
    /\ (has_role db cur_user admin = false -> approved_db = db /\ rejected_db = db)
    /\ (has_role db cur_user admin = true -> references_profile db cur_user = true ->
        forall l',
          Leaves.id l' = leaveId ->
          (In l' (Db.leaves approved_db) -> Leaves.status l' = approved)
          /\ (In l' (Db.leaves rejected_db) -> Leaves.status l' = rejected))
    /\ (forall l,
          LeavesPage.actions_rendered isAdmin (LeavesPage.select_columns db cur_user l) = true ->
          isAdmin = true /\ Leaves.status l = pending).
Proof.
  intros db cur_user isAdmin leaveId client_now server_now st approved_db rejected_db.
  subst approved_db rejected_db. unfold LeavesPage.handleApprove, LeavesPage.handleReject.
  split; [apply review_statuses|]. split; [apply review_statuses|].
  split; [|split].
  - intros Hno. split; now apply review_not_admin.
  - intros Hadm Hfk l' Hid. split; intros Hin.
    + eapply review_by_admin_status; eauto.
    + eapply review_by_admin_status; eauto.
  - intros l H. unfold LeavesPage.actions_rendered in H. simpl in H.
    apply andb_true_iff in H. destruct H as [H1 H2].
    now apply leave_status_eqb_eq in H2.
Qed.

(** C3 fails as stated. Carol's leave is pending; Dana's reject sets it to
    rejected; Alice's approve, run for the same leave afterwards, sets the
    rejected leave to approved. *)
Lemma terminal_leave_reapproved :
  map (fun l => (Leaves.id l, Leaves.status l)) (Db.leaves Sample.db)
  = [(Leaves.id Sample.carols_leave, pending)]
  /\ map (fun l => (Leaves.id l, Leaves.status l)) (Db.leaves Sample.db_rejected)
     = [(Leaves.id Sample.carols_leave, rejected)]
  /\ map (fun l => (Leaves.id l, Leaves.status l)) (Db.leaves Sample.db_reapproved)
     = [(Leaves.id Sample.carols_leave, approved)].
Proof. vm_compute. repeat split; reflexivity. Qed.

Lemma review_sets_decision_by_admin_only_witness :
  has_role Sample.db (Some Sample.alice) admin = true
  /\ references_profile Sample.db (Some Sample.alice) = true
  /\ forall l',
       Leaves.id l' = Leaves.id Sample.carols_leave ->
       In l' (Db.leaves
                (fst (LeavesPage.handleApprove Sample.db (Some Sample.alice) true
                        (Leaves.id Sample.carols_leave) 1736247600000%Z 1736247600250%Z LeavesPage.initial))) ->
       Leaves.status l' = approved.
Proof.
  split; [reflexivity|]. split; [reflexivity|].
  intros l' Hid Hin.
  destruct (review_sets_decision_by_admin_only Sample.db (Some Sample.alice) true
              (Leaves.id Sample.carols_leave) 1736247600000%Z 1736247600250%Z LeavesPage.initial)
    as [_ [_ [_ [H _]]]].
  exact (proj1 (H eq_refl eq_refl l' Hid) Hin).
Defined.

(** ** Review stamps *)

Lemma insert_activity_log_leaves (db : database) (uid owner : option uuid)
    (act descr : string) (new_id : uuid) (now : timestamptz) :
  Db.leaves (fst (LeavesPage.insert_activity_log db uid owner act descr new_id now))
  = Db.leaves db.
Proof.
  unfold LeavesPage.insert_activity_log. destruct owner as [o|]; auto.
  repeat case_if; reflexivity.
Qed.

(** An insert either fails and leaves the store alone, or appends the new row. *)
Lemma insert_leave_cases (db : database) (uid : option uuid) (d : LeavesPage.leaveData)
    (new_id : uuid) (now : timestamptz) :
  (exists e, LeavesPage.insert_leave db uid d new_id now = (db, Some e))
  \/ (exists owner ty s e,
        LeavesPage.ld_user_id d = Some owner
        /\ leave_type_in (LeavesPage.ld_type d) = Some ty
        /\ date_in (LeavesPage.ld_start_date d) = inr s
        /\ date_in (LeavesPage.ld_end_date d) = inr e
        /\ LeavesPage.insert_leave db uid d new_id now
           = (Db.with_leaves db
                (Db.leaves db
                 ++ [LeavesPage.new_leave owner ty s e (LeavesPage.ld_reason d) new_id now]),
              None)).
Proof.
  unfold LeavesPage.insert_leave.
  destruct (leave_type_in (LeavesPage.ld_type d)) as [ty|]; [|left; eexists; reflexivity].
  destruct (date_in (LeavesPage.ld_start_date d)) as [err|s]; [left; eexists; reflexivity|].
  destruct (date_in (LeavesPage.ld_end_date d)) as [err|e]; [left; eexists; reflexivity|].
  destruct (LeavesPage.ld_user_id d) as [owner|]; [|left; eexists; reflexivity].
  repeat (case_if; [left; eexists; reflexivity|]).
  right. exists owner, ty, s, e. auto.
Qed.

Lemma handleSubmitLeave_leaves (db : database) (cur_user : option uuid) (isAdmin : bool)
    (f : LeavesPage.form) (ids : uuid * uuid) (now : timestamptz) (st : LeavesPage.state) :
  Db.leaves (fst (LeavesPage.handleSubmitLeave db cur_user isAdmin f ids now st))
  = Db.leaves db
  \/ exists owner ty s e reason,
       Db.leaves (fst (LeavesPage.handleSubmitLeave db cur_user isAdmin f ids now st))
       = (Db.leaves db ++ [LeavesPage.new_leave owner ty s e reason (fst ids) now])%list.
Proof.
  unfold LeavesPage.handleSubmitLeave.
  match goal with |- context [LeavesPage.insert_leave ?a ?b ?c ?d ?e] =>
    destruct (insert_leave_cases a b c d e)
      as [[e' ->]|[owner [ty [s [e0 [_ [_ [_ [_ ->]]]]]]]]]
  end.
  - now left.
  - right. exists owner, ty, s, e0. eexists. simpl.
    rewrite insert_activity_log_leaves. reflexivity.
Qed.

Lemma new_leave_consistent (owner : uuid) (ty : leave_type) (s e : date) (reason : string)
    (new_id : uuid) (now : timestamptz) :
  LeavesWorkflow.reviewed_consistently (LeavesPage.new_leave owner ty s e reason new_id now).
Proof. unfold LeavesWorkflow.reviewed_consistently. simpl. auto. Qed.

Lemma review_consistent (decision : leave_status) (m1 m2 : string) (db : database)
    (cur_user : option uuid) (isAdmin : bool) (leaveId : uuid)
    (client_now server_now : timestamptz) (st : LeavesPage.state) :
  decision <> pending ->
  Forall LeavesWorkflow.reviewed_consistently (Db.leaves db) ->
  Forall LeavesWorkflow.reviewed_consistently
    (Db.leaves (fst (LeavesPage.review decision m1 m2 db cur_user isAdmin leaveId
                       client_now server_now st))).
Proof.
  intros Hd Hall.
  destruct (review_rows decision m1 m2 db cur_user isAdmin leaveId client_now server_now st)
    as [rows [-> H]].
  simpl. induction H as [|l l' ls ls' Hrow _ IH]; [constructor|].
  inversion Hall as [|? ? Hl Hls]; subst. constructor; [|now apply IH].
  destruct Hrow as [->|[reviewer [-> [_ [_ ->]]]]]; auto.
  unfold LeavesWorkflow.reviewed_consistently. simpl.
  destruct decision; try contradiction; split; discriminate.
Qed.

Lemma step_consistent (s : database * LeavesPage.state) (a : LeavesWorkflow.action) :
  Forall LeavesWorkflow.reviewed_consistently (Db.leaves (fst s)) ->
  Forall LeavesWorkflow.reviewed_consistently (Db.leaves (fst (LeavesWorkflow.step s a))).
Proof.
  destruct s as [db st]. intros H.
  destruct a as [v|cu ia f ids now|cu ia lid cn sn|cu ia lid cn sn|cu ia]; simpl; auto.
  - destruct (handleSubmitLeave_leaves db cu ia f ids now st) as [->|[o [ty [d1 [d2 [r ->]]]]]]; auto.
    apply Forall_app. split; auto. constructor; [apply new_leave_consistent|constructor].
  - apply review_consistent; [discriminate|exact H].
  - apply review_consistent; [discriminate|exact H].
Qed.

Lemma run_consistent (actions : list LeavesWorkflow.action) :
  forall s,
    Forall LeavesWorkflow.reviewed_consistently (Db.leaves (fst s)) ->
    Forall LeavesWorkflow.reviewed_consistently
      (Db.leaves (fst (LeavesWorkflow.run s actions))).
Proof.
  unfold LeavesWorkflow.run.
  induction actions as [|a actions IH]; simpl; intros s H; auto.
  apply IH. now apply step_consistent.
Qed.

Lemma review_stamps (decision : leave_status) (m1 m2 : string) (db : database)
    (cur_user : option uuid) (isAdmin : bool) (leaveId : uuid)
    (client_now server_now : timestamptz) (st : LeavesPage.state) :
  Forall2
    (fun l l' =>
       l' = l
       \/ exists reviewer,
            cur_user = Some reviewer
            /\ has_role db (Some reviewer) admin = true
            /\ Leaves.id l = leaveId
            /\ Leaves.status l' = decision
            /\ Leaves.reviewed_by l' = Some reviewer
            /\ Leaves.reviewed_at l' = Some client_now)
    (Db.leaves db)
    (Db.leaves (fst (LeavesPage.review decision m1 m2 db cur_user isAdmin leaveId
                       client_now server_now st))).
Proof.
  destruct (review_rows decision m1 m2 db cur_user isAdmin leaveId client_now server_now st)
    as [rows [-> H]].
  simpl. eapply Forall2_impl; [|exact H]. simpl.
  intros l l' [->|[reviewer [-> [Hadm [Hid ->]]]]]; [now left|right].
  exists reviewer. simpl. auto 10.
Qed.

(** C5. An approve or reject sends the new status, the reviewer
    ([reviewed_by], the acting admin) and the review time ([reviewed_at]) in
    one update keyed by the leave's id: row by row, a leave is afterwards
    either exactly as it was or carries all three new values together. An
    admin's approval of a pending leave produces that row with the status
    approved, and an admin's rejection produces it with the status rejected.
    And over any run of the page's actions, by any callers, every leave stays
    either pending with no reviewer and no review time, or decided with
    both. *)
Theorem review_writes_status_and_stamp_together :
  forall (db : database) (cur_user : option uuid) (isAdmin : bool) (leaveId : uuid)
         (client_now server_now : timestamptz) (st : LeavesPage.state),
    let approved_db :=
      fst (LeavesPage.handleApprove db cur_user isAdmin leaveId client_now server_now st) in
    let rejected_db :=
      fst (LeavesPage.handleReject db cur_user isAdmin leaveId client_now server_now st) in
    Forall2
      (fun l l' =>
         l' = l
         \/ exists reviewer,
              cur_user = Some reviewer
              /\ has_role db (Some reviewer) admin = true
              /\ Leaves.id l = leaveId
              /\ Leaves.status l' = approved
              /\ Leaves.reviewed_by l' = Some reviewer
              /\ Leaves.reviewed_at l' = Some client_now)
      (Db.leaves db) (Db.leaves approved_db)
    /\ Forall2
         (fun l l' =>
            l' = l
            \/ exists reviewer,
                 cur_user = Some reviewer
                 /\ has_role db (Some reviewer) admin = true
                 /\ Leaves.id l = leaveId
                 /\ Leaves.status l' = rejected
                 /\ Leaves.reviewed_by l' = Some reviewer
                 /\ Leaves.reviewed_at l' = Some client_now)
         (Db.leaves db) (Db.leaves rejected_db)
    /\ (forall reviewer l,
          cur_user = Some reviewer ->
          has_role db (Some reviewer) admin = true ->
          has_key Profiles.id reviewer (Db.profiles db) = true ->
          In l (Db.leaves db) -> Leaves.id l = leaveId -> Leaves.status l = pending ->
          exists l',
            In l' (Db.leaves approved_db)
            /\ Leaves.id l' = leaveId
            /\ Leaves.status l' = approved
            /\ Leaves.reviewed_by l' = Some reviewer
            /\ Leaves.reviewed_at l' = Some client_now)
    /\ (forall reviewer l,
          cur_user = Some reviewer ->
          has_role db (Some reviewer) admin = true ->
          has_key Profiles.id reviewer (Db.profiles db) = true ->
          In l (Db.leaves db) -> Leaves.id l = leaveId -> Leaves.status l = pending ->
          exists l',
            In l' (Db.leaves rejected_db)
            /\ Leaves.id l' = leaveId
            /\ Leaves.status l' = rejected
            /\ Leaves.reviewed_by l' = Some reviewer
            /\ Leaves.reviewed_at l' = Some client_now)
    /\ (forall (s : database * LeavesPage.state) (actions : list LeavesWorkflow.action),
          Forall LeavesWorkflow.reviewed_consistently (Db.leaves (fst s)) ->
          Forall LeavesWorkflow.reviewed_consistently
            (Db.leaves (fst (LeavesWorkflow.run s actions)))).
Proof.
  intros db cur_user isAdmin leaveId client_now server_now st approved_db rejected_db.
  subst approved_db rejected_db. unfold LeavesPage.handleApprove, LeavesPage.handleReject.
  split; [apply review_stamps|]. split; [apply review_stamps|]. split; [|split].
  - intros reviewer l -> Hadm Hfk Hin Hid _.
    exists (LeavesPage.apply_update
              (LeavesPage.review_payload approved (Some reviewer) client_now) server_now l).
    split; [|simpl; auto].
    rewrite review_by_admin by assumption.
    apply in_map_iff. exists l. split; auto.
    apply String.eqb_eq in Hid. now rewrite Hid.
  - intros reviewer l -> Hadm Hfk Hin Hid _.
    exists (LeavesPage.apply_update
              (LeavesPage.review_payload rejected (Some reviewer) client_now) server_now l).
    split; [|simpl; auto].
    rewrite review_by_admin by assumption.
    apply in_map_iff. exists l. split; auto.
    apply String.eqb_eq in Hid. now rewrite Hid.
  - intros s actions. apply run_consistent.
Qed.

(** ** Submitting a leave and reading it back *)

Lemma insert_activity_log_frame (db : database) (uid owner : option uuid)
    (act descr : string) (new_id : uuid) (now : timestamptz) :
  let db' := fst (LeavesPage.insert_activity_log db uid owner act descr new_id now) in
  Db.leaves db' = Db.leaves db
  /\ Db.user_roles db' = Db.user_roles db
  /\ Db.profiles db' = Db.profiles db.
Proof.
  unfold LeavesPage.insert_activity_log. destruct owner as [o|]; simpl; auto.
  repeat case_if; simpl; auto.
Qed.

Lemma insert_leave_accepted (db : database) (owner : uuid) (ty : leave_type)
    (start_date end_date : date) (d : LeavesPage.leaveData) (new_id : uuid)
    (now : timestamptz) :
  LeavesPage.ld_user_id d = Some owner ->
  leave_type_in (LeavesPage.ld_type d) = Some ty ->
  date_in (LeavesPage.ld_start_date d) = inr start_date ->
  date_in (LeavesPage.ld_end_date d) = inr end_date ->
  has_key Profiles.id owner (Db.profiles db) = true ->
  has_key Leaves.id new_id (Db.leaves db) = false ->
  LeavesPage.insert_leave db (Some owner) d new_id now
  = (Db.with_leaves db
       (Db.leaves db
        ++ [LeavesPage.new_leave owner ty start_date end_date (LeavesPage.ld_reason d)
              new_id now]), None).
Proof.
  intros Hu Hty Hs He Hp Hk. unfold LeavesPage.insert_leave.
  rewrite Hu, Hty, Hs, He, Hp, Hk. unfold Policy.leaves_insert. simpl.
  now rewrite String.eqb_refl.
Qed.

(** The read of the Leaves page is refused, whoever asks and whatever the
    store holds: its embed of [profiles] names no foreign key and [leaves]
    has two. *)
Lemma select_leaves_refused (db : database) (cur_user : option uuid) (isAdmin : bool) :
  LeavesPage.select_leaves db cur_user isAdmin
  = failed "PGRST201"
      "Could not embed because more than one relationship was found for 'leaves' and 'profiles'".
Proof. reflexivity. Qed.

(** [fetchLeaves] therefore keeps the list it had and reports the failure. *)
Lemma fetchLeaves_refused (db : database) (cur_user : option uuid) (isAdmin : bool)
    (st : LeavesPage.state) :
  LeavesPage.fetchLeaves db cur_user isAdmin st
  = {| LeavesPage.leaves := LeavesPage.leaves st;
       LeavesPage.loading := false;
       LeavesPage.dialogOpen := LeavesPage.dialogOpen st;
       LeavesPage.leaveType := LeavesPage.leaveType st;
       LeavesPage.toasts := (LeavesPage.toasts st ++ ["Failed to load leaves"])%list |}.
Proof. reflexivity. Qed.


(** ** Clock-out *)

Lemma update_clock_out_rows (db : database) (uid : option uuid) (t : timestamptz)
    (recordId : uuid) (now : timestamptz) :
  exists rows,
    fst (AttendancePage.update_clock_out db uid t recordId now) = Db.with_attendance db rows
    /\ Forall2
         (fun a a' =>
            a' = a
            \/ (has_role db uid admin = true /\ Attendance.id a = recordId
                /\ a' = AttendancePage.set_clock_out t now a))
         (Db.attendance db) rows.
Proof.
  unfold AttendancePage.update_clock_out.
  destruct (update_rows _ _ _ _ _ _) as [rows|] eqn:E.
  - exists rows. split; auto. apply update_rows_Forall2 in E.
    eapply Forall2_impl; [|exact E]. simpl.
    intros a a' [->|[Hu [Hc [_ [_ ->]]]]]; [now left|right].
    apply String.eqb_eq in Hc. auto.
  - exists (Db.attendance db). simpl. split; [now rewrite with_attendance_same|].
    apply Forall2_same. now left.
Qed.

Lemma handleClockOut_store (db : database) (cur_user : option uuid) (isAdmin : bool)
    (recordId : uuid) (client_now server_now : timestamptz) (st : AttendancePage.state) :
  fst (AttendancePage.handleClockOut db cur_user isAdmin recordId client_now server_now st)
  = if isAdmin
    then fst (AttendancePage.update_clock_out db cur_user client_now recordId server_now)
    else db.
Proof.
  unfold AttendancePage.handleClockOut. destruct isAdmin; simpl; auto.
  now destruct (AttendancePage.update_clock_out _ _ _ _ _) as [db1 [e|]].
Qed.

(** C6, as the code has it. A clock-out names its record by id alone. From
    a page that does not hold [isAdmin], or from a caller without the admin
    role, it leaves the store as it was; from an admin it sets [clock_out] of
    every record of that id to the browser's current time and leaves
    [clock_in] alone, whether or not [clock_out] was set before and without
    comparing the two times. That the record is still open is checked by the
    page alone: the Clock Out button is rendered only when the page holds
    [isAdmin] and the fetched [clock_out] is null. *)
Theorem clock_out_sets_time_by_admin_only :
  forall (db : database) (cur_user : option uuid) (isAdmin : bool) (recordId : uuid)
         (client_now server_now : timestamptz) (st : AttendancePage.state),
    let db' :=
      fst (AttendancePage.handleClockOut db cur_user isAdmin recordId
             client_now server_now st) in
    Forall2
      (fun a a' =>
         Attendance.id a' = Attendance.id a
         /\ Attendance.user_id a' = Attendance.user_id a
         /\ Attendance.clock_in a' = Attendance.clock_in a
         /\ (Attendance.clock_out a' = Attendance.clock_out a
             \/ (isAdmin = true /\ has_role db cur_user admin = true
                 /\ Attendance.id a = recordId
                 /\ Attendance.clock_out a' = Some client_now)))
      (Db.attendance db) (Db.attendance db')
    /\ (isAdmin = false \/ has_role db cur_user admin = false -> db' = db)
    /\ (isAdmin = true -> has_role db cur_user admin = true ->
        forall a', In a' (Db.attendance db') -> Attendance.id a' = recordId ->
                   Attendance.clock_out a' = Some client_now)
    /\ (forall a,
          AttendancePage.clock_out_rendered isAdmin
            (AttendancePage.select_columns db cur_user a) = true ->
          isAdmin = true /\ Attendance.clock_out a = None).
Proof.
  intros db cur_user isAdmin recordId client_now server_now st db'. subst db'.
  rewrite handleClockOut_store. repeat split.
  - destruct isAdmin.
    + destruct (update_clock_out_rows db cur_user client_now recordId server_now)
        as [rows [-> H]].
      simpl. eapply Forall2_impl; [|exact H]. simpl.
      intros a a' [->|[Hadm [Hid ->]]]; simpl; auto 10.
    + apply Forall2_same. auto.
  - intros [->|Hno]; auto. destruct isAdmin; auto.
    unfold AttendancePage.update_clock_out.
    rewrite update_rows_invisible by (intros r _; exact Hno).
    simpl. apply with_attendance_same.
  - intros -> Hadm a' Hin Hid. unfold AttendancePage.update_clock_out in Hin.
    rewrite update_rows_accepted in Hin by (intros; split; auto).
    simpl in Hin. apply in_map_iff in Hin. destruct Hin as [a [Ha _]].
    unfold Policy.attendance_update in Ha. rewrite Hadm in Ha. simpl in Ha.
    destruct (Attendance.id a =? recordId) eqn:E.
    + now subst a'.
    + subst a'. apply String.eqb_neq in E. contradiction.
  - unfold AttendancePage.clock_out_rendered in H. now destruct isAdmin.
  - unfold AttendancePage.clock_out_rendered in H. simpl in H.
    destruct (Attendance.clock_out a); auto.
    now rewrite andb_false_r in H.
Qed.

(** C6 fails as stated. Carol's record was clocked in at 09:00:00. Alice's
    page, fetched while the record was open, shows the Clock Out button for
    it; Dana clocks the record out at 09:01:00; Alice then clocks it out from
    her page, whose browser clock reads 08:00:00: the clock-out that was set
    is overwritten, by a time before the clock-in. *)
Lemma clock_out_overwritten_before_clock_in :
  map (fun r => (AttendancePage.id r, AttendancePage.clock_out_rendered true r))
    (AttendancePage.attendanceRecords Sample.alices_attendance_page)
  = [(Attendance.id Sample.carols_day, true)]
  /\ map (fun a => (Attendance.clock_in a, Attendance.clock_out a))
       (Db.attendance (fst Sample.day_closed))
     = [(1737018000000%Z, Some 1737018060000%Z)]
  /\ map (fun a => (Attendance.clock_in a, Attendance.clock_out a))
       (Db.attendance Sample.db_reclosed)
     = [(1737018000000%Z, Some 1737014400000%Z)].
Proof. vm_compute. repeat split; reflexivity. Qed.

Lemma clock_out_sets_time_by_admin_only_witness :
  has_role Sample.db (Some Sample.bob) admin = false
  /\ fst (AttendancePage.handleClockOut Sample.db (Some Sample.bob) true
            (Attendance.id Sample.carols_day) 1737021600000%Z 1737021600000%Z
            AttendancePage.initial)
     = Sample.db.
Proof.
  split; [reflexivity|].
  destruct (clock_out_sets_time_by_admin_only Sample.db (Some Sample.bob) true
              (Attendance.id Sample.carols_day) 1737021600000%Z 1737021600000%Z
              AttendancePage.initial) as [_ [H _]].
  apply H. right. reflexivity.
Defined.

(** ** The Duration column *)

(** Ninety minutes show as 1.5 hours. *)
Example duration_of_ninety_minutes :
  AttendancePage.duration_text (AttendancePage.duration (shift_of 5400000%Z))
  = AttendancePage.Hours 1.5%float.
Proof. vm_compute. reflexivity. Qed.

(** For every shift of a whole number of minutes up to a day, the computed
    number is the length in hours rounded to one decimal place; the ties
    (3, 9, 15, ... minutes) are among them. *)
Lemma duration_rounds_to_tenths : forallb duration_agrees (seq 0 1441) = true.
Proof. vm_compute. reflexivity. Qed.

(** C9 at a failing input. Carol was clocked in at 09:00:00 and Dana
    clocks her out at 09:01:00, after the clock-in. The duration in hours
    rounded to one decimal place is 0, and [duration] computes 0; the
    Duration cell of the re-fetched record then shows a dash, as it does for
    a record that was never clocked out, and not "0 hours". *)
Theorem short_shift_shows_no_duration :
  map (fun r =>
         (AttendancePage.clock_in r, AttendancePage.clock_out r,
          AttendancePage.duration r,
          AttendancePage.duration_text (AttendancePage.duration r)))
    (AttendancePage.attendanceRecords (snd Sample.day_closed))
  = [(1737018000000%Z, Some 1737018060000%Z, Some 0%float, AttendancePage.Dash)]
  /\ hours_rounded_to_tenths 1737018000000%Z 1737018060000%Z = 0%Z.
Proof. vm_compute. split; reflexivity. Qed.

(** ** Profile self-edit *)

Lemma update_profile_rows (db : database) (cur_user : option uuid)
    (u : ProfilePage.updates) (now : timestamptz) :
  exists rows,
    fst (ProfilePage.update_profile db cur_user u now) = Db.with_profiles db rows
    /\ Forall2
         (fun p p' =>
            p' = p
            \/ (cur_user = Some (Profiles.id p) /\ p' = ProfilePage.apply_updates u now p))
         (Db.profiles db) rows.
Proof.
  unfold ProfilePage.update_profile. destruct cur_user as [me|].
  - destruct (update_rows _ _ _ _ _ _) as [rows|] eqn:E.
    + exists rows. split; auto. apply update_rows_Forall2 in E.
      eapply Forall2_impl; [|exact E]. simpl.
      intros p p' [->|[Hu [_ [_ [_ ->]]]]]; [now left|right].
      apply (is_uid_true (Some me)) in Hu. auto.
    + exists (Db.profiles db). simpl. split; [now rewrite with_profiles_same|].
      apply Forall2_same. now left.
  - exists (Db.profiles db). simpl. split; [now rewrite with_profiles_same|].
    apply Forall2_same. now left.
Qed.

Lemma update_profile_own (db : database) (me : uuid) (u : ProfilePage.updates)
    (now : timestamptz) :
  Db.profiles (fst (ProfilePage.update_profile db (Some me) u now))
  = map (fun p => if Profiles.id p =? me then ProfilePage.apply_updates u now p else p)
      (Db.profiles db).
Proof.
  unfold ProfilePage.update_profile. rewrite update_rows_accepted.
  - simpl. apply map_ext. intros p. unfold Policy.profiles_update. simpl.
    rewrite (String.eqb_sym me). now rewrite andb_diag.
  - intros p _ Hu _. split; auto.
Qed.

Lemma handleSubmit_store (db : database) (cur_user : option uuid)
    (form_name form_department : string) (now : timestamptz) (st : ProfilePage.state) :
  fst (ProfilePage.handleSubmit db cur_user form_name form_department now st)
  = fst (ProfilePage.update_profile db cur_user
           {| ProfilePage.upd_name := form_name;
              ProfilePage.upd_department := form_department |} now).
Proof.
  unfold ProfilePage.handleSubmit.
  now destruct (ProfilePage.update_profile _ _ _ _) as [db1 [e|]].
Qed.

(** C7. A profile self-edit sends the two keys [name] and [department] and
    no other. In the store, every profile keeps its id, email, hire date and
    creation time; a profile is either exactly as it was or it is the
    caller's own with the submitted name and department (the trigger's
    [updated_at] aside), and the caller's own profile does carry them; no
    other table changes. In the page, the profile shown keeps its email and
    hire date. *)
Theorem profile_self_edit_touches_name_and_department :
  forall (db : database) (cur_user : option uuid) (form_name form_department : string)
         (now : timestamptz) (st : ProfilePage.state),
    let r := ProfilePage.handleSubmit db cur_user form_name form_department now st in
    Forall2
      (fun p p' =>
         Profiles.id p' = Profiles.id p
         /\ Profiles.email p' = Profiles.email p
         /\ Profiles.hire_date p' = Profiles.hire_date p
         /\ Profiles.created_at p' = Profiles.created_at p
         /\ (p' = p
             \/ (cur_user = Some (Profiles.id p)
                 /\ Profiles.name p' = form_name
                 /\ Profiles.department p' = Some form_department)))
      (Db.profiles db) (Db.profiles (fst r))
    /\ (forall p', In p' (Db.profiles (fst r)) -> cur_user = Some (Profiles.id p') ->
                   Profiles.name p' = form_name
                   /\ Profiles.department p' = Some form_department)
    /\ (Db.user_roles (fst r) = Db.user_roles db
        /\ Db.admin_data (fst r) = Db.admin_data db
        /\ Db.leaves (fst r) = Db.leaves db
        /\ Db.attendance (fst r) = Db.attendance db
        /\ Db.activity_logs (fst r) = Db.activity_logs db)
    /\ (forall prev, ProfilePage.profile st = Some prev ->
        exists shown,
          ProfilePage.profile (snd r) = Some shown
          /\ ProfilePage.email shown = ProfilePage.email prev
          /\ ProfilePage.hire_date shown = ProfilePage.hire_date prev
          /\ (shown = prev
              \/ (ProfilePage.name shown = form_name
                  /\ ProfilePage.department shown = Some form_department))).
Proof.
  intros db cur_user form_name form_department now st r. subst r.
  set (u := {| ProfilePage.upd_name := form_name;
               ProfilePage.upd_department := form_department |}).
  split; [|split; [|split]].
  - rewrite handleSubmit_store. fold u.
    destruct (update_profile_rows db cur_user u now) as [rows [-> H]].
    simpl. eapply Forall2_impl; [|exact H]. simpl.
    intros p p' [->|[-> ->]]; simpl; auto 10.
  - rewrite handleSubmit_store. fold u. intros p' Hin Hme. subst cur_user.
    rewrite update_profile_own in Hin. apply in_map_iff in Hin.
    destruct Hin as [p [Hp _]].
    destruct (Profiles.id p =? Profiles.id p') eqn:E.
    + subst p'. simpl. auto.
    + subst p'. now rewrite String.eqb_refl in E.
  - rewrite handleSubmit_store. fold u.
    destruct (update_profile_rows db cur_user u now) as [rows [-> _]].
    simpl. auto.
  - intros prev Hprev. unfold ProfilePage.handleSubmit. fold u.
    destruct (ProfilePage.update_profile db cur_user u now) as [db1 [e|]]; simpl;
      rewrite Hprev.
    + exists prev. auto.
    + eexists. split; [reflexivity|]. simpl. auto.
Qed.

(** ** Role assignments *)

Lemma same_assignment_sym (a b : UserRoles.row) :
  Roles.same_assignment a b = Roles.same_assignment b a.
Proof.
  unfold Roles.same_assignment. rewrite String.eqb_sym. f_equal.
  now destruct (UserRoles.role a), (UserRoles.role b).
Qed.

Lemma unique_assignments_snoc (rows : list UserRoles.row) (x : UserRoles.row) :
  Roles.unique_assignments (rows ++ [x])
  = Roles.unique_assignments rows && negb (existsb (Roles.same_assignment x) rows).
Proof.
  induction rows as [|r rows IH]; simpl; auto.
  rewrite IH, existsb_app. simpl.
  rewrite (same_assignment_sym x r).
  destruct (Roles.same_assignment r x), (existsb (Roles.same_assignment r) rows),
    (Roles.unique_assignments rows), (existsb (Roles.same_assignment x) rows); reflexivity.
Qed.

Lemma insert_user_role_unique (db : database) (uid : option uuid) (target : uuid)
    (r : app_role) (new_id : uuid) (now : timestamptz) :
  Roles.unique_assignments (Db.user_roles db) = true ->
  Roles.unique_assignments
    (Db.user_roles (fst (Roles.insert_user_role db uid target r new_id now))) = true.
Proof.
  intros H. unfold Roles.insert_user_role.
  repeat (case_if; [exact H|]).
  simpl. rewrite unique_assignments_snoc, H. simpl.
  apply negb_true_iff. assumption.
Qed.

Lemma handle_new_user_unique (db db' : database) (NEW : Roles.new_user)
    (ids : uuid * uuid) (today : date) (now : timestamptz) :
  Roles.unique_assignments (Db.user_roles db) = true ->
  Roles.handle_new_user db NEW ids today now = Some db' ->
  Roles.unique_assignments (Db.user_roles db') = true.
Proof.
  intros H. unfold Roles.handle_new_user.
  destruct (Roles.hire_date_in NEW today) as [hire|]; [|discriminate].
  repeat (case_if; [discriminate|]).
  assert (Hu : Roles.unique_assignments
                 (Db.user_roles db
                  ++ [{| UserRoles.id := fst ids; UserRoles.user_id := Roles.nu_id NEW;
                         UserRoles.role := user; UserRoles.created_at := now |}]) = true).
  { rewrite unique_assignments_snoc, H. simpl. apply negb_true_iff. assumption. }
  destruct (Roles.meta_position NEW) as [pos|].
  - repeat (case_if; [discriminate|]).
    intros [= <-]. exact Hu.
  - intros [= <-]. exact Hu.
Qed.

(** Under [UNIQUE(user_id, role)], one pair of identity and role is held by
    at most one row. *)
Lemma unique_assignments_count (rows : list UserRoles.row) (who : uuid) (r : app_role) :
  Roles.unique_assignments rows = true ->
  List.length
    (filter (fun x => (UserRoles.user_id x =? who) && app_role_eqb (UserRoles.role x) r)
       rows) <= 1.
Proof.
  induction rows as [|x rows IH]; simpl; intros H; [lia|].
  apply andb_true_iff in H. destruct H as [Hx Hrest].
  destruct ((UserRoles.user_id x =? who) && app_role_eqb (UserRoles.role x) r) eqn:E.
  - apply andb_true_iff in E. destruct E as [E1 E2].
    apply String.eqb_eq in E1. apply app_role_eqb_eq in E2.
    rewrite filter_none; [simpl; lia|].
    intros y Hy. apply negb_true_iff in Hx.
    destruct ((UserRoles.user_id y =? who) && app_role_eqb (UserRoles.role y) r) eqn:Ey; auto.
    apply andb_true_iff in Ey. destruct Ey as [Ey1 Ey2].
    apply String.eqb_eq in Ey1. apply app_role_eqb_eq in Ey2.
    assert (Hex : existsb (Roles.same_assignment x) rows = true).
    { apply existsb_exists. exists y. split; auto.
      unfold Roles.same_assignment. rewrite E1, Ey1, E2, Ey2, String.eqb_refl.
      now destruct r. }
    congruence.
  - now apply IH.
Qed.

Lemma filter_role_split (rows : list UserRoles.row) (who : uuid) :
  List.length (filter (fun x => UserRoles.user_id x =? who) rows)
  = List.length
      (filter (fun x => (UserRoles.user_id x =? who) && app_role_eqb (UserRoles.role x) admin)
         rows)
    + List.length
        (filter (fun x => (UserRoles.user_id x =? who) && app_role_eqb (UserRoles.role x) user)
           rows).
Proof.
  induction rows as [|x rows IH]; simpl; auto.
  destruct (UserRoles.user_id x =? who); simpl; auto.
  destruct (UserRoles.role x); simpl; lia.
Qed.

(** C4, as the schema has it. The constraint on [user_roles] is
    [UNIQUE(user_id, role)]: an insert by an API caller and the signup
    trigger both keep it, so the store never holds two records with the same
    identity and the same role, and an identity has at most two records, one
    per role of {admin, user}. The policies decide through [has_role], which
    holds of an identity and a role exactly when one of the identity's
    records carries that role. *)
Theorem role_assignments_unique_per_role :
  forall (db : database),
    Roles.unique_assignments (Db.user_roles db) = true ->
    (forall uid target r new_id now,
        Roles.unique_assignments
          (Db.user_roles (fst (Roles.insert_user_role db uid target r new_id now))) = true)
    /\ (forall NEW ids today now db',
          Roles.handle_new_user db NEW ids today now = Some db' ->
          Roles.unique_assignments (Db.user_roles db') = true)
    /\ (forall who r,
          List.length
            (filter (fun x => (UserRoles.user_id x =? who)
                              && app_role_eqb (UserRoles.role x) r)
               (Db.user_roles db)) <= 1)
    /\ (forall who, List.length (Roles.assignments_of db who) <= 2)
    /\ (forall who r,
          has_role db (Some who) r = true <->
          exists row, In row (Roles.assignments_of db who) /\ UserRoles.role row = r).
Proof.
  intros db H. repeat split.
  - intros. now apply insert_user_role_unique.
  - intros NEW ids today now db'. now apply handle_new_user_unique.
  - intros. now apply unique_assignments_count.
  - intros who. unfold Roles.assignments_of. rewrite filter_role_split.
    pose proof (unique_assignments_count _ who admin H).
    pose proof (unique_assignments_count _ who user H). lia.
  - intros Hr. apply has_role_true in Hr. destruct Hr as [row [Hin [Hid Hrole]]].
    exists row. split; auto. apply filter_In. split; auto.
    apply String.eqb_eq. congruence.
  - intros [row [Hin Hrole]]. apply filter_In in Hin. destruct Hin as [Hin Hid].
    apply String.eqb_eq in Hid. apply has_role_true. exists row.
    repeat split; auto. congruence.
Qed.

(** C4 fails as stated: Bob holds the role user; Alice (an admin) inserts
    the role admin for Bob; the insert is accepted and the store holds two
    records that map Bob to different roles. *)
Lemma two_roles_for_one_identity :
  let w :=
    Roles.insert_user_role Sample.db (Some Sample.alice) Sample.bob admin
      "401e0000-0000-4000-8000-000000000005" 1736330400000%Z in
  snd w = None
  /\ map UserRoles.role (Roles.assignments_of Sample.db Sample.bob) = [user]
  /\ map UserRoles.role (Roles.assignments_of (fst w) Sample.bob) = [user; admin].
Proof. vm_compute. repeat split; reflexivity. Qed.

(** With both roles on record the store's predicate holds of Bob and admin,
    while the page-side resolver, whose [maybeSingle] refuses two rows,
    settles on "user". *)
Example two_roles_resolve_to_user :
  let db' :=
    fst (Roles.insert_user_role Sample.db (Some Sample.alice) Sample.bob admin
           "401e0000-0000-4000-8000-000000000005" 1736330400000%Z) in
  has_role db' (Some Sample.bob) admin = true
  /\ get_user_role db' (Some Sample.bob) = Some user
  /\ UseRole.role (UseRole.useRole db' (Some Sample.bob) UseRole.initial) = Some user.
Proof. vm_compute. repeat split; reflexivity. Qed.

(** * Further properties of the store and of the pages *)

(** ** Visibility *)

(** The policy "Profiles viewable by owner or admin" shows a profile to its
    owner and to an admin and to nobody else: its third disjunct, the
    sub-select on [leaves], never adds a profile. *)
Theorem profiles_visible_to_owner_or_admin :
  forall (db : database) (uid : option uuid) (p : Profiles.row),
    Policy.profiles_select db uid p
    = is_uid uid (Profiles.id p) || has_role db uid admin.
Proof.
  intros db uid p. unfold Policy.profiles_select.
  destruct (is_uid uid (Profiles.id p) || has_role db uid admin) eqn:E; auto.
  simpl. apply orb_false_iff in E. destruct E as [Hown Hadm].
  apply not_true_is_false. intros H. apply existsb_exists in H.
  destruct H as [l [_ H]]. apply andb_true_iff in H. destruct H as [Hid Hl].
  apply String.eqb_eq in Hid. rewrite Hid, Hown, Hadm in Hl. discriminate.
Qed.

Lemma profiles_hidden_from_anonymous (db : database) :
  filter (Policy.profiles_select db None) (Db.profiles db) = [].
Proof.
  apply filter_none. intros p _. rewrite profiles_visible_to_owner_or_admin.
  now rewrite has_role_anonymous.
Qed.

(** A caller who is not signed in reads no row of any table, and the
    Dashboard counts it zero employees and zero pending leaves. *)
Theorem anonymous_reads_nothing :
  forall (db : database),
    filter (Policy.profiles_select db None) (Db.profiles db) = []
    /\ filter (Policy.user_roles_select db None) (Db.user_roles db) = []
    /\ filter (Policy.leaves_select db None) (Db.leaves db) = []
    /\ filter (Policy.activity_logs_select db None) (Db.activity_logs db) = []
    /\ (forall owner, select_admin_data db None owner = ok [])
    /\ (forall owner, AttendancePage.select_attendance db None owner = ok [])
    /\ Dashboard.totalEmployees (Dashboard.stats_of (load_stats db None)) = 0%Z
    /\ Dashboard.pendingLeaves (Dashboard.stats_of (load_stats db None)) = 0%Z.
Proof.
  intros db.
  assert (Hl : filter (Policy.leaves_select db None) (Db.leaves db) = []).
  { apply filter_none. intros l _. unfold Policy.leaves_select.
    now rewrite has_role_anonymous. }
  split; [apply profiles_hidden_from_anonymous|].
  split. { apply filter_none. intros r _. unfold Policy.user_roles_select.
           now rewrite has_role_anonymous. }
  split; [exact Hl|].
  split. { apply filter_none. intros r _. unfold Policy.activity_logs_select.
           now rewrite has_role_anonymous. }
  split. { intros owner. unfold select_admin_data.
           rewrite filter_none; [now destruct owner|].
           intros r _. apply has_role_anonymous. }
  split. { intros owner. unfold AttendancePage.select_attendance.
           rewrite filter_none; [now destruct owner|].
           intros a _. unfold Policy.attendance_select. now rewrite has_role_anonymous. }
  unfold load_stats, Dashboard.count_profiles, Dashboard.count_pending_leaves. simpl.
  now rewrite profiles_hidden_from_anonymous, Hl.
Qed.

(** ** The two role functions of the store, and the resolver *)

(** [get_user_role] and [has_role] agree: the role [get_user_role] returns is
    one the identity has, and it returns NULL exactly for an identity that
    has no role at all. *)
Theorem get_user_role_agrees_with_has_role :
  forall (db : database) (uid : option uuid),
    (forall r, get_user_role db uid = Some r -> has_role db uid r = true)
    /\ (get_user_role db uid = None <-> forall r, has_role db uid r = false).
Proof.
  intros db uid. unfold get_user_role.
  destruct (filter (fun r => is_uid uid (UserRoles.user_id r)) (Db.user_roles db))
    as [|x rest] eqn:E.
  - split; [discriminate|]. split; auto. intros _ r.
    apply not_true_is_false. intros H. apply has_role_true in H.
    destruct H as [row [Hin [Hid _]]].
    assert (Hx : In row (filter (fun r => is_uid uid (UserRoles.user_id r))
                           (Db.user_roles db))).
    { apply filter_In. split; auto. now apply is_uid_true. }
    rewrite E in Hx. destruct Hx.
  - assert (Hx : In x (x :: rest)) by now left.
    rewrite <- E in Hx. apply filter_In in Hx. destruct Hx as [Hin Hid].
    apply is_uid_true in Hid.
    assert (Hhas : has_role db uid (UserRoles.role x) = true).
    { apply has_role_true. exists x. auto. }
    split.
    + now intros r [= <-].
    + split; [discriminate|]. intros H. rewrite H in Hhas. discriminate.
Qed.

Lemma own_roles_visible (db : database) (id : uuid) :
  filter (fun r => UserRoles.user_id r =? id)
    (filter (Policy.user_roles_select db (Some id)) (Db.user_roles db))
  = Roles.assignments_of db id.
Proof.
  unfold Roles.assignments_of.
  induction (Db.user_roles db) as [|x l IH]; simpl; auto.
  destruct (UserRoles.user_id x =? id) eqn:E.
  - unfold Policy.user_roles_select at 1. simpl.
    rewrite (String.eqb_sym id), E. simpl. rewrite E. now f_equal.
  - destruct (Policy.user_roles_select db (Some id) x); simpl; auto.
    now rewrite E.
Qed.

(** For an identity with exactly one [user_roles] row the resolver settles
    on that row's role, the page's [isAdmin] holds exactly when that role is
    admin, and [get_user_role] returns the same role. *)
Theorem single_role_is_resolved :
  forall (db : database) (id : uuid) (row : UserRoles.row) (st : UseRole.state),
    id <> "" ->
    Roles.assignments_of db id = [row] ->
    let st' := UseRole.useRole db (Some id) st in
    UseRole.role st' = Some (UserRoles.role row)
    /\ (UseRole.isAdmin st' = true <-> UserRoles.role row = admin)
    /\ (UseRole.isAdmin st' = has_role db (Some id) admin)
    /\ get_user_role db (Some id) = Some (UserRoles.role row).
Proof.
  intros db id row st Hid Hone st'.
  assert (Hrole : UseRole.role st' = Some (UserRoles.role row)).
  { subst st'. unfold UseRole.useRole, UseRole.fetchRole, UseRole.user_id_of, truthy_string.
    apply String.eqb_neq in Hid. rewrite Hid. simpl.
    unfold UseRole.select_role. rewrite own_roles_visible, Hone. simpl.
    now rewrite truthy_role_label. }
  assert (Hadm : UseRole.isAdmin st' = true <-> UserRoles.role row = admin).
  { unfold UseRole.isAdmin. rewrite Hrole.
    destruct (UserRoles.role row); split; congruence. }
  split; [exact Hrole|]. split; [exact Hadm|]. split.
  - destruct (has_role db (Some id) admin) eqn:E.
    + apply Hadm. apply has_role_true in E. destruct E as [r [Hin [Hr Hrol]]].
      assert (Hx : In r (Roles.assignments_of db id)).
      { apply filter_In. split; auto. apply String.eqb_eq. congruence. }
      rewrite Hone in Hx. destruct Hx as [->|[]]. exact Hrol.
    + apply not_true_is_false. intros H. apply Hadm in H.
      assert (Hx : In row (Roles.assignments_of db id)) by (rewrite Hone; now left).
      apply filter_In in Hx. destruct Hx as [Hin Hr]. apply String.eqb_eq in Hr.
      assert (Ht : has_role db (Some id) admin = true).
      { apply has_role_true. exists row. repeat split; auto. congruence. }
      congruence.
  - unfold get_user_role. simpl. unfold Roles.assignments_of in Hone.
    rewrite (filter_ext _ (fun r => UserRoles.user_id r =? id)
               (fun r => String.eqb_sym id (UserRoles.user_id r))).
    now rewrite Hone.
Qed.

Lemma single_role_is_resolved_witness :
  Sample.alice <> ""
  /\ UseRole.isAdmin (UseRole.useRole Sample.db (Some Sample.alice) UseRole.initial) = true.
Proof.
  assert (Hid : Sample.alice <> "") by discriminate.
  split; [exact Hid|].
  destruct (single_role_is_resolved Sample.db Sample.alice
              (Sample.role_of "401e0000-0000-4000-8000-000000000001" Sample.alice admin)
              UseRole.initial Hid eq_refl) as [_ [H _]].
  now apply H.
Defined.

(** ** Granting roles and signing up *)

(** An insert into [user_roles] through the API either is refused and leaves
    the store as it was, or comes from an admin, for an identity that has a
    profile and does not hold that role yet, and appends exactly that
    assignment. A caller without the admin role is always refused, with
    code 42501 and the store unchanged. *)
Theorem only_admins_grant_roles :
  forall (db : database) (uid : option uuid) (target : uuid) (r : app_role)
         (new_id : uuid) (now : timestamptz),
    let w := Roles.insert_user_role db uid target r new_id now in
    ((exists e, w = (db, Some e))
     \/ (has_role db uid admin = true
         /\ has_key Profiles.id target (Db.profiles db) = true
         /\ has_role db (Some target) r = false
         /\ w = (Db.with_user_roles db
                   (Db.user_roles db
                    ++ [{| UserRoles.id := new_id; UserRoles.user_id := target;
                           UserRoles.role := r; UserRoles.created_at := now |}]),
                 None)))
    /\ (has_role db uid admin = false ->
        fst w = db /\ option_map code (snd w) = Some "42501").
Proof.
  intros db uid target r new_id now w. subst w. unfold Roles.insert_user_role.
  unfold Policy.user_roles_write.
  destruct (has_role db uid admin) eqn:Hadm; simpl.
  - split; [|discriminate].
    destruct (has_key Profiles.id target (Db.profiles db)) eqn:Hp; simpl;
      [|left; eexists; reflexivity].
    destruct (has_key UserRoles.id new_id (Db.user_roles db)) eqn:Hk;
      [left; eexists; reflexivity|].
    destruct (existsb _ (Db.user_roles db)) eqn:Hu; [left; eexists; reflexivity|].
    right. repeat split; auto.
    apply not_true_is_false. intros H. apply has_role_true in H.
    destruct H as [row [Hin [Hid Hr]]].
    assert (Hex : existsb
                    (Roles.same_assignment
                       {| UserRoles.id := new_id; UserRoles.user_id := target;
                          UserRoles.role := r; UserRoles.created_at := now |})
                    (Db.user_roles db) = true).
    { apply existsb_exists. exists row. split; auto.
      unfold Roles.same_assignment. simpl. injection Hid as ->.
      rewrite String.eqb_refl. simpl. apply app_role_eqb_eq. congruence. }
    congruence.
  - split; [left; eexists; reflexivity|]. intros _. split; reflexivity.
Qed.

Lemma has_role_snoc (db db' : database) (row : UserRoles.row) (uid : option uuid)
    (r : app_role) :
  Db.user_roles db' = (Db.user_roles db ++ [row])%list ->
  has_role db' uid r
  = has_role db uid r
    || (is_uid uid (UserRoles.user_id row) && app_role_eqb (UserRoles.role row) r).
Proof.
  intros H. unfold has_role. rewrite H, existsb_app. simpl. now rewrite orb_false_r.
Qed.

(** What a signup that goes through leaves behind. *)
Lemma handle_new_user_tables (db db' : database) (NEW : Roles.new_user)
    (ids : uuid * uuid) (today : date) (now : timestamptz) :
  Roles.handle_new_user db NEW ids today now = Some db' ->
  exists hire,
  Roles.hire_date_in NEW today = Some hire
  /\ Db.profiles db'
  = (Db.profiles db
     ++ [{| Profiles.id := Roles.nu_id NEW;
            Profiles.name :=
              match Roles.meta_name NEW with Some n => n | None => "New User" end;
            Profiles.email := Roles.nu_email NEW;
            Profiles.department := Roles.meta_department NEW;
            Profiles.hire_date := Some hire;
            Profiles.created_at := now;
            Profiles.updated_at := now |}])%list
  /\ Db.user_roles db'
     = (Db.user_roles db
        ++ [{| UserRoles.id := fst ids; UserRoles.user_id := Roles.nu_id NEW;
               UserRoles.role := user; UserRoles.created_at := now |}])%list
  /\ Db.admin_data db'
     = match Roles.meta_position NEW with
       | Some pos =>
           (Db.admin_data db
            ++ [{| AdminData.id := snd ids; AdminData.user_id := Roles.nu_id NEW;
                   AdminData.position := Some pos; AdminData.salary := None;
                   AdminData.notes := None; AdminData.created_at := now;
                   AdminData.updated_at := now |}])%list
       | None => Db.admin_data db
       end
  /\ Db.leaves db' = Db.leaves db
  /\ Db.attendance db' = Db.attendance db
  /\ Db.activity_logs db' = Db.activity_logs db
  /\ has_key Profiles.id (Roles.nu_id NEW) (Db.profiles db) = false
  /\ has_key Profiles.email (Roles.nu_email NEW) (Db.profiles db) = false.
Proof.
  unfold Roles.handle_new_user.
  destruct (Roles.hire_date_in NEW today) as [hire|]; [|discriminate].
  repeat (case_if; [discriminate|]).
  destruct (Roles.meta_position NEW) as [pos|].
  - repeat (case_if; [discriminate|]). intros [= <-]. exists hire. simpl.
    repeat split; auto.
  - intros [= <-]. exists hire. simpl. repeat split; auto.
Qed.

(** A signup that goes through adds one profile (named "New User" when the
    metadata has no name, hired today when it has no hire date), gives the
    new identity the role user, stores a confidential record exactly when a
    position was supplied, and changes nobody's admin status; it does not go
    through for an id or an email a profile already has. *)
Theorem signup_creates_a_regular_user :
  forall (db db' : database) (NEW : Roles.new_user) (ids : uuid * uuid)
         (today : date) (now : timestamptz),
    Roles.handle_new_user db NEW ids today now = Some db' ->
    has_role db' (Some (Roles.nu_id NEW)) user = true
    /\ (forall uid, has_role db' uid admin = has_role db uid admin)
    /\ (exists p,
          Db.profiles db' = (Db.profiles db ++ [p])%list
          /\ Profiles.id p = Roles.nu_id NEW
          /\ Profiles.email p = Roles.nu_email NEW
          /\ (Roles.meta_name NEW = None -> Profiles.name p = "New User")
          /\ (Roles.meta_hire_date NEW = None -> Profiles.hire_date p = Some today))
    /\ (Roles.meta_position NEW = None -> Db.admin_data db' = Db.admin_data db)
    /\ (forall pos, Roles.meta_position NEW = Some pos ->
        exists a,
          Db.admin_data db' = (Db.admin_data db ++ [a])%list
          /\ AdminData.user_id a = Roles.nu_id NEW
          /\ AdminData.position a = Some pos)
    /\ has_key Profiles.id (Roles.nu_id NEW) (Db.profiles db) = false
    /\ has_key Profiles.email (Roles.nu_email NEW) (Db.profiles db) = false.
Proof.
  intros db db' NEW ids today now H.
  apply handle_new_user_tables in H.
  destruct H as [hire [Hh [Hp [Hr [Ha [_ [_ [_ [Hid Hem]]]]]]]]].
  split. { rewrite (has_role_snoc db db' _ _ _ Hr). simpl.
           rewrite String.eqb_refl. apply orb_true_r. }
  split. { intros uid. rewrite (has_role_snoc db db' _ _ _ Hr). simpl.
           now rewrite andb_false_r, orb_false_r. }
  split. { eexists. split; [exact Hp|]. simpl. repeat split.
           - now intros ->.
           - intros Hn. unfold Roles.hire_date_in in Hh. rewrite Hn in Hh.
             now rewrite Hh. }
  split. { intros Hn. now rewrite Hn in Ha. }
  split. { intros pos Hs. rewrite Hs in Ha. eexists. split; [exact Ha|]. simpl. auto. }
  auto.
Qed.

(** After signing up, an identity that held no role before resolves to
    "user", and its pages do not hold [isAdmin]. *)
Theorem new_user_resolves_to_user :
  forall (db db' : database) (NEW : Roles.new_user) (ids : uuid * uuid)
         (today : date) (now : timestamptz) (st : UseRole.state),
    Roles.nu_id NEW <> "" ->
    Roles.assignments_of db (Roles.nu_id NEW) = [] ->
    Roles.handle_new_user db NEW ids today now = Some db' ->
    let st' := UseRole.useRole db' (Some (Roles.nu_id NEW)) st in
    UseRole.role st' = Some user /\ UseRole.isAdmin st' = false.
Proof.
  intros db db' NEW ids today now st Hid Hnone H st'.
  apply handle_new_user_tables in H. destruct H as [hire [_ [_ [Hr _]]]].
  assert (Hone : Roles.assignments_of db' (Roles.nu_id NEW)
                 = [{| UserRoles.id := fst ids; UserRoles.user_id := Roles.nu_id NEW;
                       UserRoles.role := user; UserRoles.created_at := now |}]).
  { unfold Roles.assignments_of in *. rewrite Hr, filter_app, Hnone. simpl.
    now rewrite String.eqb_refl. }
  destruct (single_role_is_resolved db' (Roles.nu_id NEW) _ st Hid Hone) as [H1 _].
  fold st' in H1. split; [exact H1|]. unfold UseRole.isAdmin. now rewrite H1.
Qed.

(** ** What the Dashboard counts *)

Lemma or_zero_count (n : Z) : Dashboard.or_zero (Some n) = n.
Proof. unfold Dashboard.or_zero. destruct (Z.eqb_spec n 0); auto. Qed.

Lemma filter_all {A : Type} (f : A -> bool) (l : list A) :
  (forall x, In x l -> f x = true) -> filter f l = l.
Proof.
  induction l as [|a l IH]; simpl; intros H; auto.
  rewrite (H a) by now left. f_equal. apply IH. intros x Hx. apply H. now right.
Qed.

Lemma filter_twice {A : Type} (f g : A -> bool) (l : list A) :
  filter g (filter f l) = filter (fun x => f x && g x) l.
Proof.
  induction l as [|a l IH]; simpl; auto.
  destruct (f a); simpl; auto. destruct (g a); now rewrite IH.
Qed.

Lemma load_stats_values (db : database) (uid : option uuid) :
  Dashboard.stats_of (load_stats db uid)
  = {| Dashboard.totalEmployees :=
         Z.of_nat (List.length (filter (Policy.profiles_select db uid) (Db.profiles db)));
       Dashboard.pendingLeaves :=
         Z.of_nat (List.length
                     (filter (fun l => leave_status_eqb (Leaves.status l) pending)
                        (filter (Policy.leaves_select db uid) (Db.leaves db))));
       Dashboard.activeEmployees :=
         Z.of_nat (List.length (filter (Policy.profiles_select db uid) (Db.profiles db)))
    |}.
Proof.
  unfold load_stats, Dashboard.fetchStats, Dashboard.count_profiles,
    Dashboard.count_pending_leaves.
  cbn [Dashboard.stats_of Dashboard.count]. now rewrite !or_zero_count.
Qed.

(** Under a key without duplicates, a key selects one row or none. *)
Lemma unique_key_count {A : Type} (key : A -> uuid) (k : uuid) (l : list A) :
  NoDup (map key l) ->
  List.length (filter (fun x => key x =? k) l) = if has_key key k l then 1 else 0.
Proof.
  unfold has_key. induction l as [|a l IH]; simpl; intros H; auto.
  inversion H as [|? ? Hnotin Hnd]; subst.
  destruct (key a =? k) eqn:E; simpl.
  - apply String.eqb_eq in E. f_equal.
    rewrite filter_none; auto. intros x Hx.
    apply String.eqb_neq. intros Hk. apply Hnotin. rewrite E, <- Hk. now apply in_map.
  - now apply IH.
Qed.

(** For an admin the Dashboard counts every profile and every pending
    leave of the store. *)
Theorem dashboard_counts_everything_for_an_admin :
  forall (db : database) (uid : option uuid),
    has_role db uid admin = true ->
    let s := Dashboard.stats_of (load_stats db uid) in
    Dashboard.totalEmployees s = Z.of_nat (List.length (Db.profiles db))
    /\ Dashboard.activeEmployees s = Z.of_nat (List.length (Db.profiles db))
    /\ Dashboard.pendingLeaves s
       = Z.of_nat (List.length
                     (filter (fun l => leave_status_eqb (Leaves.status l) pending)
                        (Db.leaves db))).
Proof.
  intros db uid Hadm s. subst s. rewrite load_stats_values. simpl.
  rewrite (filter_all (Policy.profiles_select db uid)).
  - rewrite (filter_all (Policy.leaves_select db uid)); auto.
    intros l _. unfold Policy.leaves_select. rewrite Hadm. apply orb_true_r.
  - intros p _. rewrite profiles_visible_to_owner_or_admin, Hadm. apply orb_true_r.
Qed.

Lemma dashboard_counts_everything_for_an_admin_witness :
  has_role Sample.db (Some Sample.dana) admin = true
  /\ Dashboard.totalEmployees (Dashboard.stats_of (load_stats Sample.db (Some Sample.dana)))
     = 4%Z.
Proof.
  split; [reflexivity|].
  destruct (dashboard_counts_everything_for_an_admin Sample.db (Some Sample.dana) eq_refl)
    as [H _].
  exact H.
Defined.

(** For a signed-in caller without the admin role the Dashboard counts the
    caller's own profile, so one employee at most, and the caller's own
    pending leaves. *)
Theorem dashboard_counts_own_rows_for_a_regular_user :
  forall (db : database) (me : uuid),
    has_role db (Some me) admin = false ->
    NoDup (map Profiles.id (Db.profiles db)) ->
    let s := Dashboard.stats_of (load_stats db (Some me)) in
    Dashboard.totalEmployees s
    = (if has_key Profiles.id me (Db.profiles db) then 1%Z else 0%Z)
    /\ Dashboard.activeEmployees s = Dashboard.totalEmployees s
    /\ Dashboard.pendingLeaves s
       = Z.of_nat (List.length
                     (filter (fun l => (Leaves.user_id l =? me)
                                       && leave_status_eqb (Leaves.status l) pending)
                        (Db.leaves db))).
Proof.
  intros db me Hno Hnd s. subst s. rewrite load_stats_values. simpl.
  split; [|split; auto].
  - rewrite (filter_ext (Policy.profiles_select db (Some me))
               (fun p => Profiles.id p =? me)).
    + rewrite unique_key_count by assumption.
      now destruct (has_key Profiles.id me (Db.profiles db)).
    + intros p. rewrite profiles_visible_to_owner_or_admin, Hno, orb_false_r.
      simpl. apply String.eqb_sym.
  - rewrite filter_twice. do 2 f_equal. apply filter_ext. intros l.
    unfold Policy.leaves_select. rewrite Hno, orb_false_r. simpl.
    now rewrite (String.eqb_sym me).
Qed.

Lemma dashboard_counts_own_rows_for_a_regular_user_witness :
  has_role Sample.db (Some Sample.bob) admin = false
  /\ NoDup (map Profiles.id (Db.profiles Sample.db))
  /\ Dashboard.totalEmployees (Dashboard.stats_of (load_stats Sample.db (Some Sample.bob)))
     = 1%Z.
Proof.
  assert (Hnd : NoDup (map Profiles.id (Db.profiles Sample.db))).
  { repeat constructor; simpl; intuition discriminate. }
  split; [reflexivity|]. split; [exact Hnd|].
  destruct (dashboard_counts_own_rows_for_a_regular_user Sample.db Sample.bob eq_refl Hnd)
    as [H _].
  exact H.
Defined.

(** ** What the lists of the Leaves and Attendance pages hold *)

Lemma insert_desc_head {A : Type} (key : A -> Z) (a : Z) (x : A) (l : list A) :
  (a >= key x)%Z -> HdRel Z.ge a (map key l) ->
  HdRel Z.ge a (map key (insert_desc key x l)).
Proof.
  intros Hx Hl. destruct l as [|y l]; simpl.
  - now constructor.
  - destruct (key y <? key x)%Z; simpl; constructor; auto.
    now inversion Hl.
Qed.

Lemma insert_desc_sorted {A : Type} (key : A -> Z) (x : A) (l : list A) :
  Sorted Z.ge (map key l) -> Sorted Z.ge (map key (insert_desc key x l)).
Proof.
  induction l as [|y l IH]; simpl; intros H.
  - repeat constructor.
  - destruct (Z.ltb_spec (key y) (key x)); simpl.
    + constructor; auto. constructor. lia.
    + apply Sorted_inv in H. destruct H as [Hs Hh].
      constructor; [now apply IH|]. apply insert_desc_head; auto. lia.
Qed.

Lemma order_desc_sorted {A : Type} (key : A -> Z) (l : list A) :
  Sorted Z.ge (map key (order_desc key l)).
Proof.
  unfold order_desc. induction l as [|x l IH]; simpl.
  - constructor.
  - now apply insert_desc_sorted.
Qed.

(** The Attendance page lists its records latest clock-in first: every
    record of the list was clocked in no earlier than every record after
    it. *)
Theorem attendance_list_is_latest_first :
  forall (db : database) (me : uuid) (isAdmin : bool) (sta : AttendancePage.state),
    StronglySorted Z.ge
      (map AttendancePage.clock_in
         (AttendancePage.attendanceRecords
            (AttendancePage.fetchAttendanceRecords db (Some me) isAdmin sta))).
Proof.
  intros db me isAdmin sta. apply Sorted_StronglySorted.
  - intros x y z Hxy Hyz. lia.
  - unfold AttendancePage.fetchAttendanceRecords. simpl.
    rewrite map_map. simpl. apply order_desc_sorted.
Qed.




(** ** Submitting a leave request *)

(** A request that cannot be stored changes nothing: without a signed-in
    user, with no leave type selected (or a text that is no leave type),
    with a date text the store's date input refuses, or for a user without a
    profile, the store stays as it was and the page only gains the failure
    toast; its list, its open dialog and its selected type stay. *)
Theorem refused_leave_request_changes_nothing :
  forall (db : database) (cur_user : option uuid) (isAdmin : bool) (f : LeavesPage.form)
         (ids : uuid * uuid) (now : timestamptz) (st : LeavesPage.state),
    cur_user = None
    \/ leave_type_in (LeavesPage.leaveType st) = None
    \/ (exists e, date_in (LeavesPage.form_start_date f) = inl e)
    \/ (exists e, date_in (LeavesPage.form_end_date f) = inl e)
    \/ (exists me, cur_user = Some me /\ has_key Profiles.id me (Db.profiles db) = false) ->
    LeavesPage.handleSubmitLeave db cur_user isAdmin f ids now st
    = (db, {| LeavesPage.leaves := LeavesPage.leaves st;
              LeavesPage.loading := LeavesPage.loading st;
              LeavesPage.dialogOpen := LeavesPage.dialogOpen st;
              LeavesPage.leaveType := LeavesPage.leaveType st;
              LeavesPage.toasts :=
                LeavesPage.toasts st ++ ["Failed to submit leave request"] |}).
Proof.
  intros db cur_user isAdmin f ids now st H.
  unfold LeavesPage.handleSubmitLeave, LeavesPage.insert_leave. simpl.
  destruct (leave_type_in (LeavesPage.leaveType st)) as [ty|];
    [|reflexivity].
  destruct (date_in (LeavesPage.form_start_date f)) as [e1|d1]; [reflexivity|].
  destruct (date_in (LeavesPage.form_end_date f)) as [e2|d2]; [reflexivity|].
  destruct cur_user as [me|]; [|reflexivity].
  destruct H as [H|[H|[[e H]|[[e H]|[x [Hx H]]]]]]; try discriminate.
  injection Hx as <-.
  unfold Policy.leaves_insert. simpl. rewrite String.eqb_refl. simpl.
  now rewrite H.
Qed.

Lemma insert_activity_log_result (db : database) (me : uuid) (act descr : string)
    (new_id : uuid) (now : timestamptz) :
  has_key Profiles.id me (Db.profiles db) = true ->
  fst (LeavesPage.insert_activity_log db (Some me) (Some me) act descr new_id now)
  = if has_key ActivityLogs.id new_id (Db.activity_logs db) then db
    else Db.with_activity_logs db
           (Db.activity_logs db
            ++ [{| ActivityLogs.id := new_id; ActivityLogs.user_id := me;
                   ActivityLogs.action := act; ActivityLogs.description := Some descr;
                   ActivityLogs.created_at := now |}]).
Proof.
  intros Hp. unfold LeavesPage.insert_activity_log, Policy.activity_logs_insert. simpl.
  rewrite String.eqb_refl, Hp. simpl.
  now destruct (has_key ActivityLogs.id new_id (Db.activity_logs db)).
Qed.

(** A request that can be stored is stored as the store reads it. For a
    signed-in user with a profile, any of the four leave types and any two
    date texts the store's date input takes, in either order, the store
    gains the pending, unreviewed leave with the two dates; it also gains
    the activity-log line "Leave request submitted for <start> to <end>"
    with the texts of the form, unless the log insert is refused, which the
    handler does not look at; and the page reports success, closes the
    dialog and clears the selected type. The re-read that follows is
    refused: the list stays as it was and "Failed to load leaves" is shown
    after the confirmation. *)
Theorem accepted_leave_request_is_stored_and_logged :
  forall (db : database) (me : uuid) (isAdmin : bool) (f : LeavesPage.form)
         (ids : uuid * uuid) (now : timestamptz) (st : LeavesPage.state) (ty : leave_type)
         (start_date end_date : date),
    has_key Profiles.id me (Db.profiles db) = true ->
    has_key Leaves.id (fst ids) (Db.leaves db) = false ->
    leave_type_in (LeavesPage.leaveType st) = Some ty ->
    date_in (LeavesPage.form_start_date f) = inr start_date ->
    date_in (LeavesPage.form_end_date f) = inr end_date ->
    let r := LeavesPage.handleSubmitLeave db (Some me) isAdmin f ids now st in
    Db.leaves (fst r)
    = (Db.leaves db
       ++ [{| Leaves.id := fst ids; Leaves.user_id := me; Leaves.type := ty;
              Leaves.start_date := start_date;
              Leaves.end_date := end_date;
              Leaves.reason := LeavesPage.form_reason f;
              Leaves.status := pending; Leaves.review_notes := None;
              Leaves.reviewed_by := None; Leaves.reviewed_at := None;
              Leaves.created_at := now; Leaves.updated_at := now |}])%list
    /\ Db.activity_logs (fst r)
       = (if has_key ActivityLogs.id (snd ids) (Db.activity_logs db)
          then Db.activity_logs db
          else (Db.activity_logs db
                ++ [{| ActivityLogs.id := snd ids; ActivityLogs.user_id := me;
                       ActivityLogs.action := "leave_request";
                       ActivityLogs.description :=
                         Some ("Leave request submitted for "
                               ++ LeavesPage.form_start_date f ++ " to "
                               ++ LeavesPage.form_end_date f)%string;
                       ActivityLogs.created_at := now |}])%list)
    /\ (Db.profiles (fst r) = Db.profiles db
        /\ Db.user_roles (fst r) = Db.user_roles db
        /\ Db.admin_data (fst r) = Db.admin_data db
        /\ Db.attendance (fst r) = Db.attendance db)
    /\ LeavesPage.toasts (snd r)
       = (LeavesPage.toasts st
          ++ ["Leave request submitted successfully"; "Failed to load leaves"])%list
    /\ LeavesPage.leaves (snd r) = LeavesPage.leaves st
    /\ LeavesPage.dialogOpen (snd r) = false
    /\ LeavesPage.leaveType (snd r) = "".
Proof.
  intros db me isAdmin f ids now st ty start_date end_date Hp Hk Hty Hs He r. subst r.
  unfold LeavesPage.handleSubmitLeave.
  rewrite (insert_leave_accepted db me ty start_date end_date) by (simpl; auto).
  cbn [fst snd]. rewrite insert_activity_log_result by exact Hp.
  rewrite fetchLeaves_refused.
  cbn [Db.activity_logs Db.with_leaves LeavesPage.toasts LeavesPage.leaves
       LeavesPage.dialogOpen LeavesPage.leaveType LeavesPage.toast].
  rewrite <- app_assoc.
  destruct (has_key ActivityLogs.id (snd ids) (Db.activity_logs db));
    simpl; repeat split; reflexivity.
Qed.

(** The store refuses a leave filed for anyone but the caller: an insert
    whose [user_id] is not the caller's own id leaves the store as it was. *)
Theorem leave_for_someone_else_is_refused :
  forall (db : database) (uid : option uuid) (d : LeavesPage.leaveData)
         (new_id : uuid) (now : timestamptz),
    LeavesPage.ld_user_id d <> uid ->
    exists e, LeavesPage.insert_leave db uid d new_id now = (db, Some e).
Proof.
  intros db uid d new_id now Hne. unfold LeavesPage.insert_leave.
  destruct (leave_type_in (LeavesPage.ld_type d)) as [ty|]; [|eexists; reflexivity].
  destruct (date_in (LeavesPage.ld_start_date d)) as [err|s]; [eexists; reflexivity|].
  destruct (date_in (LeavesPage.ld_end_date d)) as [err|e]; [eexists; reflexivity|].
  destruct (LeavesPage.ld_user_id d) as [owner|] eqn:Ho; [|eexists; reflexivity].
  assert (Hpol : Policy.leaves_insert uid
                   (LeavesPage.new_leave owner ty s e (LeavesPage.ld_reason d)
                      new_id now) = false).
  { unfold Policy.leaves_insert. simpl. apply not_true_is_false. intros H.
    apply is_uid_true in H. congruence. }
  rewrite Hpol. eexists. reflexivity.
Qed.

(** A review that changes nothing is still reported as done. When the
    caller does not have the admin role, or no leave has the id, the store
    stays as it was, no error comes back, and the page shows "Leave
    approved" (or "Leave rejected") and re-reads its list. *)
Theorem review_without_effect_reports_success :
  forall (db : database) (cur_user : option uuid) (isAdmin : bool) (leaveId : uuid)
         (client_now server_now : timestamptz) (st : LeavesPage.state),
    has_role db cur_user admin = false
    \/ has_key Leaves.id leaveId (Db.leaves db) = false ->
    LeavesPage.handleApprove db cur_user isAdmin leaveId client_now server_now st
    = (db, LeavesPage.fetchLeaves db cur_user isAdmin
             (LeavesPage.toast "Leave approved" st))
    /\ LeavesPage.handleReject db cur_user isAdmin leaveId client_now server_now st
       = (db, LeavesPage.fetchLeaves db cur_user isAdmin
                (LeavesPage.toast "Leave rejected" st)).
Proof.
  intros db cur_user isAdmin leaveId client_now server_now st H.
  assert (Hupd : forall u,
             LeavesPage.update_leave db cur_user u leaveId server_now = (db, None)).
  { intros u. unfold LeavesPage.update_leave. destruct H as [Hno|Hid].
    - rewrite update_rows_invisible by (intros r _; exact Hno).
      now rewrite with_leaves_same.
    - rewrite update_rows_accepted.
      + rewrite (map_ext_in _ (fun l => l)), map_id; [now rewrite with_leaves_same|].
        intros l Hin.
        assert (Hl : (Leaves.id l =? leaveId) = false).
        { apply not_true_is_false. intros Hl.
          assert (Hex : has_key Leaves.id leaveId (Db.leaves db) = true).
          { apply existsb_exists. exists l. auto. }
          congruence. }
        now rewrite Hl, andb_false_r.
      + intros l Hin _ Hl.
        assert (Hex : has_key Leaves.id leaveId (Db.leaves db) = true).
        { apply existsb_exists. exists l. auto. }
        congruence. }
  unfold LeavesPage.handleApprove, LeavesPage.handleReject, LeavesPage.review.
  now rewrite !Hupd.
Qed.

Lemma review_without_effect_reports_success_witness :
  has_role Sample.db (Some Sample.bob) admin = false
  /\ LeavesPage.toasts
       (snd (LeavesPage.handleApprove Sample.db (Some Sample.bob) false
               (Leaves.id Sample.carols_leave) 1736247600000%Z 1736247600250%Z
               LeavesPage.initial))
     = ["Leave approved"; "Failed to load leaves"].
Proof.
  split; [reflexivity|].
  destruct (review_without_effect_reports_success Sample.db (Some Sample.bob) false
              (Leaves.id Sample.carols_leave) 1736247600000%Z 1736247600250%Z
              LeavesPage.initial (or_introl eq_refl)) as [H _].
  rewrite H. reflexivity.
Defined.

(** ** Clocking in *)

(** [handleClockIn] is guarded three times: a page that does not hold
    [isAdmin] only shows "Only admins can mark attendance"; with no
    employee selected it only shows "Please select an employee"; and for a
    caller without the admin role the store refuses the insert, so the store
    stays as it was and the page shows the store's message, which names the
    table [attendance]. *)
Theorem clock_in_is_guarded :
  forall (db : database) (cur_user : option uuid) (isAdmin : bool) (new_id : uuid)
         (now : timestamptz) (st : AttendancePage.state),
    let r := AttendancePage.handleClockIn db cur_user isAdmin new_id now st in
    (isAdmin = false ->
     r = (db, AttendancePage.toast "Only admins can mark attendance" st))
    /\ (isAdmin = true -> AttendancePage.selectedEmployee st = "" ->
        r = (db, AttendancePage.toast "Please select an employee" st))
    /\ (has_role db cur_user admin = false -> fst r = db)
    /\ (isAdmin = true -> AttendancePage.selectedEmployee st <> "" ->
        cur_user <> None -> has_role db cur_user admin = false ->
        snd r = AttendancePage.toast (rls_message "attendance") st).
Proof.
  intros db cur_user isAdmin new_id now st r. subst r.
  unfold AttendancePage.handleClockIn. repeat split.
  - now intros ->.
  - intros -> ->. reflexivity.
  - intros Hno. destruct isAdmin; simpl; auto.
    destruct (truthy_string (AttendancePage.selectedEmployee st)); simpl; auto.
    destruct cur_user as [me|]; auto.
    unfold AttendancePage.insert_attendance, Policy.attendance_insert. now rewrite Hno.
  - intros -> Hsel Hu Hno. simpl. unfold truthy_string.
    apply String.eqb_neq in Hsel. rewrite Hsel. simpl.
    destruct cur_user as [me|]; [|contradiction].
    unfold AttendancePage.insert_attendance, Policy.attendance_insert. now rewrite Hno.
Qed.

Lemma attendance_select_ext (db1 db2 : database) (uid : option uuid) (a : Attendance.row) :
  Db.user_roles db1 = Db.user_roles db2 ->
  Policy.attendance_select db1 uid a = Policy.attendance_select db2 uid a.
Proof. intros H. unfold Policy.attendance_select. now rewrite (has_role_ext db1 db2). Qed.

(** An admin's clock-in stores an open record. With an employee selected who
    has a profile, the store gains a record of that employee, clocked in at
    the store's current time, with no clock-out, marked by the admin, and
    with the typed note (none when the field is empty); the form is cleared;
    the admin's list shows the record with a dash as duration and the Clock
    Out button; and the employee, reading their own attendance, is listed
    the record. *)
Theorem clock_in_records_an_open_shift :
  forall (db : database) (me : uuid) (new_id : uuid) (now : timestamptz)
         (st : AttendancePage.state),
    has_role db (Some me) admin = true ->
    AttendancePage.selectedEmployee st <> "" ->
    has_key Profiles.id (AttendancePage.selectedEmployee st) (Db.profiles db) = true ->
    has_key Profiles.id me (Db.profiles db) = true ->
    has_key Attendance.id new_id (Db.attendance db) = false ->
    let employee := AttendancePage.selectedEmployee st in
    let r := AttendancePage.handleClockIn db (Some me) true new_id now st in
    let row :=
      {| Attendance.id := new_id; Attendance.user_id := employee;
         Attendance.clock_in := now; Attendance.clock_out := None;
         Attendance.notes :=
           if AttendancePage.notes_input st =? "" then None
           else Some (AttendancePage.notes_input st);
         Attendance.marked_by := me;
         Attendance.created_at := now; Attendance.updated_at := now |} in
    Db.attendance (fst r) = (Db.attendance db ++ [row])%list
    /\ AttendancePage.selectedEmployee (snd r) = ""
    /\ AttendancePage.notes_input (snd r) = ""
    /\ AttendancePage.toasts (snd r)
       = (AttendancePage.toasts st ++ ["Clock in recorded successfully"])%list
    /\ In (AttendancePage.select_columns (fst r) (Some me) row)
          (AttendancePage.attendanceRecords (snd r))
    /\ AttendancePage.duration_text
         (AttendancePage.duration (AttendancePage.select_columns (fst r) (Some me) row))
       = AttendancePage.Dash
    /\ AttendancePage.clock_out_rendered true
         (AttendancePage.select_columns (fst r) (Some me) row) = true
    /\ (forall ste,
          In (AttendancePage.select_columns (fst r) (Some employee) row)
             (AttendancePage.attendanceRecords
                (AttendancePage.fetchAttendanceRecords (fst r) (Some employee) false ste))).
Proof.
  intros db me new_id now st Hadm Hsel Hpe Hpm Hk employee r row.
  assert (Hr : r = (Db.with_attendance db (Db.attendance db ++ [row]),
                    AttendancePage.fetchAttendanceRecords
                      (Db.with_attendance db (Db.attendance db ++ [row])) (Some me) true
                      {| AttendancePage.attendanceRecords :=
                           AttendancePage.attendanceRecords st;
                         AttendancePage.loading := AttendancePage.loading st;
                         AttendancePage.selectedEmployee := "";
                         AttendancePage.notes_input := "";
                         AttendancePage.toasts :=
                           AttendancePage.toasts st ++ ["Clock in recorded successfully"]
                      |})).
  { subst r row employee. unfold AttendancePage.handleClockIn. simpl.
    unfold truthy_string at 1. apply String.eqb_neq in Hsel. rewrite Hsel. simpl.
    unfold AttendancePage.insert_attendance, Policy.attendance_insert.
    rewrite Hadm, Hpe, Hpm, Hk. simpl. unfold truthy_string.
    now destruct (AttendancePage.notes_input st =? ""). }
  rewrite Hr. cbn [fst snd].
  set (db1 := Db.with_attendance db (Db.attendance db ++ [row])).
  split; [reflexivity|]. split; [reflexivity|]. split; [reflexivity|].
  split; [reflexivity|]. split; [|split; [reflexivity|split; [reflexivity|]]].
  - unfold AttendancePage.fetchAttendanceRecords. simpl.
    apply in_map, order_desc_In, filter_In. split.
    + apply in_or_app. right. now left.
    + unfold Policy.attendance_select.
      rewrite (has_role_ext db1 db) by reflexivity. rewrite Hadm. apply orb_true_r.
  - intros ste. unfold AttendancePage.fetchAttendanceRecords. simpl.
    apply in_map, order_desc_In, filter_In. split.
    + apply filter_In. split.
      * apply in_or_app. right. now left.
      * unfold Policy.attendance_select. simpl. now rewrite String.eqb_refl.
    + simpl. apply String.eqb_refl.
Qed.

Lemma clock_in_records_an_open_shift_witness :
  map (fun a => (Attendance.user_id a, Attendance.clock_in a, Attendance.clock_out a))
    (Db.attendance
       (fst (AttendancePage.handleClockIn Sample.db (Some Sample.dana) true
               "a77e0000-0000-4000-8000-000000000002" 1737104400000%Z
               Scenes.bob_selected)))
  = [ (Sample.carol, 1737018000000%Z, None); (Sample.bob, 1737104400000%Z, None) ].
Proof.
  assert (Hsel : AttendancePage.selectedEmployee Scenes.bob_selected <> "")
    by discriminate.
  destruct (clock_in_records_an_open_shift Sample.db Sample.dana
              "a77e0000-0000-4000-8000-000000000002" 1737104400000%Z Scenes.bob_selected
              eq_refl Hsel eq_refl eq_refl eq_refl) as [H _].
  rewrite H. reflexivity.
Defined.

(** ** The Profile page *)

Lemma unique_key_filter {A : Type} (key : A -> uuid) (k : uuid) (p : A) (l : list A) :
  NoDup (map key l) -> In p l -> key p = k ->
  filter (fun x => key x =? k) l = [p].
Proof.
  induction l as [|a l IH]; simpl; intros Hnd Hin Hk; [destruct Hin|].
  inversion Hnd as [|? ? Hnotin Hnd']; subst.
  destruct Hin as [->|Hin].
  - rewrite String.eqb_refl. f_equal. apply filter_none. intros x Hx.
    apply String.eqb_neq. intros E. apply Hnotin. rewrite <- E. now apply in_map.
  - destruct (key a =? key p) eqn:E.
    + apply String.eqb_eq in E. exfalso. apply Hnotin. rewrite E. now apply in_map.
    + now apply IH.
Qed.

Lemma own_profile_rows (db : database) (me : uuid) (l : list Profiles.row) :
  filter (fun p => Profiles.id p =? me) (filter (Policy.profiles_select db (Some me)) l)
  = filter (fun p => Profiles.id p =? me) l.
Proof.
  rewrite filter_twice. apply filter_ext. intros p.
  rewrite profiles_visible_to_owner_or_admin. simpl.
  rewrite (String.eqb_sym me).
  destruct (Profiles.id p =? me); simpl; auto using andb_false_r.
Qed.

(** The Profile page shows the caller's own row. With ids unique, a
    signed-in user who has a profile is shown its name, email, department
    and hire date; one who has none keeps what the page showed and gets
    "Failed to load profile". *)
Theorem profile_page_shows_own_row :
  forall (db : database) (me : uuid) (st : ProfilePage.state),
    NoDup (map Profiles.id (Db.profiles db)) ->
    (forall p, In p (Db.profiles db) -> Profiles.id p = me ->
               ProfilePage.fetchProfile db (Some me) st
               = {| ProfilePage.profile :=
                      Some {| ProfilePage.name := Profiles.name p;
                              ProfilePage.email := Profiles.email p;
                              ProfilePage.department := Profiles.department p;
                              ProfilePage.hire_date := Profiles.hire_date p |};
                    ProfilePage.loading := false;
                    ProfilePage.toasts := ProfilePage.toasts st |})
    /\ (has_key Profiles.id me (Db.profiles db) = false ->
        ProfilePage.fetchProfile db (Some me) st
        = {| ProfilePage.profile := ProfilePage.profile st;
             ProfilePage.loading := false;
             ProfilePage.toasts := ProfilePage.toasts st ++ ["Failed to load profile"] |}).
Proof.
  intros db me st Hnd. split.
  - intros p Hin Hid. unfold ProfilePage.fetchProfile, ProfilePage.select_profile.
    rewrite own_profile_rows, (unique_key_filter Profiles.id me p) by assumption.
    reflexivity.
  - intros Hno. unfold ProfilePage.fetchProfile, ProfilePage.select_profile.
    rewrite own_profile_rows, filter_none; [reflexivity|].
    intros p Hin. apply not_true_is_false. intros E.
    assert (Hex : has_key Profiles.id me (Db.profiles db) = true)
      by (apply existsb_exists; exists p; auto).
    congruence.
Qed.

Lemma profile_page_shows_own_row_witness :
  NoDup (map Profiles.id (Db.profiles Sample.db))
  /\ ProfilePage.profile (ProfilePage.fetchProfile Sample.db (Some Sample.bob)
                            ProfilePage.initial)
     = Some {| ProfilePage.name := "Bob"; ProfilePage.email := "bob@example.com";
               ProfilePage.department := Some "Operations";
               ProfilePage.hire_date := Some "2024-03-01" |}.
Proof.
  assert (Hnd : NoDup (map Profiles.id (Db.profiles Sample.db))).
  { repeat constructor; simpl; intuition discriminate. }
  split; [exact Hnd|].
  destruct (profile_page_shows_own_row Sample.db Sample.bob ProfilePage.initial Hnd)
    as [H _].
  rewrite (H (Sample.profile_of Sample.bob "Bob" "bob@example.com")).
  - reflexivity.
  - simpl. auto.
  - reflexivity.
Defined.

(** A saved edit reads back as shown. After a signed-in user with a profile
    loads the page and saves a name and a department, the profile the page
    shows, merged locally, is the profile a fresh read of the store gives,
    and it carries the saved name and department. *)
Theorem profile_edit_reads_back :
  forall (db : database) (me : uuid) (form_name form_department : string)
         (now : timestamptz) (st : ProfilePage.state),
    NoDup (map Profiles.id (Db.profiles db)) ->
    has_key Profiles.id me (Db.profiles db) = true ->
    let loaded := ProfilePage.fetchProfile db (Some me) st in
    let r := ProfilePage.handleSubmit db (Some me) form_name form_department now loaded in
    ProfilePage.profile (ProfilePage.fetchProfile (fst r) (Some me) (snd r))
    = ProfilePage.profile (snd r)
    /\ exists shown,
         ProfilePage.profile (snd r) = Some shown
         /\ ProfilePage.name shown = form_name
         /\ ProfilePage.department shown = Some form_department.
Proof.
  intros db me form_name form_department now st Hnd Hhas loaded r.
  apply existsb_exists in Hhas. destruct Hhas as [p [Hin Hid]].
  apply String.eqb_eq in Hid.
  set (u := {| ProfilePage.upd_name := form_name;
               ProfilePage.upd_department := form_department |}).
  set (rows := map (fun q => if Profiles.id q =? me
                             then ProfilePage.apply_updates u now q else q)
                 (Db.profiles db)).
  assert (Hloaded : ProfilePage.profile loaded = Some (ProfilePage.select_columns p)).
  { subst loaded.
    now rewrite (proj1 (profile_page_shows_own_row db me st Hnd) p Hin Hid). }
  assert (Hupd : ProfilePage.update_profile db (Some me) u now
                 = (Db.with_profiles db rows, None)).
  { unfold ProfilePage.update_profile. rewrite update_rows_accepted.
    - f_equal. f_equal. apply map_ext. intros q. unfold Policy.profiles_update. simpl.
      rewrite (String.eqb_sym me). now rewrite andb_diag.
    - intros q _ Hu _. split; auto. }
  assert (Hr : r = (Db.with_profiles db rows,
                    {| ProfilePage.profile :=
                         Some (ProfilePage.merge_updates (ProfilePage.select_columns p) u);
                       ProfilePage.loading := ProfilePage.loading loaded;
                       ProfilePage.toasts :=
                         ProfilePage.toasts loaded ++ ["Profile updated successfully"] |})).
  { subst r. unfold ProfilePage.handleSubmit. fold u. now rewrite Hupd, Hloaded. }
  rewrite Hr. cbn [fst snd ProfilePage.profile]. split.
  - assert (Hids : map Profiles.id rows = map Profiles.id (Db.profiles db)).
    { subst rows. rewrite map_map. apply map_ext. intros q.
      now destruct (Profiles.id q =? me). }
    assert (Hnd' : NoDup (map Profiles.id (Db.profiles (Db.with_profiles db rows)))).
    { simpl. now rewrite Hids. }
    rewrite (proj1 (profile_page_shows_own_row (Db.with_profiles db rows) me _ Hnd')
               (ProfilePage.apply_updates u now p)).
    + reflexivity.
    + simpl. subst rows. apply in_map_iff. exists p. split; auto.
      apply String.eqb_eq in Hid. now rewrite Hid.
    + exact Hid.
  - eexists. split; [reflexivity|]. simpl. auto.
Qed.

Lemma profile_edit_reads_back_witness :
  ProfilePage.profile
    (snd (ProfilePage.handleSubmit Sample.db (Some Sample.bob) "Robert" "Research"
            1737367200000%Z
            (ProfilePage.fetchProfile Sample.db (Some Sample.bob) ProfilePage.initial)))
  = Some {| ProfilePage.name := "Robert"; ProfilePage.email := "bob@example.com";
            ProfilePage.department := Some "Research";
            ProfilePage.hire_date := Some "2024-03-01" |}.
Proof.
  assert (Hnd : NoDup (map Profiles.id (Db.profiles Sample.db))).
  { repeat constructor; simpl; intuition discriminate. }
  destruct (profile_edit_reads_back Sample.db Sample.bob "Robert" "Research"
              1737367200000%Z ProfilePage.initial Hnd eq_refl) as [H _].
  rewrite <- H. reflexivity.
Defined.

(** How a save is reported. Without a signed-in user it fails: the store
    stays as it was and the page shows "Failed to update profile". For a
    signed-in user it is always reported as "Profile updated successfully",
    also when the user has no profile row and the store stays as it was. *)
Theorem profile_save_outcome :
  forall (db : database) (cur_user : option uuid) (form_name form_department : string)
         (now : timestamptz) (st : ProfilePage.state),
    let r := ProfilePage.handleSubmit db cur_user form_name form_department now st in
    (cur_user = None ->
     r = (db, {| ProfilePage.profile := ProfilePage.profile st;
                 ProfilePage.loading := ProfilePage.loading st;
                 ProfilePage.toasts :=
                   ProfilePage.toasts st ++ ["Failed to update profile"] |}))
    /\ (cur_user <> None ->
        ProfilePage.toasts (snd r)
        = (ProfilePage.toasts st ++ ["Profile updated successfully"])%list)
    /\ (forall me, cur_user = Some me ->
                   has_key Profiles.id me (Db.profiles db) = false -> fst r = db).
Proof.
  intros db cur_user form_name form_department now st r. subst r.
  split; [now intros ->|].
  assert (Hupd : forall me u,
             ProfilePage.update_profile db (Some me) u now
             = (Db.with_profiles db
                  (map (fun q => if Policy.profiles_update (Some me) q
                                    && (Profiles.id q =? me)
                                 then ProfilePage.apply_updates u now q else q)
                     (Db.profiles db)), None)).
  { intros me u. unfold ProfilePage.update_profile.
    rewrite update_rows_accepted; [reflexivity | intros q _ Hu _; split; auto]. }
  split.
  - destruct cur_user as [me|]; [intros _|contradiction].
    unfold ProfilePage.handleSubmit. now rewrite Hupd.
  - intros me -> Hno. unfold ProfilePage.handleSubmit. rewrite Hupd. cbn [fst].
    rewrite (map_ext_in _ (fun q => q)), map_id; [apply with_profiles_same|].
    intros q Hin.
    assert (Hq : (Profiles.id q =? me) = false).
    { apply not_true_is_false. intros E.
      assert (Hex : has_key Profiles.id me (Db.profiles db) = true)
        by (apply existsb_exists; exists q; auto).
      congruence. }
    now rewrite Hq, andb_false_r.
Qed.

(** ** What no page writes *)

Lemma insert_activity_log_store (db : database) (uid owner : option uuid)
    (act descr : string) (new_id : uuid) (now : timestamptz) :
  exists rows,
    fst (LeavesPage.insert_activity_log db uid owner act descr new_id now)
    = Db.with_activity_logs db rows.
Proof.
  assert (Hsame : db = Db.with_activity_logs db (Db.activity_logs db)) by now destruct db.
  unfold LeavesPage.insert_activity_log. destruct owner as [o|].
  - repeat (case_if; [exists (Db.activity_logs db); exact Hsame|]).
    eexists. reflexivity.
  - exists (Db.activity_logs db). exact Hsame.
Qed.

Lemma handleSubmitLeave_store (db : database) (cur_user : option uuid) (isAdmin : bool)
    (f : LeavesPage.form) (ids : uuid * uuid) (now : timestamptz) (st : LeavesPage.state) :
  exists leaves' logs',
    fst (LeavesPage.handleSubmitLeave db cur_user isAdmin f ids now st)
    = Db.with_activity_logs (Db.with_leaves db leaves') logs'.
Proof.
  unfold LeavesPage.handleSubmitLeave.
  match goal with |- context [LeavesPage.insert_leave ?a ?b ?c ?d ?e] =>
    destruct (insert_leave_cases a b c d e)
      as [[e' ->]|[owner [ty [d1 [d2 [_ [_ [_ [_ ->]]]]]]]]]
  end.
  - exists (Db.leaves db), (Db.activity_logs db). now destruct db.
  - cbn [fst snd].
    match goal with |- context [LeavesPage.insert_activity_log ?a ?b ?c ?x ?y ?z ?w] =>
      destruct (insert_activity_log_store a b c x y z w) as [logs' ->]
    end.
    eexists. eexists. reflexivity.
Qed.

Lemma handleClockIn_store (db : database) (cur_user : option uuid) (isAdmin : bool)
    (new_id : uuid) (now : timestamptz) (st : AttendancePage.state) :
  exists rows,
    fst (AttendancePage.handleClockIn db cur_user isAdmin new_id now st)
    = Db.with_attendance db rows.
Proof.
  assert (Hsame : db = Db.with_attendance db (Db.attendance db)) by now destruct db.
  unfold AttendancePage.handleClockIn.
  repeat (case_if; [exists (Db.attendance db); exact Hsame|]).
  destruct cur_user as [me|]; [|exists (Db.attendance db); exact Hsame].
  unfold AttendancePage.insert_attendance.
  repeat (case_if; [exists (Db.attendance db); exact Hsame|]).
  eexists. reflexivity.
Qed.

Lemma step_keeps_identities (s : Pages.state) (a : Pages.action) :
  Db.user_roles (Pages.db (Pages.step s a)) = Db.user_roles (Pages.db s)
  /\ Db.admin_data (Pages.db (Pages.step s a)) = Db.admin_data (Pages.db s)
  /\ map Profiles.id (Db.profiles (Pages.db (Pages.step s a)))
     = map Profiles.id (Db.profiles (Pages.db s)).
Proof.
  destruct a as [la|v|v|cu ia nid now|cu ia rid cn sn|cu ia|cu|cu fname fdep now];
    simpl; auto.
  - destruct la as [v|cu ia f ids now|cu ia lid cn sn|cu ia lid cn sn|cu ia]; simpl; auto.
    + destruct (handleSubmitLeave_store (Pages.db s) cu ia f ids now (Pages.leaves_page s))
        as [l' [g' ->]]. simpl. auto.
    + destruct (review_rows approved "Leave approved" "Failed to approve leave"
                  (Pages.db s) cu ia lid cn sn (Pages.leaves_page s)) as [rows [H _]].
      unfold LeavesPage.handleApprove. rewrite H. simpl. auto.
    + destruct (review_rows rejected "Leave rejected" "Failed to reject leave"
                  (Pages.db s) cu ia lid cn sn (Pages.leaves_page s)) as [rows [H _]].
      unfold LeavesPage.handleReject. rewrite H. simpl. auto.
  - destruct (handleClockIn_store (Pages.db s) cu ia nid now (Pages.attendance_page s))
      as [rows ->]. simpl. auto.
  - rewrite handleClockOut_store. destruct ia; auto.
    destruct (update_clock_out_rows (Pages.db s) cu cn rid sn) as [rows [-> _]].
    simpl. auto.
  - rewrite handleSubmit_store.
    destruct (update_profile_rows (Pages.db s) cu
                {| ProfilePage.upd_name := fname; ProfilePage.upd_department := fdep |} now)
      as [rows [-> H]].
    simpl. repeat split; auto.
    induction H as [|p p' l l' Hp _ IH]; simpl; auto.
    f_equal; auto. destruct Hp as [->|[_ ->]]; reflexivity.
Qed.

(** No handler of the Leaves, Attendance and Profile pages writes a role, a
    confidential record or a profile id: over any run of their actions, by
    any callers, [user_roles] and [admin_data] stay as they were, the
    profiles keep their ids, and every identity has exactly the roles it
    had. *)
Theorem pages_never_change_roles :
  forall (s : Pages.state) (actions : list Pages.action),
    let s' := Pages.run s actions in
    Db.user_roles (Pages.db s') = Db.user_roles (Pages.db s)
    /\ Db.admin_data (Pages.db s') = Db.admin_data (Pages.db s)
    /\ map Profiles.id (Db.profiles (Pages.db s')) = map Profiles.id (Db.profiles (Pages.db s))
    /\ (forall uid r, has_role (Pages.db s') uid r = has_role (Pages.db s) uid r).
Proof.
  intros s actions s'. subst s'.
  assert (H : Db.user_roles (Pages.db (Pages.run s actions)) = Db.user_roles (Pages.db s)
              /\ Db.admin_data (Pages.db (Pages.run s actions)) = Db.admin_data (Pages.db s)
              /\ map Profiles.id (Db.profiles (Pages.db (Pages.run s actions)))
                 = map Profiles.id (Db.profiles (Pages.db s))).
  { unfold Pages.run. revert s. induction actions as [|a actions IH]; intros s; simpl; auto.
    destruct (IH (Pages.step s a)) as [H1 [H2 H3]].
    destruct (step_keeps_identities s a) as [G1 [G2 G3]].
    repeat split; congruence. }
  destruct H as [H1 [H2 H3]]. repeat split; auto.
  intros uid r. now apply has_role_ext.
Qed.

(** ** The Employees page *)

Lemma includes_empty (s : string) : includes s "" = true.
Proof. destruct s; reflexivity. Qed.




(** An empty search box lists every employee, for any lower-casing that
    keeps the empty string empty. *)
Theorem empty_search_lists_everyone :
  forall (toLowerCase : string -> string) (st : EmployeesPage.state),
    toLowerCase "" = "" ->
    EmployeesPage.filteredEmployees (EmployeesPage.onSearchChange toLowerCase "" st)
    = EmployeesPage.employees st.
Proof.
  intros toLowerCase st H. unfold EmployeesPage.onSearchChange, EmployeesPage.search_effect.
  simpl. apply filter_all. intros emp _. unfold EmployeesPage.matches.
  now rewrite H, includes_empty.
Qed.

Lemma empty_search_lists_everyone_witness :
  lower_letters "" = ""
  /\ List.length
       (EmployeesPage.filteredEmployees
          (EmployeesPage.onSearchChange lower_letters "" Scenes.directory)) = 2.
Proof.
  split; [reflexivity|].
  rewrite (empty_search_lists_everyone lower_letters Scenes.directory eq_refl).
  reflexivity.
Defined.



Lemma existsb_none {A : Type} (f : A -> bool) (l : list A) :
  (forall x, f x = false) -> existsb f l = false.
Proof. intros H. induction l as [|a l IH]; simpl; auto. now rewrite H. Qed.

Lemma delete_profile_denied (db : database) (uid : option uuid) (employeeId : uuid) :
  EmployeesPage.delete_profile db uid employeeId = (db, None).
Proof.
  unfold EmployeesPage.delete_profile. cbv zeta.
  assert (Hnil : filter (fun p => Policy.profiles_select db uid p
                                  && EmployeesPage.profiles_delete db uid p
                                  && (Profiles.id p =? employeeId)) (Db.profiles db) = []).
  { apply filter_none. intros p _. unfold EmployeesPage.profiles_delete.
    now rewrite andb_false_r. }
  rewrite Hnil. unfold has_key. simpl.
  assert (Hall : forall (A : Type) (l : list A), filter (fun _ => true) l = l).
  { intros A l. apply filter_all. reflexivity. }
  rewrite !Hall.
  rewrite (existsb_none (fun l => match Leaves.reviewed_by l with
                                  | Some _ => false
                                  | None => false
                                  end)) by (intros l; now destruct (Leaves.reviewed_by l)).
  rewrite existsb_none by reflexivity. simpl.
  rewrite filter_all.
  - now destruct db.
  - intros p _. unfold EmployeesPage.profiles_delete. now rewrite andb_false_r.
Qed.

(** Deleting an employee removes nothing. The migrations define no DELETE
    policy on [profiles], so the delete of [handleDeleteConfirm] matches no
    row and returns no error: the store stays as it was, whoever the caller
    is, and the page shows "Employee deleted successfully", closes the
    dialog and re-reads the list. *)
Theorem deleting_an_employee_removes_nothing :
  forall (fetchEmployees : database -> EmployeesPage.state -> EmployeesPage.state)
         (db : database) (cur_user : option uuid) (st : EmployeesPage.state),
    fst (EmployeesPage.handleDeleteConfirm fetchEmployees db cur_user st) = db
    /\ (forall employeeId,
          employeeId <> "" ->
          EmployeesPage.handleDeleteConfirm fetchEmployees db cur_user
            (EmployeesPage.handleDeleteClick employeeId st)
          = (db, fetchEmployees db
                   {| EmployeesPage.employees := EmployeesPage.employees st;
                      EmployeesPage.filteredEmployees := EmployeesPage.filteredEmployees st;
                      EmployeesPage.searchTerm := EmployeesPage.searchTerm st;
                      EmployeesPage.loading := EmployeesPage.loading st;
                      EmployeesPage.deleteDialogOpen := false;
                      EmployeesPage.employeeToDelete := None;
                      EmployeesPage.toasts :=
                        EmployeesPage.toasts st ++ ["Employee deleted successfully"] |})).
Proof.
  intros fetchEmployees db cur_user st. split.
  - unfold EmployeesPage.handleDeleteConfirm.
    destruct (EmployeesPage.employeeToDelete st) as [employeeId|]; auto.
    case_if; auto. now rewrite delete_profile_denied.
  - intros employeeId Hid. unfold EmployeesPage.handleDeleteConfirm. simpl.
    unfold truthy_string. apply String.eqb_neq in Hid. rewrite Hid. simpl.
    now rewrite delete_profile_denied.
Qed.

Lemma deleting_an_employee_removes_nothing_witness :
  Sample.bob <> ""
  /\ map Profiles.id
       (Db.profiles
          (fst (EmployeesPage.handleDeleteConfirm (fun _ st => st) Sample.db
                  (Some Sample.alice)
                  (EmployeesPage.handleDeleteClick Sample.bob Scenes.directory))))
     = [Sample.alice; Sample.bob; Sample.carol; Sample.dana].
Proof.
  assert (Hid : Sample.bob <> "") by discriminate.
  split; [exact Hid|].
  destruct (deleting_an_employee_removes_nothing (fun _ st => st) Sample.db
              (Some Sample.alice) Scenes.directory) as [_ H].
  rewrite (H Sample.bob Hid). reflexivity.
Defined.

(** ** More on the Attendance page *)

(** A clock-out that changes nothing is still reported as done. From a page
    that holds [isAdmin], when the caller does not have the admin role or no
    record has the id, the store stays as it was, no error comes back, and
    the page shows "Clock out recorded successfully" and re-reads its list. *)
Theorem clock_out_without_effect_reports_success :
  forall (db : database) (cur_user : option uuid) (recordId : uuid)
         (client_now server_now : timestamptz) (st : AttendancePage.state),
    has_role db cur_user admin = false
    \/ has_key Attendance.id recordId (Db.attendance db) = false ->
    AttendancePage.handleClockOut db cur_user true recordId client_now server_now st
    = (db, AttendancePage.fetchAttendanceRecords db cur_user true
             (AttendancePage.toast "Clock out recorded successfully" st)).
Proof.
  intros db cur_user recordId client_now server_now st H.
  assert (Hupd : AttendancePage.update_clock_out db cur_user client_now recordId server_now
                 = (db, None)).
  { unfold AttendancePage.update_clock_out. destruct H as [Hno|Hid].
    - rewrite update_rows_invisible by (intros r _; exact Hno).
      now rewrite with_attendance_same.
    - rewrite update_rows_accepted by (intros; split; auto).
      rewrite (map_ext_in _ (fun a => a)), map_id; [now rewrite with_attendance_same|].
      intros a Hin.
      assert (Ha : (Attendance.id a =? recordId) = false).
      { apply not_true_is_false. intros Ha.
        assert (Hex : has_key Attendance.id recordId (Db.attendance db) = true)
          by (apply existsb_exists; exists a; auto).
        congruence. }
      now rewrite Ha, andb_false_r. }
  unfold AttendancePage.handleClockOut. simpl. now rewrite Hupd.
Qed.

Lemma clock_out_without_effect_reports_success_witness :
  has_role Sample.db (Some Sample.carol) admin = false
  /\ AttendancePage.toasts
       (snd (AttendancePage.handleClockOut Sample.db (Some Sample.carol) true
               (Attendance.id Sample.carols_day) 1737046800000%Z 1737046800250%Z
               AttendancePage.initial))
     = ["Clock out recorded successfully"].
Proof.
  split; [reflexivity|].
  rewrite (clock_out_without_effect_reports_success Sample.db (Some Sample.carol)
             (Attendance.id Sample.carols_day) 1737046800000%Z 1737046800250%Z
             AttendancePage.initial (or_introl eq_refl)).
  reflexivity.
Defined.

(** Which records the Attendance page lists. An admin whose page holds
    [isAdmin] is listed every record of the store; a caller whose page does
    not hold it is listed their own records, admin or not; and a caller who
    is not signed in keeps the list the page had. *)
Theorem attendance_listed_by_role :
  forall (db : database) (me : uuid) (st : AttendancePage.state),
    (has_role db (Some me) admin = true ->
     AttendancePage.attendanceRecords
       (AttendancePage.fetchAttendanceRecords db (Some me) true st)
     = map (AttendancePage.select_columns db (Some me))
         (order_desc Attendance.clock_in (Db.attendance db)))
    /\ AttendancePage.attendanceRecords
         (AttendancePage.fetchAttendanceRecords db (Some me) false st)
       = map (AttendancePage.select_columns db (Some me))
           (order_desc Attendance.clock_in
              (filter (fun a => Attendance.user_id a =? me) (Db.attendance db)))
    /\ (forall isAdmin,
          AttendancePage.attendanceRecords
            (AttendancePage.fetchAttendanceRecords db None isAdmin st)
          = AttendancePage.attendanceRecords st).
Proof.
  intros db me st. split; [|split].
  - intros Hadm. unfold AttendancePage.fetchAttendanceRecords. simpl.
    rewrite filter_all; auto.
    intros a _. unfold Policy.attendance_select. rewrite Hadm. apply orb_true_r.
  - unfold AttendancePage.fetchAttendanceRecords. simpl. do 2 f_equal.
    rewrite filter_twice. apply filter_ext. intros a.
    unfold Policy.attendance_select. simpl. rewrite (String.eqb_sym me).
    destruct (Attendance.user_id a =? me); simpl; auto using andb_false_r.
  - reflexivity.
Qed.

(** ** What no page removes *)

Lemma handleClockIn_rows (db : database) (cur_user : option uuid) (isAdmin : bool)
    (new_id : uuid) (now : timestamptz) (st : AttendancePage.state) :
  Db.attendance (fst (AttendancePage.handleClockIn db cur_user isAdmin new_id now st))
  = Db.attendance db
  \/ exists row,
       Db.attendance (fst (AttendancePage.handleClockIn db cur_user isAdmin new_id now st))
       = (Db.attendance db ++ [row])%list.
Proof.
  unfold AttendancePage.handleClockIn.
  destruct isAdmin; simpl; auto.
  destruct (truthy_string (AttendancePage.selectedEmployee st)); simpl; auto.
  destruct cur_user as [me|]; auto.
  unfold AttendancePage.insert_attendance.
  destruct (negb (Policy.attendance_insert _ _ _)); simpl; auto.
  destruct (negb (_ && _)); simpl; auto.
  destruct (has_key Attendance.id _ _); simpl; auto.
  right. eexists. reflexivity.
Qed.

Lemma step_keeps_rows (s : Pages.state) (a : Pages.action) :
  List.length (Db.leaves (Pages.db s)) <= List.length (Db.leaves (Pages.db (Pages.step s a)))
  /\ List.length (Db.attendance (Pages.db s))
     <= List.length (Db.attendance (Pages.db (Pages.step s a)))
  /\ List.length (Db.profiles (Pages.db (Pages.step s a)))
     = List.length (Db.profiles (Pages.db s)).
Proof.
  destruct (step_keeps_identities s a) as [_ [_ Hids]].
  assert (Hp : List.length (Db.profiles (Pages.db (Pages.step s a)))
               = List.length (Db.profiles (Pages.db s))).
  { rewrite <- (length_map Profiles.id), Hids. apply length_map. }
  split; [|split; [|exact Hp]].
  - destruct a as [la|v|v|cu ia nid now|cu ia rid cn sn|cu ia|cu|cu fname fdep now];
      simpl; auto.
    + destruct la as [v|cu ia f ids now|cu ia lid cn sn|cu ia lid cn sn|cu ia]; simpl; auto.
      * destruct (handleSubmitLeave_leaves (Pages.db s) cu ia f ids now
                    (Pages.leaves_page s)) as [->|[o [ty [d1 [d2 [r ->]]]]]]; auto.
        rewrite length_app. simpl. lia.
      * pose proof (review_statuses approved "Leave approved" "Failed to approve leave"
                      (Pages.db s) cu ia lid cn sn (Pages.leaves_page s)) as H.
        apply Forall2_length in H. unfold LeavesPage.handleApprove. lia.
      * pose proof (review_statuses rejected "Leave rejected" "Failed to reject leave"
                      (Pages.db s) cu ia lid cn sn (Pages.leaves_page s)) as H.
        apply Forall2_length in H. unfold LeavesPage.handleReject. lia.
    + destruct (handleClockIn_store (Pages.db s) cu ia nid now (Pages.attendance_page s))
        as [rows ->]. simpl. auto.
    + rewrite handleClockOut_store. destruct ia; auto.
      destruct (update_clock_out_rows (Pages.db s) cu cn rid sn) as [rows [-> _]].
      simpl. auto.
    + rewrite handleSubmit_store.
      destruct (update_profile_rows (Pages.db s) cu
                  {| ProfilePage.upd_name := fname; ProfilePage.upd_department := fdep |} now)
        as [rows [-> _]].
      simpl. auto.
  - destruct a as [la|v|v|cu ia nid now|cu ia rid cn sn|cu ia|cu|cu fname fdep now];
      simpl; auto.
    + destruct la as [v|cu ia f ids now|cu ia lid cn sn|cu ia lid cn sn|cu ia]; simpl; auto.
      * destruct (handleSubmitLeave_store (Pages.db s) cu ia f ids now
                    (Pages.leaves_page s)) as [l' [g' ->]]. simpl. auto.
      * destruct (review_rows approved "Leave approved" "Failed to approve leave"
                    (Pages.db s) cu ia lid cn sn (Pages.leaves_page s)) as [rows [H _]].
        unfold LeavesPage.handleApprove. rewrite H. simpl. auto.
      * destruct (review_rows rejected "Leave rejected" "Failed to reject leave"
                    (Pages.db s) cu ia lid cn sn (Pages.leaves_page s)) as [rows [H _]].
        unfold LeavesPage.handleReject. rewrite H. simpl. auto.
    + destruct (handleClockIn_rows (Pages.db s) cu ia nid now (Pages.attendance_page s))
        as [->|[row ->]]; auto.
      rewrite length_app. simpl. lia.
    + rewrite handleClockOut_store. destruct ia; auto.
      destruct (update_clock_out_rows (Pages.db s) cu cn rid sn) as [rows [-> H]].
      simpl. apply Forall2_length in H. lia.
    + rewrite handleSubmit_store.
      destruct (update_profile_rows (Pages.db s) cu
                  {| ProfilePage.upd_name := fname; ProfilePage.upd_department := fdep |} now)
        as [rows [-> _]].
      simpl. auto.
Qed.

(** No handler of the Leaves, Attendance and Profile pages removes a row:
    over any run of their actions the store never holds fewer leaves or
    fewer attendance records than before, and it holds as many profiles. *)
Theorem pages_never_remove_rows :
  forall (s : Pages.state) (actions : list Pages.action),
    let s' := Pages.run s actions in
    List.length (Db.leaves (Pages.db s)) <= List.length (Db.leaves (Pages.db s'))
    /\ List.length (Db.attendance (Pages.db s)) <= List.length (Db.attendance (Pages.db s'))
    /\ List.length (Db.profiles (Pages.db s')) = List.length (Db.profiles (Pages.db s)).
Proof.
  intros s actions s'. subst s'. unfold Pages.run. revert s.
  induction actions as [|a actions IH]; intros s; simpl; auto.
  destruct (IH (Pages.step s a)) as [H1 [H2 H3]].
  destruct (step_keeps_rows s a) as [G1 [G2 G3]].
  repeat split; lia.
Qed.

End Properties.

(** * The properties on the sample store

    with a store that takes dates in the form's spelling only. *)

Lemma review_writes_status_and_stamp_together_witness :
  Forall LeavesWorkflow.reviewed_consistently (Db.leaves Sample.db)
  /\ Forall LeavesWorkflow.reviewed_consistently
       (Db.leaves
          (fst (LeavesWorkflow.run (DI := Sample.iso_only) (Sample.db, Sample.sick_selected)
                  [ LeavesWorkflow.Submit (Some Sample.bob) false Sample.flu_form
                      Sample.fresh_ids 1736330400000%Z;
                    LeavesWorkflow.Approve (Some Sample.alice) true (fst Sample.fresh_ids)
                      1736247600000%Z 1736247600250%Z ]))).
Proof.
  assert (H : Forall LeavesWorkflow.reviewed_consistently (Db.leaves Sample.db)).
  { repeat constructor; discriminate. }
  split; [exact H|].
  destruct (review_writes_status_and_stamp_together (DI := Sample.iso_only)
              Sample.db None false "" 0%Z 0%Z LeavesPage.initial)
    as [_ [_ [_ [_ Hrun]]]].
  apply Hrun. exact H.
Defined.

Lemma signup_creates_a_regular_user_witness :
  exists db',
    Roles.handle_new_user (DI := Sample.iso_only) Sample.db Scenes.erin Scenes.erin_ids "2025-01-20"
      1737367200000%Z = Some db'
    /\ has_role db' (Some (Roles.nu_id Scenes.erin)) user = true
    /\ has_role db' (Some (Roles.nu_id Scenes.erin)) admin = false.
Proof.
  eexists. split; [reflexivity|].
  match goal with
  | |- has_role ?d _ _ = _ /\ _ =>
      destruct (signup_creates_a_regular_user (DI := Sample.iso_only) Sample.db d Scenes.erin Scenes.erin_ids
                  "2025-01-20" 1737367200000%Z eq_refl) as [H1 [H2 _]]
  end.
  split; [exact H1|]. rewrite H2. reflexivity.
Defined.

Lemma new_user_resolves_to_user_witness :
  exists db',
    Roles.handle_new_user (DI := Sample.iso_only) Sample.db Scenes.erin Scenes.erin_ids "2025-01-20"
      1737367200000%Z = Some db'
    /\ UseRole.role (UseRole.useRole db' (Some (Roles.nu_id Scenes.erin)) UseRole.initial)
       = Some user.
Proof.
  assert (Hid : Roles.nu_id Scenes.erin <> "") by discriminate.
  eexists. split; [reflexivity|].
  match goal with
  | |- UseRole.role (UseRole.useRole ?d _ _) = _ =>
      exact (proj1 (new_user_resolves_to_user (DI := Sample.iso_only) Sample.db d Scenes.erin Scenes.erin_ids
                      "2025-01-20" 1737367200000%Z UseRole.initial Hid eq_refl eq_refl))
  end.
Defined.

Lemma role_assignments_unique_per_role_witness :
  Roles.unique_assignments (Db.user_roles Sample.db) = true
  /\ List.length (Roles.assignments_of Sample.db Sample.bob) <= 2.
Proof.
  split; [reflexivity|].
  destruct (role_assignments_unique_per_role (DI := Sample.iso_only) Sample.db eq_refl) as [_ [_ [_ [H _]]]].
  apply H.
Defined.

Lemma refused_leave_request_changes_nothing_witness :
  leave_type_in (LeavesPage.leaveType LeavesPage.initial) = None
  /\ fst (LeavesPage.handleSubmitLeave (DI := Sample.iso_only) Sample.db (Some Sample.bob) false Sample.flu_form
            Sample.fresh_ids 1736330400000%Z LeavesPage.initial)
     = Sample.db.
Proof.
  split; [reflexivity|].
  rewrite (refused_leave_request_changes_nothing (DI := Sample.iso_only) Sample.db (Some Sample.bob) false
             Sample.flu_form Sample.fresh_ids 1736330400000%Z LeavesPage.initial
             (or_intror (or_introl eq_refl))).
  reflexivity.
Defined.

Lemma accepted_leave_request_is_stored_and_logged_witness :
  exists row,
    Db.leaves
      (fst (LeavesPage.handleSubmitLeave (DI := Sample.iso_only) Sample.db
              (Some Sample.bob) false
              {| LeavesPage.form_start_date := "10000-01-01";
                 LeavesPage.form_end_date := "2025-03-02";
                 LeavesPage.form_reason := "" |}
              Sample.fresh_ids 1736330400000%Z Sample.sick_selected))
    = [Sample.carols_leave; row]
    /\ Leaves.start_date row = "10000-01-01" /\ Leaves.end_date row = "2025-03-02".
Proof.
  eexists.
  destruct (accepted_leave_request_is_stored_and_logged (DI := Sample.iso_only)
              Sample.db Sample.bob false
              {| LeavesPage.form_start_date := "10000-01-01";
                 LeavesPage.form_end_date := "2025-03-02";
                 LeavesPage.form_reason := "" |}
              Sample.fresh_ids 1736330400000%Z Sample.sick_selected sick
              "10000-01-01" "2025-03-02"
              eq_refl eq_refl eq_refl eq_refl eq_refl) as [H _].
  split; [exact H|]. split; reflexivity.
Defined.

Lemma leave_for_someone_else_is_refused_witness :
  exists e,
    LeavesPage.insert_leave (DI := Sample.iso_only) Sample.db (Some Sample.bob)
      {| LeavesPage.ld_user_id := Some Sample.carol; LeavesPage.ld_type := "sick";
         LeavesPage.ld_start_date := "2025-01-10"; LeavesPage.ld_end_date := "2025-01-12";
         LeavesPage.ld_reason := "flu" |}
      (fst Sample.fresh_ids) 1736330400000%Z
    = (Sample.db, Some e).
Proof.
  apply leave_for_someone_else_is_refused. discriminate.
Defined.
